(** * go-stremio: request dispatch, user data decoding and caching headers

    A shallow embedding of the handlers of [handlers.go], of the construction
    and route assembly of [addon.go], and of the parts of Go's standard
    library they rest on, followed by the properties of the specification
    that were checked against them. *)

From Stdlib Require Import ZArith Ascii String List Bool Lia DecimalString.
From stdpp Require Import gmap strings list fin_maps.

Local Open Scope string_scope.
Local Open Scope Z_scope.

(** ** Strings

    A Go [string] is a sequence of bytes; so is a Rocq [string]. *)

Module Strings.

(** [strings.HasSuffix]. *)
Definition HasSuffix (s suffix : string) : bool :=
  let n := String.length s in
  let k := String.length suffix in
  (k <=? n)%nat && String.eqb (substring (n - k) k s) suffix.

(** [strings.TrimSuffix]: [s] without the given trailing suffix, once;
    [s] itself when it does not end with it. *)
Definition TrimSuffix (s suffix : string) : string :=
  if HasSuffix s suffix
  then substring 0 (String.length s - String.length suffix) s
  else s.

(** [strings.HasPrefix]. *)
Definition HasPrefix (s prefix : string) : bool :=
  String.prefix prefix s.

(** [strconv.Itoa]. *)
Definition Itoa (n : Z) : string :=
  NilZero.string_of_int (Z.to_int n).

(** Splitting at every occurrence of one byte, as [strings.Split] does
    with a separator of length one. *)
Fixpoint splitOn (sep : ascii) (s : string) : list string :=
  match s with
  | EmptyString => [EmptyString]
  | String c r =>
      if Ascii.eqb c sep then EmptyString :: splitOn sep r
      else match splitOn sep r with
           | [] => [String c EmptyString]
           | x :: xs => String c x :: xs
           end
  end.

(** The double quote, for the JSON text the handlers assemble. *)
Definition dquote : string := String (ascii_of_nat 34) EmptyString.

End Strings.

(** ** Errors

    Go's [error] values, as far as the handlers tell them apart. *)

(** Modelled from the spec: the sentinel not-found error [ErrNotFound] that
    [createStreamHandler] compares against with [errors.Is]; its declaration
    is not among the sources.  The other constructors are the errors of the
    standard library functions used by [decodeUserData], errors made by
    [errors.New], and wrapping with [fmt.Errorf] and the verb for wrapping. *)
Inductive error : Type :=
| ErrNotFound
| errorString (msg : string)
| CorruptInputError
| EscapeError (s : string)
| UnmarshalError (msg : string)
| wrapError (msg : string) (inner : error).

Fixpoint error_eqb (a b : error) : bool :=
  match a, b with
  | ErrNotFound, ErrNotFound => true
  | errorString x, errorString y => String.eqb x y
  | CorruptInputError, CorruptInputError => true
  | EscapeError x, EscapeError y => String.eqb x y
  | UnmarshalError x, UnmarshalError y => String.eqb x y
  | wrapError x a', wrapError y b' => String.eqb x y && error_eqb a' b'
  | _, _ => false
  end.

(** [errors.Is]: [target] is [err] or one of the errors [err] wraps. *)
Fixpoint errors_Is (err target : error) : bool :=
  error_eqb err target ||
  match err with
  | wrapError _ inner => errors_Is inner target
  | _ => false
  end.

(** A Go result pair [(value, error)] of which the caller reads the value
    only when the error is nil. *)
Inductive result (A : Type) : Type :=
| Ok (a : A)
| Err (e : error).
Arguments Ok {A} a.
Arguments Err {A} e.

(** ** [encoding/base64]: [URLEncoding.WithPadding(NoPadding)] *)

Module Base64.

Definition byte_of (c : ascii) : Z := Z.of_N (N_of_ascii c).
Definition to_byte (n : Z) : ascii := ascii_of_N (Z.to_N (Z.land n 255)).

(** The decode map of the URL alphabet [A-Z a-z 0-9 - _]; [None] stands
    for the entry 0xff of a byte outside the alphabet. *)
Definition decodeMap (c : ascii) : option Z :=
  let n := byte_of c in
  if (65 <=? n) && (n <=? 90) then Some (n - 65)
  else if (97 <=? n) && (n <=? 122) then Some (n - 71)
  else if (48 <=? n) && (n <=? 57) then Some (n + 4)
  else if n =? 45 then Some 62
  else if n =? 95 then Some 63
  else None.

(** The six-bit values. *)
Definition sextet (v : Z) : Prop := 0 <= v < 64.

(** The alphabet itself, for encoding. *)
Definition encodeMap (v : Z) : ascii :=
  if v <? 26 then to_byte (v + 65)
  else if v <? 52 then to_byte (v + 71)
  else if v <? 62 then to_byte (v - 4)
  else if v =? 62 then to_byte 45
  else to_byte 95.

Definition isNewline (c : ascii) : bool :=
  (byte_of c =? 10) || (byte_of c =? 13).

(** The six-bit values of the input in order.  Carriage returns and line
    feeds are skipped; any other byte outside the alphabet is corrupt
    input.  Without padding the character [=] is such a byte. *)
Fixpoint sextets (s : string) : result (list Z) :=
  match s with
  | EmptyString => Ok []
  | String c r =>
      match decodeMap c with
      | Some v =>
          match sextets r with
          | Ok vs => Ok (v :: vs)
          | Err e => Err e
          end
      | None => if isNewline c then sextets r else Err CorruptInputError
      end
  end.

(** [decodeQuantum], repeated: four values give three bytes; a last
    quantum of three values gives two bytes and one of two values gives
    one byte (the decoder is not strict about the unused low bits); a
    single left-over value is corrupt input. *)
Fixpoint decodeQuanta (vs : list Z) : result (list ascii) :=
  match vs with
  | [] => Ok []
  | [_] => Err CorruptInputError
  | [a; b] =>
      let val := Z.lor (Z.shiftl a 18) (Z.shiftl b 12) in
      Ok [to_byte (Z.shiftr val 16)]
  | [a; b; c] =>
      let val := Z.lor (Z.lor (Z.shiftl a 18) (Z.shiftl b 12)) (Z.shiftl c 6) in
      Ok [to_byte (Z.shiftr val 16); to_byte (Z.shiftr val 8)]
  | a :: b :: c :: d :: rest =>
      let val := Z.lor (Z.lor (Z.lor (Z.shiftl a 18) (Z.shiftl b 12))
                              (Z.shiftl c 6)) d in
      match decodeQuanta rest with
      | Ok bs => Ok (to_byte (Z.shiftr val 16) :: to_byte (Z.shiftr val 8)
                      :: to_byte val :: bs)
      | Err e => Err e
      end
  end.

(** [DecodeString]. *)
Definition DecodeString (s : string) : result string :=
  match sextets s with
  | Err e => Err e
  | Ok vs =>
      match decodeQuanta vs with
      | Ok bs => Ok (string_of_list_ascii bs)
      | Err e => Err e
      end
  end.

(** [EncodeToString] of the same encoding: three bytes give four six-bit
    values, a remainder of two bytes three and of one byte two; each value
    is written as its character of the alphabet, and no padding follows. *)
Fixpoint encodeValues (bs : list ascii) : list Z :=
match bs with
| [] => []
| [x] =>
    let val := Z.shiftl (byte_of x) 16 in
    [Z.land (Z.shiftr val 18) 63; Z.land (Z.shiftr val 12) 63]
| [x; y] =>
    let val := Z.lor (Z.shiftl (byte_of x) 16) (Z.shiftl (byte_of y) 8) in
    [Z.land (Z.shiftr val 18) 63; Z.land (Z.shiftr val 12) 63;
     Z.land (Z.shiftr val 6) 63]
| x :: y :: z :: rest =>
    let val := Z.lor (Z.lor (Z.shiftl (byte_of x) 16) (Z.shiftl (byte_of y) 8))
                     (byte_of z) in
    Z.land (Z.shiftr val 18) 63
      :: Z.land (Z.shiftr val 12) 63
      :: Z.land (Z.shiftr val 6) 63
      :: Z.land val 63
      :: encodeValues rest
end.

Definition EncodeToString (s : string) : string :=
string_of_list_ascii (map encodeMap (encodeValues (list_ascii_of_string s))).

(** The padded form of the same text, [URLEncoding.EncodeToString]: the
    output is filled with [=] up to a multiple of four characters. *)
Definition padding (n : nat) : string :=
  match (n mod 3)%nat with
  | 1%nat => "=="
  | 2%nat => "="
  | _ => ""
  end.

Definition EncodeToStringPadded (s : string) : string :=
  EncodeToString s +:+ padding (String.length s).

End Base64.

(** ** [net/url]: escaping of a path segment *)

Module URL.

Import Base64.

Definition ishex (c : ascii) : bool :=
  let n := byte_of c in
  ((48 <=? n) && (n <=? 57)) || ((97 <=? n) && (n <=? 102))
  || ((65 <=? n) && (n <=? 70)).

Definition unhex (c : ascii) : Z :=
  let n := byte_of c in
  if (48 <=? n) && (n <=? 57) then n - 48
  else if (97 <=? n) && (n <=? 102) then n - 97 + 10
  else if (65 <=? n) && (n <=? 70) then n - 65 + 10
  else 0.

Definition percent : ascii := ascii_of_nat 37.

(** [url.PathUnescape]: every [%XY] with two hexadecimal digits becomes
    the byte they spell; a [%] not followed by two such digits is an
    [EscapeError] holding at most three bytes from the [%] on.  A [+] is
    left as it is in a path segment. *)
Fixpoint PathUnescape (s : string) : result string :=
  match s with
  | EmptyString => Ok EmptyString
  | String c r =>
      if Ascii.eqb c percent then
        match r with
        | String a (String b r') =>
            if ishex a && ishex b then
              match PathUnescape r' with
              | Ok u =>
                  Ok (String (to_byte (Z.lor (Z.shiftl (unhex a) 4) (unhex b))) u)
              | Err e => Err e
              end
            else Err (EscapeError (String c (String a (String b EmptyString))))
        | _ => Err (EscapeError s)
        end
      else
        match PathUnescape r with
        | Ok u => Ok (String c u)
        | Err e => Err e
        end
  end.

(** [shouldEscape] in the mode of a path segment: letters, digits and
    [- _ . ~] are kept, and so are [$ & + : = @]; every other byte is
    escaped. *)
Definition shouldEscape (c : ascii) : bool :=
  let n := byte_of c in
  if ((97 <=? n) && (n <=? 122)) || ((65 <=? n) && (n <=? 90))
     || ((48 <=? n) && (n <=? 57)) then false
  else if (n =? 45) || (n =? 95) || (n =? 46) || (n =? 126) then false
  else if (n =? 36) || (n =? 38) || (n =? 43) || (n =? 58) || (n =? 61)
          || (n =? 64) then false
  else true.

(** The digits of [upperhex]. *)
Definition upperhex (v : Z) : ascii :=
  if v <? 10 then to_byte (v + 48) else to_byte (v - 10 + 65).

(** [url.PathEscape]. *)
Fixpoint PathEscape (s : string) : string :=
  match s with
  | EmptyString => EmptyString
  | String c r =>
      if shouldEscape c then
        String percent
          (String (upperhex (Z.shiftr (byte_of c) 4))
             (String (upperhex (Z.land (byte_of c) 15)) (PathEscape r)))
      else String c (PathEscape r)
  end.

End URL.

(** ** User data

    [RegisterUserData] records the type of the addon's user data as a
    [reflect.Type]; at most one type is registered per addon, here [T].
    What the handlers need of it is the zero value that [reflect.New]
    allocates and [json.Unmarshal] into a value of the type. *)

Section UserData.

Context {T : Type}.

Record reflect_Type : Type := {
  (** the value a pointer made by [reflect.New] points to *)
  type_Zero : T;
  (** [json.Unmarshal(data, p)] for [p] pointing to the given value: the
      value [p] points to afterwards, or the error *)
  json_Unmarshal : string -> T -> result T
}.

(** The values of Go's [any] that [decodeUserData] returns and that the
    callbacks receive as user data: the nil interface, a string, and a
    non-nil pointer to a value of the registered type. *)
Inductive any : Type :=
| anyNil
| anyString (s : string)
| anyPtr (pointee : T).

(** [decodeUserData]; the user data type [t] is [None] for the nil
    [reflect.Type].  The two components of the result are the two values
    the Go function returns, the error being [None] for nil. *)
Definition decodeUserData (data : string) (t : option reflect_Type)
    (userDataIsBase64 : bool) : any * option error :=
  if String.eqb data "" then (anyString "", None)
  else
    match t with
    | None => (anyString "", None)
    | Some t =>
        let userDataDecoded :=
          if userDataIsBase64 then
            let data := Strings.TrimSuffix data "=" in
            Base64.DecodeString data
          else URL.PathUnescape data in
        match userDataDecoded with
        | Err err => (anyNil, Some err)
        | Ok userDataDecoded =>
            let userData := type_Zero t in
            match json_Unmarshal t userDataDecoded userData with
            | Err err => (anyNil, Some err)
            | Ok userData => (anyPtr userData, None)
            end
        end
    end.

End UserData.

Arguments reflect_Type T : clear implicits.
Arguments any T : clear implicits.

(** The text a client puts into the URL for a value whose JSON form is
    [json]: the base64url form with or without padding, or the JSON text
    escaped for a path segment. *)
Inductive Encoding : Type :=
| Base64URLPadded
| Base64URLRaw
| PercentEncoded.

Definition encodeUserData (enc : Encoding) (json : string) : string :=
  match enc with
  | Base64URLPadded => Base64.EncodeToStringPadded json
  | Base64URLRaw => Base64.EncodeToString json
  | PercentEncoded => URL.PathEscape json
  end.

Definition isBase64 (enc : Encoding) : bool :=
  match enc with
  | PercentEncoded => false
  | _ => true
  end.

(** ** [net/http]: requests and response writers *)

Module HTTP.

Definition StatusOK : Z := 200.
Definition StatusMovedPermanently : Z := 301.
Definition StatusNotModified : Z := 304.
Definition StatusBadRequest : Z := 400.
Definition StatusNotFound : Z := 404.
Definition StatusInternalServerError : Z := 500.

(** A request as a handler sees it.  [PathValues] are the wildcard
    matches the serving mux has set; header names are keyed by the
    spelling the program uses, which stands for the canonical one. *)
Record Request : Type := {
  Method : string;
  URL_Path : string;
  URL_Query : gmap string string;
  Header : gmap string string;
  PathValues : gmap string string
}.

Definition PathValue (r : Request) (name : string) : string :=
  default "" (PathValues r !! name).

Definition Query_Get (r : Request) (name : string) : string :=
  default "" (URL_Query r !! name).

Definition Header_Get (h : gmap string string) (name : string) : string :=
  default "" (h !! name).

(** What has been written to a [ResponseWriter]: the header map, keyed
    like the request's, the status code once [WriteHeader] has run ([None]
    before), and the body. *)
Record ResponseWriter : Type := {
  header : gmap string string;
  statusCode : option Z;
  body : string
}.

Definition newResponseWriter : ResponseWriter :=
  {| header := ∅; statusCode := None; body := "" |}.

(** [Header().Set] and [Header().Del].  A key of the header map is the
    spelling the program uses and stands for the canonical form under
    which Go stores it: [ETag] for [Etag].  Two spellings of one header are
    two keys here. *)
Definition Header_Set (k v : string) (w : ResponseWriter) : ResponseWriter :=
  {| header := <[k := v]> (header w); statusCode := statusCode w; body := body w |}.

Definition Header_Del (k : string) (w : ResponseWriter) : ResponseWriter :=
  {| header := delete k (header w); statusCode := statusCode w; body := body w |}.

(** [WriteHeader]; a second call is ignored.  The code is taken to be a
    final status code that net/http accepts: 101, or one from 200 to 999.
    On a code below 100 or above 999 net/http panics, and after one of the
    other informational codes it sends an interim response and leaves the
    header open; neither is modelled.  The codes that the handlers of the
    program choose themselves are 200, 301, 304, 400, 404 and 500. *)
Definition WriteHeader (code : Z) (w : ResponseWriter) : ResponseWriter :=
  match statusCode w with
  | Some _ => w
  | None => {| header := header w; statusCode := Some code; body := body w |}
  end.

(** [Write]; the first write sends status 200 when none was sent. *)
Definition Write (data : string) (w : ResponseWriter) : ResponseWriter :=
  let w := WriteHeader StatusOK w in
  {| header := header w; statusCode := statusCode w; body := body w +:+ data |}.

(** The status the client receives: 200 when the handler returned
    without sending one. *)
Definition status (w : ResponseWriter) : Z :=
  default StatusOK (statusCode w).

Definition newline : string := String (ascii_of_nat 10) EmptyString.

(** [http.Error]. *)
Definition Error (w : ResponseWriter) (error : string) (code : Z) : ResponseWriter :=
  let w := Header_Del "Content-Length" w in
  let w := Header_Set "Content-Type" "text/plain; charset=utf-8" w in
  let w := Header_Set "X-Content-Type-Options" "nosniff" w in
  let w := WriteHeader code w in
  Write (error +:+ newline) w.

(** [http.NotFound]. *)
Definition NotFound (w : ResponseWriter) : ResponseWriter :=
  Error w "404 page not found" StatusNotFound.

Definition Handler : Type := ResponseWriter -> Request -> ResponseWriter.

End HTTP.

(** ** The manifest ([types.go])

    A Go slice is [None] when nil and otherwise holds its elements; the JSON
    form tells the two apart. *)

Definition slice (A : Type) : Type := option (list A).

Record BehaviorHints : Type := {
  Adult : bool;
  P2P : bool;
  Configurable : bool;
  ConfigurationRequired : bool
}.

Record ExtraItem : Type := {
  extra_Name : string;
  extra_IsRequired : bool;
  extra_Options : slice string;
  extra_OptionsLimit : Z
}.

Record CatalogItem : Type := {
  catalog_Type : string;
  catalog_ID : string;
  catalog_Name : string;
  catalog_Extra : slice ExtraItem
}.

Record ResourceItem : Type := {
  resource_Name : string;
  resource_Types : slice string;
  resource_IDprefixes : slice string
}.

Record Manifest : Type := {
  ID : string;
  Name : string;
  Description : string;
  Version : string;
  ResourceItems : slice ResourceItem;
  Types : slice string;
  Catalogs : slice CatalogItem;
  IDprefixes : slice string;
  Background : string;
  Logo : string;
  ContactEmail : string;
  manifest_BehaviorHints : BehaviorHints
}.

(** [encoding/json]: the types the handlers marshal.  The item and manifest
    types hold strings, booleans, small integers and slices and structs of
    them, for which [json.Marshal] returns no error. *)
Class JSON (A : Type) : Type := json_Marshal : A -> string.

(** [json.NewEncoder(w).Encode(v)]: the JSON text and a line feed. *)
Definition json_Encode {A : Type} `{JSON A} (v : A) (w : HTTP.ResponseWriter)
    : HTTP.ResponseWriter :=
  HTTP.Write (json_Marshal v +:+ HTTP.newline) w.

(** [Encode] of the one-entry map [map[string]any{key: items}]. *)
Definition json_Encode_envelope {A : Type} `{JSON A} (key : string) (items : A)
    (w : HTTP.ResponseWriter) : HTTP.ResponseWriter :=
  HTTP.Write ("{" +:+ Strings.dquote +:+ key +:+ Strings.dquote +:+ ":"
              +:+ json_Marshal items +:+ "}" +:+ HTTP.newline) w.

(** [encoding/hex]: [EncodeToString]. *)
Module Hex.

Definition digit (v : Z) : ascii :=
  if v <? 10 then Base64.to_byte (v + 48) else Base64.to_byte (v - 10 + 97).

Fixpoint EncodeToString (s : string) : string :=
  match s with
  | EmptyString => EmptyString
  | String c r =>
      String (digit (Z.shiftr (Base64.byte_of c) 4))
        (String (digit (Z.land (Base64.byte_of c) 15)) (EncodeToString r))
  end.

End Hex.

(** ** [crypto/sha256]: [Sum256]

    SHA-256 as [sha256.Sum256] computes it, from the bytes of a message to
    the 32 bytes of its digest; words are [uint32] values. *)

Module SHA256.

Definition mask (x : Z) : Z := Z.land x 0xffffffff.

(** [bits.RotateLeft32(x, -n)]. *)
Definition rotr (n x : Z) : Z :=
  Z.lor (Z.shiftr x n) (mask (Z.shiftl x (32 - n))).

(** The largest [x] below [2 ^ k] with [x ^ e <= n], bit by bit. *)
Fixpoint root (k : nat) (e n x : Z) : Z :=
  match k with
  | O => x
  | S k =>
      let y := x + 2 ^ Z.of_nat k in
      if y ^ e <=? n then root k e n y else root k e n x
  end.

Definition isPrime (n : nat) : bool :=
  forallb (fun d => negb (n mod d =? 0)%nat) (seq 2 (n - 2)).

(** The first 64 primes: the primes up to 311. *)
Definition primes : list Z :=
  Eval vm_compute in map Z.of_nat (filter isPrime (seq 2 310)).

(** The round constants [_K]: the first 32 bits of the fractional parts
    of the cube roots of the first 64 primes. *)
Definition _K : list Z :=
  Eval vm_compute in map (fun p => mask (root 40 3 (p * 2 ^ 96) 0)) primes.

(** The initial hash value: the first 32 bits of the fractional parts of
    the square roots of the first 8 primes. *)
Definition init : list Z :=
  Eval vm_compute in map (fun p => mask (root 40 2 (p * 2 ^ 64) 0)) (firstn 8 primes).

(** The sixteen words of a block, each of four bytes, the first byte
    the highest. *)
Fixpoint words (bs : list ascii) : list Z :=
  match bs with
  | a :: b :: c :: d :: bs =>
      Z.lor (Z.lor (Z.lor (Z.shiftl (Base64.byte_of a) 24)
                          (Z.shiftl (Base64.byte_of b) 16))
                   (Z.shiftl (Base64.byte_of c) 8))
            (Base64.byte_of d)
      :: words bs
  | _ => []
  end.

(** The message schedule, latest word first: [n] more words after the
    ones given. *)
Fixpoint extend (n : nat) (w : list Z) : list Z :=
  match n with
  | O => w
  | S n =>
      let v1 := nth 1 w 0 in
      let t1 := Z.lxor (Z.lxor (rotr 17 v1) (rotr 19 v1)) (Z.shiftr v1 10) in
      let v2 := nth 14 w 0 in
      let t2 := Z.lxor (Z.lxor (rotr 7 v2) (rotr 18 v2)) (Z.shiftr v2 3) in
      extend n (mask (t1 + nth 6 w 0 + t2 + nth 15 w 0) :: w)
  end.

Definition schedule (block : list ascii) : list Z :=
  rev (extend 48 (rev (words block))).

Definition state : Type := (Z * Z * Z * Z * Z * Z * Z * Z)%type.

(** One of the 64 rounds, with its constant and its word. *)
Definition round (st : state) (kw : Z * Z) : state :=
  let '(a, b, c, d, e, f, g, h) := st in
  let '(k, w) := kw in
  let t1 := h + Z.lxor (Z.lxor (rotr 6 e) (rotr 11 e)) (rotr 25 e)
            + Z.lxor (Z.land e f) (Z.land (Z.lxor e 0xffffffff) g) + k + w in
  let t2 := Z.lxor (Z.lxor (rotr 2 a) (rotr 13 a)) (rotr 22 a)
            + Z.lxor (Z.lxor (Z.land a b) (Z.land a c)) (Z.land b c) in
  (mask (t1 + t2), a, b, c, mask (d + t1), e, f, g).

(** [block] for one block of 64 bytes. *)
Definition block (st : state) (bs : list ascii) : state :=
  let '(h0, h1, h2, h3, h4, h5, h6, h7) := st in
  let '(a, b, c, d, e, f, g, h) :=
    fold_left round (combine _K (schedule bs)) st in
  (mask (h0 + a), mask (h1 + b), mask (h2 + c), mask (h3 + d),
   mask (h4 + e), mask (h5 + f), mask (h6 + g), mask (h7 + h)).

Fixpoint blocks (n : nat) (st : state) (bs : list ascii) : state :=
  match n with
  | O => st
  | S n => blocks n (block st (firstn 64 bs)) (skipn 64 bs)
  end.

(** The bytes of a number, the highest first. *)
Fixpoint bigEndian (n : nat) (x : Z) : list ascii :=
  match n with
  | O => []
  | S n => Base64.to_byte (Z.shiftr x (8 * Z.of_nat n)) :: bigEndian n x
  end.

(** The padding of [checkSum]: the byte 0x80, zero bytes up to 56 bytes
    in the last block, and the length of the message in bits. *)
Definition padded (msg : list ascii) : list ascii :=
  let len := length msg in
  app msg
    (app (Base64.to_byte 128
            :: repeat (Base64.to_byte 0) ((119 - len mod 64) mod 64)%nat)
         (bigEndian 8 (8 * Z.of_nat len))).

Definition Sum256 (data : string) : string :=
  let bs := padded (list_ascii_of_string data) in
  let h (i : nat) := nth i init 0 in
  let '(h0, h1, h2, h3, h4, h5, h6, h7) :=
    blocks (length bs / 64)%nat
      (h 0%nat, h 1%nat, h 2%nat, h 3%nat, h 4%nat, h 5%nat, h 6%nat, h 7%nat) bs in
  string_of_list_ascii
    (concat (map (bigEndian 4) [h0; h1; h2; h3; h4; h5; h6; h7])).

End SHA256.


(** ** The handlers ([handlers.go]) *)

Section Handlers.

Import HTTP.

(** The registered user data type's values, the values of the slice
    types [[]MetaPreviewItem] and [[]StreamItem], and SHA-256 as
    [sha256.Sum256], from bytes to the 32 bytes of the digest. *)
Context {T : Type}.
Context {MetaPreviewItems StreamItems : Type}.
Context `{JSON Manifest, JSON MetaPreviewItems, JSON StreamItems}.
Variable sha256_Sum256 : string -> string.

(** The callbacks of [addon.go].  The context argument is left out; a
    [ManifestCallback] receives a pointer to the manifest and may assign
    through it, so it returns the manifest it leaves behind the pointer
    together with its status code. *)
Definition ManifestCallback : Type := Manifest -> any T -> Z * Manifest.
Definition CatalogHandler : Type := string -> any T -> result MetaPreviewItems.
Definition StreamHandler : Type := string -> any T -> result StreamItems.

(** [generateETag]. *)
Definition generateETag {A : Type} `{JSON A} (data : A) : string :=
  let jsonData := json_Marshal data in
  let hash := sha256_Sum256 jsonData in
  Hex.EncodeToString hash.

(** The user data of a request: the path value, or the query parameter
    when the path has none. *)
Definition requestUserData (r : Request) : string :=
  let userData := PathValue r "userData" in
  if String.eqb userData "" then Query_Get r "userData" else userData.

(** The closure that [createManifestHandler] returns.  Its parameter
    [manifest] is a variable that the closure captures and keeps for as
    long as the handler lives; the callback is handed the address of that
    variable.  The function takes the variable's value before a request
    and returns its value after it, next to the response. *)
Definition createManifestHandler (callback : option ManifestCallback)
    (userDataType : option (reflect_Type T)) (userDataIsBase64 : bool)
    (manifest : Manifest) (w : ResponseWriter) (r : Request)
    : Manifest * ResponseWriter :=
  let userData := requestUserData r in
  match decodeUserData userData userDataType userDataIsBase64 with
  | (_, Some err) => (manifest, Error w "Invalid user data" StatusBadRequest)
  | (decodedUserData, None) =>
      match callback with
      | Some callback =>
          let '(status, manifest) := callback manifest decodedUserData in
          if 400 <=? status then
            (manifest, Error w "Manifest callback returned error" status)
          else
            let w := Header_Set "Content-Type" "application/json" w in
            (manifest, json_Encode manifest w)
      | None =>
          let w := Header_Set "Content-Type" "application/json" w in
          (manifest, json_Encode manifest w)
      end
  end.

(** The same closure serving requests one after the other: the value of
    the captured variable when each request begins, which is the manifest
    the callback is handed. *)
Fixpoint manifestsServed (callback : option ManifestCallback)
    (userDataType : option (reflect_Type T)) (userDataIsBase64 : bool)
    (manifest : Manifest) (rs : list Request) : list Manifest :=
  match rs with
  | [] => []
  | r :: rs =>
      manifest ::
      manifestsServed callback userDataType userDataIsBase64
        (fst (createManifestHandler callback userDataType userDataIsBase64
                manifest newResponseWriter r)) rs
  end.

(** The answers of the same closure to requests served one after the
    other. *)
Fixpoint manifestAnswers (callback : option ManifestCallback)
    (userDataType : option (reflect_Type T)) (userDataIsBase64 : bool)
    (manifest : Manifest) (rs : list Request) : list ResponseWriter :=
  match rs with
  | [] => []
  | r :: rs =>
      let '(manifest, w) :=
        createManifestHandler callback userDataType userDataIsBase64 manifest
          newResponseWriter r in
      w :: manifestAnswers callback userDataType userDataIsBase64 manifest rs
  end.

(** The cache headers and the ETag handling that the catalog and the
    stream handler both end with, up to the key of the envelope. *)
Definition respondWithItems {A : Type} `{JSON A} (key : string) (items : A)
    (cacheAge : Z) (cachePublic handleEtag : bool)
    (w : ResponseWriter) (r : Request) : ResponseWriter :=
  let w := if 0 <? cacheAge
           then Header_Set "Cache-Control"
                  ("public, max-age=" +:+ Strings.Itoa cacheAge) w
           else w in
  let w := if cachePublic then Header_Set "Cache-Control" "public" w else w in
  let respond (w : ResponseWriter) :=
    let w := Header_Set "Content-Type" "application/json" w in
    json_Encode_envelope key items w in
  if handleEtag then
    let etag := generateETag items in
    let w := Header_Set "ETag" etag w in
    if String.eqb (Header_Get (Header r) "If-None-Match") etag
    then WriteHeader StatusNotModified w
    else respond w
  else respond w.

(** [createCatalogHandler]. *)
Definition createCatalogHandler (handlers : gmap string CatalogHandler)
    (cacheAge : Z) (cachePublic handleEtag : bool)
    (userDataType : option (reflect_Type T)) (userDataIsBase64 : bool)
    (w : ResponseWriter) (r : Request) : ResponseWriter :=
  let typeStr := PathValue r "type" in
  let id := PathValue r "id" in
  if String.eqb typeStr "" || String.eqb id "" then
    Error w "Missing type or id parameter" StatusBadRequest
  else
    let id := Strings.TrimSuffix id ".json" in
    let userData := requestUserData r in
    match decodeUserData userData userDataType userDataIsBase64 with
    | (_, Some err) => Error w "Invalid user data" StatusBadRequest
    | (decodedUserData, None) =>
        match handlers !! typeStr with
        | None => Error w "Unsupported type" StatusBadRequest
        | Some handler =>
            match handler id decodedUserData with
            | Err err => Error w "Failed to get catalog" StatusInternalServerError
            | Ok items =>
                respondWithItems "metas" items cacheAge cachePublic handleEtag w r
            end
        end
    end.

(** [createStreamHandler]. *)
Definition createStreamHandler (handlers : gmap string StreamHandler)
    (cacheAge : Z) (cachePublic handleEtag : bool)
    (userDataType : option (reflect_Type T)) (userDataIsBase64 : bool)
    (w : ResponseWriter) (r : Request) : ResponseWriter :=
  let typeStr := PathValue r "type" in
  let id := PathValue r "id" in
  if String.eqb typeStr "" || String.eqb id "" then
    Error w "Missing type or id parameter" StatusBadRequest
  else
    let id := Strings.TrimSuffix id ".json" in
    let userData := requestUserData r in
    match decodeUserData userData userDataType userDataIsBase64 with
    | (_, Some err) => Error w "Invalid user data" StatusBadRequest
    | (decodedUserData, None) =>
        match handlers !! typeStr with
        | None => Error w "Unsupported type" StatusBadRequest
        | Some handler =>
            match handler id decodedUserData with
            | Err err =>
                if errors_Is err ErrNotFound then
                  Error w "Not found" StatusNotFound
                else
                  Error w "Failed to get streams" StatusInternalServerError
            | Ok items =>
                respondWithItems "streams" items cacheAge cachePublic handleEtag w r
            end
        end
    end.

End Handlers.

(** ** [net/textproto]: the canonical form of a header name *)

Module Textproto.

(** The bytes of a header name: the bytes of a token. *)
Definition validHeaderFieldByte (c : ascii) : bool :=
  let n := Base64.byte_of c in
  ((48 <=? n) && (n <=? 57)) || ((65 <=? n) && (n <=? 90))
  || ((97 <=? n) && (n <=? 122))
  || existsb (Z.eqb n) [33; 35; 36; 37; 38; 39; 42; 43; 45; 46; 94; 95; 96; 124; 126].

(** The first letter and every letter after a hyphen in upper case, the
    other letters in lower case. *)
Fixpoint canonical (upper : bool) (s : string) : string :=
  match s with
  | EmptyString => EmptyString
  | String c r =>
      let n := Base64.byte_of c in
      let n := if upper && (97 <=? n) && (n <=? 122) then n - 32
               else if negb upper && (65 <=? n) && (n <=? 90) then n + 32
               else n in
      String (Base64.to_byte n) (canonical (n =? 45) r)
  end.

(** [CanonicalMIMEHeaderKey]: a name with a byte that a header name
    cannot have is returned as it is. *)
Definition CanonicalMIMEHeaderKey (s : string) : string :=
  if forallb validHeaderFieldByte (list_ascii_of_string s) then canonical true s
  else s.

End Textproto.

(** ** [net/http]: the request multiplexer

    [ServeMux] as of Go 1.22, the version of patterns that [go.mod]
    selects.  Registration follows [parsePattern] of [pattern.go] and the
    conflict check of [ServeMux.register]: [Handle] panics on a pattern
    that does not parse, among them every pattern with a wildcard that
    does not fill its segment, such as [{id}.json], and on a pattern that
    conflicts with a registered one.

    Matching is modelled for patterns that are paths: the method and the
    host of a pattern are not compared with the request, a request path is
    taken without percent escapes, of several patterns that match the one
    registered first is taken, a pattern that ends in a slash or a
    multi-segment wildcard coming after the others, where net/http takes
    the most specific, and the redirects of the mux, for a path that is
    not clean or lacks the final slash of a pattern, are left out.  The
    properties below serve requests only from a mux with the single
    pattern [/]. *)

Module Mux.

Import HTTP.

(** *** Patterns ([pattern.go]) *)

(** A segment of a pattern: a literal; a wildcard with its name, for one
    path segment or, as the last segment, for all the rest of the path;
    the trailing slash is the multi-segment wildcard without a name, and
    [{$}] is the literal [/]. *)
Record segment : Type := {
  seg_s : string;
  seg_wild : bool;
  seg_multi : bool
}.

Record pattern : Type := {
  pat_method : string;
  pat_host : string;
  segments : list segment
}.

Definition isSpaceOrTab (c : ascii) : bool :=
  (Base64.byte_of c =? 32) || (Base64.byte_of c =? 9).

Definition isSlash (c : ascii) : bool := Base64.byte_of c =? 47.

Definition isOpenBrace (c : ascii) : bool := Base64.byte_of c =? 123.

(** The text before the first byte that satisfies [p], and the text from
    that byte on; [None] when there is no such byte. *)
Fixpoint cutAt (p : ascii -> bool) (s : string) : option (string * string) :=
  match s with
  | EmptyString => None
  | String c r =>
      if p c then Some (EmptyString, s)
      else match cutAt p r with
           | Some (before, from) => Some (String c before, from)
           | None => None
           end
  end.

(** [strings.TrimLeft] with a set of bytes. *)
Fixpoint TrimLeft (p : ascii -> bool) (s : string) : string :=
  match s with
  | EmptyString => EmptyString
  | String c r => if p c then TrimLeft p r else s
  end.

Definition contains (p : ascii -> bool) (s : string) : bool :=
  existsb p (list_ascii_of_string s).

Definition isLetter (c : ascii) : bool :=
  let n := Base64.byte_of c in
  ((65 <=? n) && (n <=? 90)) || ((97 <=? n) && (n <=? 122)).

Definition isDigit (c : ascii) : bool :=
  let n := Base64.byte_of c in (48 <=? n) && (n <=? 57).

(** The bytes of a token of HTTP, of which a method is made. *)
Definition isToken (c : ascii) : bool :=
  isLetter c || isDigit c
  || existsb (Z.eqb (Base64.byte_of c))
       [33; 35; 36; 37; 38; 39; 42; 43; 45; 46; 94; 95; 96; 124; 126].

Definition validMethod (method : string) : bool :=
  negb (String.eqb method "") && forallb isToken (list_ascii_of_string method).

(** [isValidWildcardName]: a Go identifier.  Names are taken to be made
    of ASCII bytes; a letter outside ASCII, which Go accepts, is not
    accepted here. *)
Fixpoint validNameFrom (first : bool) (s : string) : bool :=
  match s with
  | EmptyString => true
  | String c r =>
      (isLetter c || (Base64.byte_of c =? 95) || (negb first && isDigit c))
      && validNameFrom false r
  end.

Definition isValidWildcardName (s : string) : bool :=
  negb (String.eqb s "") && validNameFrom true s.

(** [path.Clean] of a path that begins with a slash: empty segments and
    [.] are dropped and [..] takes the segment before it away. *)
Fixpoint cleanSegments (pieces stack : list string) : list string :=
  match pieces with
  | [] => rev stack
  | piece :: pieces =>
      if String.eqb piece "" || String.eqb piece "." then cleanSegments pieces stack
      else if String.eqb piece ".." then cleanSegments pieces (tail stack)
      else cleanSegments pieces (piece :: stack)
  end.

Definition path_Clean (p : string) : string :=
  "/" +:+ String.concat "/" (cleanSegments (Strings.splitOn (ascii_of_nat 47) p) []).

(** A path with the slash it must begin with. *)
Definition rooted (p : string) : string :=
  if Strings.HasPrefix p "/" then p else "/" +:+ p.

(** [cleanPath] of [server.go]. *)
Definition cleanPath (p : string) : string :=
  let p := rooted p in
  let np := path_Clean p in
  if Strings.HasSuffix p "/" && negb (String.eqb np "/") then np +:+ "/" else np.

(** The unescaping of a literal segment: the segment itself when it does
    not unescape. *)
Definition pathUnescape (seg : string) : string :=
  match URL.PathUnescape seg with
  | Ok u => u
  | Err _ => seg
  end.

(** The loop of [parsePattern] over the segments of the path, [seen]
    being the wildcard names met so far; [None] is the return of an
    error. *)
Fixpoint parseSegments (pieces : list string) (seen : list string)
    : option (list segment) :=
  match pieces with
  | [] => Some []
  | piece :: rest =>
      if String.eqb piece "" && (length rest =? 0)%nat then
        Some [{| seg_s := ""; seg_wild := true; seg_multi := true |}]
      else if negb (contains isOpenBrace piece) then
        option_map (cons {| seg_s := pathUnescape piece; seg_wild := false;
                            seg_multi := false |})
                   (parseSegments rest seen)
      else if negb (Strings.HasPrefix piece "{") then None
      else if negb (Strings.HasSuffix piece "}") then None
      else
        let name := substring 1 (String.length piece - 2) piece in
        if String.eqb name "$" then
          if (length rest =? 0)%nat
          then Some [{| seg_s := "/"; seg_wild := false; seg_multi := false |}]
          else None
        else
          let multi := Strings.HasSuffix name "..." in
          let name := Strings.TrimSuffix name "..." in
          if multi && negb (length rest =? 0)%nat then None
          else if String.eqb name "" then None
          else if negb (isValidWildcardName name) then None
          else if existsb (String.eqb name) seen then None
          else option_map (cons {| seg_s := name; seg_wild := true;
                                   seg_multi := multi |})
                          (parseSegments rest (name :: seen))
  end.

(** [parsePattern]; [None] is the return of an error. *)
Definition parsePattern (s : string) : option pattern :=
  if String.eqb s "" then None
  else
    let '(method, rest) :=
      match cutAt isSpaceOrTab s with
      | Some (method, from) => (method, TrimLeft isSpaceOrTab from)
      | None => (EmptyString, s)
      end in
    if negb (String.eqb method "") && negb (validMethod method) then None
    else
      match cutAt isSlash rest with
      | None => None
      | Some (host, path) =>
          if contains isOpenBrace host then None
          else if negb (String.eqb method "") && negb (String.eqb method "CONNECT")
                  && negb (String.eqb path (cleanPath path))
          then None
          else
            match parseSegments (tail (Strings.splitOn (ascii_of_nat 47) path)) [] with
            | Some segs =>
                Some {| pat_method := method; pat_host := host; segments := segs |}
            | None => None
            end
      end.

(** *** Conflicts ([pattern.go]) *)

Inductive relationship : Type :=
| equivalent | moreGeneral | moreSpecific | disjoint | overlaps.

Definition inverseRelationship (r : relationship) : relationship :=
  match r with
  | moreSpecific => moreGeneral
  | moreGeneral => moreSpecific
  | _ => r
  end.

Definition combineRelationships (r1 r2 : relationship) : relationship :=
  match r1 with
  | equivalent => r2
  | disjoint => disjoint
  | overlaps => match r2 with disjoint => disjoint | _ => overlaps end
  | moreGeneral =>
      match r2 with
      | equivalent => moreGeneral
      | moreSpecific => overlaps
      | _ => r2
      end
  | moreSpecific =>
      match r2 with
      | equivalent => moreSpecific
      | moreGeneral => overlaps
      | _ => r2
      end
  end.

Definition compareMethods (p1 p2 : pattern) : relationship :=
  if String.eqb (pat_method p1) (pat_method p2) then equivalent
  else if String.eqb (pat_method p1) "" then moreGeneral
  else if String.eqb (pat_method p2) "" then moreSpecific
  else if String.eqb (pat_method p1) "GET" && String.eqb (pat_method p2) "HEAD"
  then moreGeneral
  else if String.eqb (pat_method p2) "GET" && String.eqb (pat_method p1) "HEAD"
  then moreSpecific
  else disjoint.

Definition compareSegments (s1 s2 : segment) : relationship :=
  if seg_multi s1 && seg_multi s2 then equivalent
  else if seg_multi s1 then moreGeneral
  else if seg_multi s2 then moreSpecific
  else if seg_wild s1 && seg_wild s2 then equivalent
  else if seg_wild s1 then
    if String.eqb (seg_s s2) "/" then disjoint else moreGeneral
  else if seg_wild s2 then
    if String.eqb (seg_s s1) "/" then disjoint else moreSpecific
  else if String.eqb (seg_s s1) (seg_s s2) then equivalent
  else disjoint.

Definition lastIsMulti (segs : list segment) : bool :=
  match last segs with
  | Some seg => seg_multi seg
  | None => false
  end.

(** The loop of [comparePaths] over corresponding segments, and what it
    returns when one pattern has segments left. *)
Fixpoint compareFrom (rel : relationship) (multi1 multi2 : bool)
    (segs1 segs2 : list segment) : relationship :=
  match segs1, segs2 with
  | [], [] => rel
  | [], _ :: _ => if multi1 then combineRelationships rel moreGeneral else disjoint
  | _ :: _, [] => if multi2 then combineRelationships rel moreSpecific else disjoint
  | s1 :: segs1, s2 :: segs2 =>
      match combineRelationships rel (compareSegments s1 s2) with
      | disjoint => disjoint
      | rel => compareFrom rel multi1 multi2 segs1 segs2
      end
  end.

Definition comparePaths (p1 p2 : pattern) : relationship :=
  let multi1 := lastIsMulti (segments p1) in
  let multi2 := lastIsMulti (segments p2) in
  if negb (length (segments p1) =? length (segments p2))%nat
     && negb multi1 && negb multi2
  then disjoint
  else compareFrom equivalent multi1 multi2 (segments p1) (segments p2).

Definition comparePathsAndMethods (p1 p2 : pattern) : relationship :=
  match compareMethods p1 p2 with
  | disjoint => disjoint
  | mrel => combineRelationships mrel (comparePaths p1 p2)
  end.

Definition conflictsWith (p1 p2 : pattern) : bool :=
  if negb (String.eqb (pat_host p1) (pat_host p2)) then false
  else
    match comparePathsAndMethods p1 p2 with
    | equivalent | overlaps => true
    | _ => false
    end.

(** *** Matching *)

(** The segments of a request path: the pieces after its leading
    slash. *)
Definition pathSegments (p : string) : list string :=
  tail (Strings.splitOn (ascii_of_nat 47) (rooted p)).

(** The wildcard matches of a path against the segments of a pattern, if
    it matches; a wildcard for one segment takes a segment that is not
    empty, one for the rest takes what is left after a slash. *)
Fixpoint matchSegments (segs : list segment) (path : list string)
    : option (list (string * string)) :=
  match segs with
  | [] =>
      match path with
      | [] => Some []
      | _ :: _ => None
      end
  | seg :: segs =>
      match path with
      | [] => None
      | p :: path' =>
          if seg_multi seg then
            Some (if String.eqb (seg_s seg) "" then []
                  else [(seg_s seg, String.concat "/" path)])
          else if seg_wild seg then
            if String.eqb p "" then None
            else option_map (cons (seg_s seg, p)) (matchSegments segs path')
          else if String.eqb (seg_s seg) "/" then
            if String.eqb p "" && (length path' =? 0)%nat then Some [] else None
          else if String.eqb (seg_s seg) p then matchSegments segs path'
          else None
      end
  end.

Definition matchPattern (p : string) (path : string)
    : option (list (string * string)) :=
  match parsePattern p with
  | Some pat => matchSegments (segments pat) (pathSegments path)
  | None => None
  end.

(** Whether a pattern ends in a wildcard for the rest of the path. *)
Definition multi (p : string) : bool :=
  match parsePattern p with
  | Some pat => lastIsMulti (segments pat)
  | None => false
  end.

Section WithState.

(** Handlers that share state across requests: a handler takes the
    state before the request and returns the state after it. *)
Context {S : Type}.

Definition Handler : Type := S -> ResponseWriter -> Request -> S * ResponseWriter.

(** An [http.HandlerFunc] that keeps no state. *)
Definition stateless (h : HTTP.Handler) : Handler :=
  fun st w r => (st, h w r).

(** The registered patterns with their handlers, in the order of
    registration. *)
Definition ServeMux : Type := list (string * Handler).

Definition NewServeMux : ServeMux := [].

(** [Handle] and [HandleFunc]; [None] is the panic, on a pattern that
    does not parse and on one that conflicts with a registered pattern, as
    the same pattern registered twice does. *)
Definition Handle (mux : ServeMux) (p : string) (h : Handler) : option ServeMux :=
  match parsePattern p with
  | None => None
  | Some pat =>
      if existsb (fun e => match parsePattern (fst e) with
                           | Some pat2 => conflictsWith pat pat2
                           | None => false
                           end) mux
      then None
      else Some (app mux [(p, h)])
  end.

(** The first registered pattern, of the wanted kind, that the path
    matches. *)
Fixpoint findMatch (wantMulti : bool) (mux : ServeMux) (path : string)
    : option (Handler * list (string * string)) :=
  match mux with
  | [] => None
  | (p, h) :: mux =>
      if Bool.eqb (multi p) wantMulti then
        match matchPattern p path with
        | Some vs => Some (h, vs)
        | None => findMatch wantMulti mux path
        end
      else findMatch wantMulti mux path
  end.

(** A pattern for the rest of a path is consulted only when no other
    pattern matches. *)
Definition findHandler (mux : ServeMux) (path : string)
    : option (Handler * list (string * string)) :=
  match findMatch false mux path with
  | Some m => Some m
  | None => findMatch true mux path
  end.

Definition setPathValues (vs : list (string * string)) (r : Request) : Request :=
  {| Method := Method r; URL_Path := URL_Path r; URL_Query := URL_Query r;
     Header := Header r; PathValues := list_to_map vs |}.

(** [ServeMux.ServeHTTP]: the handler of the matching pattern runs on
    the request with the wildcard matches set; without a match the
    answer is [http.NotFound]. *)
Definition ServeHTTP (mux : ServeMux) : Handler :=
  fun st w r =>
    match findHandler mux (URL_Path r) with
    | Some (h, vs) => h st w (setPathValues vs r)
    | None => (st, NotFound w)
    end.

End WithState.

Arguments Handler S : clear implicits.
Arguments ServeMux S : clear implicits.

End Mux.

(** [strconv.Atoi]: an optional sign and decimal digits, within the range
    of a 64-bit [int]. *)
Module Strconv.

Fixpoint digits (acc : Z) (s : string) : option Z :=
  match s with
  | EmptyString => Some acc
  | String c r =>
      let n := Base64.byte_of c in
      if (48 <=? n) && (n <=? 57) then digits (acc * 10 + (n - 48)) r else None
  end.

Definition inRange (n : Z) : option Z :=
  if (- 2 ^ 63 <=? n) && (n <? 2 ^ 63) then Some n else None.

Definition Atoi (s : string) : option Z :=
  match s with
  | EmptyString => None
  | String c r =>
      if Ascii.eqb c (ascii_of_nat 45) then
        match r with
        | EmptyString => None
        | _ => n ← digits 0 r; inRange (- n)
        end
      else if Ascii.eqb c (ascii_of_nat 43) then
        match r with
        | EmptyString => None
        | _ => n ← digits 0 r; inRange n
        end
      else n ← digits 0 s; inRange n
  end.

End Strconv.

(** ** Loggers ([logging.go]) *)

Inductive slog_Level : Type := LevelDebug | LevelInfo | LevelWarn | LevelError.

Record Logger : Type := {
  logger_JSON : bool;
  logger_Level : slog_Level
}.

(** [NewLogger]. *)
Definition NewLogger (level encoding : string) : Logger :=
  let logLevel :=
    if String.eqb level "debug" then LevelDebug
    else if String.eqb level "info" then LevelInfo
    else if String.eqb level "warn" then LevelWarn
    else if String.eqb level "error" then LevelError
    else LevelInfo in
  {| logger_JSON := String.eqb encoding "json"; logger_Level := logLevel |}.

(** [createHealthHandler]. *)
Definition createHealthHandler : HTTP.Handler :=
  fun w r =>
    let w := HTTP.WriteHeader HTTP.StatusOK w in
    HTTP.Write "OK" w.

(** ** The addon ([addon.go]) *)

Section Addon.

Import HTTP.

Context {T : Type}.
Context {MetaPreviewItems StreamItems ConfigMap ConfigurationUI : Type}.
Context `{JSON Manifest, JSON MetaPreviewItems, JSON StreamItems,
          JSON ConfigMap, JSON ConfigurationUI}.
Variable sha256_Sum256 : string -> string.

(** What the program uses of packages that are not part of it: the
    metadata of [cinemeta], its client, a file system for the
    configuration page, and compiled regular expressions, of which only
    [MatchString] is used. *)
Context {Meta FileSystem : Type}.

Record MetaFetcher : Type := {
  GetMovie : string -> result Meta;
  GetTVShow : string -> Z -> Z -> result Meta
}.

Definition Regexp : Type := string -> bool.

Variable cinemeta_NewClient : Z -> Logger -> MetaFetcher.
Variable regexp_Compile : string -> result Regexp.

Definition ConfigurationHandler : Type := any T -> result ConfigMap.

(** [Options]; durations are [time.Duration] values, a number of
    nanoseconds. *)
Record Options : Type := {
  BindAddr : string;
  Port : Z;
  opt_Logger : option Logger;
  LoggingLevel : string;
  LogEncoding : string;
  DisableRequestLogging : bool;
  LogIPs : bool;
  LogUserAgent : bool;
  LogMediaName : bool;
  CacheAgeCatalogs : Z;
  CacheAgeStreams : Z;
  CachePublicCatalogs : bool;
  CachePublicStreams : bool;
  HandleEtagCatalogs : bool;
  HandleEtagStreams : bool;
  MetaClient : option MetaFetcher;
  CinemetaTimeout : Z;
  PutMetaInContext : bool;
  ConfigureHTMLfs : option FileSystem;
  Metrics : bool;
  Profiling : bool;
  RedirectURL : string;
  UserDataIsBase64 : bool;
  StreamIDregex : string
}.

(** [DefaultOptions]. *)
Definition DefaultOptions : Options := {|
  BindAddr := "0.0.0.0";
  Port := 8080;
  opt_Logger := None;
  LoggingLevel := "info";
  LogEncoding := "console";
  DisableRequestLogging := false;
  LogIPs := false;
  LogUserAgent := false;
  LogMediaName := false;
  CacheAgeCatalogs := 0;
  CacheAgeStreams := 0;
  CachePublicCatalogs := false;
  CachePublicStreams := false;
  HandleEtagCatalogs := false;
  HandleEtagStreams := false;
  MetaClient := None;
  CinemetaTimeout := 0;
  PutMetaInContext := false;
  ConfigureHTMLfs := None;
  Metrics := false;
  Profiling := false;
  RedirectURL := "";
  UserDataIsBase64 := false;
  StreamIDregex := ""
|}.

Record customEndpoint : Type := {
  endpoint_method : string;
  endpoint_path : string;
  endpoint_handler : HTTP.Handler
}.

Record Addon : Type := {
  manifest : Manifest;
  catalogHandlers : option (gmap string (@CatalogHandler T MetaPreviewItems));
  streamHandlers : option (gmap string (@StreamHandler T StreamItems));
  configHandler : option ConfigurationHandler;
  configUI : option ConfigurationUI;
  opts : Options;
  logger : Logger;
  customEndpoints : list customEndpoint;
  manifestCallback : option (@ManifestCallback T);
  userDataType : option (reflect_Type T);
  metaClient : option MetaFetcher
}.

Definition isNone {A : Type} (o : option A) : bool :=
  match o with None => true | Some _ => false end.

Definition isSome {A : Type} (o : option A) : bool := negb (isNone o).

(** The options after [NewAddon] has filled in the defaults, the logger
    and the metadata client. *)
Definition withDefaults (opts : Options) : Options :=
  let bindAddr := if String.eqb (BindAddr opts) "" then BindAddr DefaultOptions
                  else BindAddr opts in
  let port := if Port opts =? 0 then Port DefaultOptions else Port opts in
  let loggingLevel := if String.eqb (LoggingLevel opts) ""
                      then LoggingLevel DefaultOptions else LoggingLevel opts in
  let logEncoding := if String.eqb (LogEncoding opts) ""
                     then LogEncoding DefaultOptions else LogEncoding opts in
  let cinemetaTimeout := if CinemetaTimeout opts =? 0
                         then CinemetaTimeout DefaultOptions
                         else CinemetaTimeout opts in
  let logger := match opt_Logger opts with
                | Some l => l
                | None => NewLogger loggingLevel logEncoding
                end in
  let metaClient :=
    match MetaClient opts with
    | Some c => Some c
    | None =>
        if LogMediaName opts || PutMetaInContext opts
        then Some (cinemeta_NewClient cinemetaTimeout logger)
        else None
    end in
  {| BindAddr := bindAddr;
     Port := port;
     opt_Logger := Some logger;
     LoggingLevel := loggingLevel;
     LogEncoding := logEncoding;
     DisableRequestLogging := DisableRequestLogging opts;
     LogIPs := LogIPs opts;
     LogUserAgent := LogUserAgent opts;
     LogMediaName := LogMediaName opts;
     CacheAgeCatalogs := CacheAgeCatalogs opts;
     CacheAgeStreams := CacheAgeStreams opts;
     CachePublicCatalogs := CachePublicCatalogs opts;
     CachePublicStreams := CachePublicStreams opts;
     HandleEtagCatalogs := HandleEtagCatalogs opts;
     HandleEtagStreams := HandleEtagStreams opts;
     MetaClient := metaClient;
     CinemetaTimeout := cinemetaTimeout;
     PutMetaInContext := PutMetaInContext opts;
     ConfigureHTMLfs := ConfigureHTMLfs opts;
     Metrics := Metrics opts;
     Profiling := Profiling opts;
     RedirectURL := RedirectURL opts;
     UserDataIsBase64 := UserDataIsBase64 opts;
     StreamIDregex := StreamIDregex opts |}.

(** [NewAddon]: [Err] is the return of a nil addon with the error. *)
Definition NewAddon (manifest : Manifest)
    (catalogHandlers : option (gmap string (@CatalogHandler T MetaPreviewItems)))
    (streamHandlers : option (gmap string (@StreamHandler T StreamItems)))
    (opts : Options) : result Addon :=
  let hints := manifest_BehaviorHints manifest in
  if String.eqb (ID manifest) "" || String.eqb (Name manifest) ""
     || String.eqb (Description manifest) "" || String.eqb (Version manifest) ""
  then Err (errorString "An empty manifest was passed")
  else if isNone catalogHandlers && isNone streamHandlers
  then Err (errorString "No handler was passed")
  else if (CachePublicCatalogs opts && (CacheAgeCatalogs opts =? 0))
          || (CachePublicStreams opts && (CacheAgeStreams opts =? 0))
  then Err (errorString
         "Enabling public caching only makes sense when also setting a cache age")
  else if (HandleEtagCatalogs opts && (CacheAgeCatalogs opts =? 0))
          || (HandleEtagStreams opts && (CacheAgeStreams opts =? 0))
  then Err (errorString
         "ETag handling only makes sense when also setting a cache age")
  else if DisableRequestLogging opts && (LogIPs opts || LogUserAgent opts)
  then Err (errorString
         "Enabling IP or user agent logging doesn't make sense when disabling request logging")
  else if isSome (opt_Logger opts) && negb (String.eqb (LoggingLevel opts) "")
  then Err (errorString
         "Setting a logging level in the options doesn't make sense when you already set a custom logger")
  else if DisableRequestLogging opts && LogMediaName opts
  then Err (errorString
         "Enabling media name logging doesn't make sense when disabling request logging")
  else if isSome (MetaClient opts) && negb (LogMediaName opts)
          && negb (PutMetaInContext opts)
  then Err (errorString
         "Setting a meta client when neither logging the media name nor putting it in the context doesn't make sense")
  else if isSome (MetaClient opts) && negb (CinemetaTimeout opts =? 0)
  then Err (errorString
         "Setting a Cinemeta timeout doesn't make sense when you already set a meta client")
  else if ConfigurationRequired hints && negb (Configurable hints)
  then Err (errorString
         "Requiring a configuration only makes sense when also making the addon configurable")
  else if isSome (ConfigureHTMLfs opts) && negb (Configurable hints)
  then Err (errorString
         "Setting a ConfigureHTMLfs only makes sense when also making the addon configurable")
  else
    let opts := withDefaults opts in
    Ok {| manifest := manifest;
          catalogHandlers := catalogHandlers;
          streamHandlers := streamHandlers;
          configHandler := None;
          configUI := None;
          opts := opts;
          logger := match opt_Logger opts with
                    | Some l => l
                    | None => NewLogger (LoggingLevel opts) (LogEncoding opts)
                    end;
          customEndpoints := [];
          manifestCallback := None;
          userDataType := None;
          metaClient := MetaClient opts |}.

(** [RegisterUserData], [SetManifestCallback], [SetConfigurationHandler],
    [SetConfigurationUI] and [AddEndpoint]: each assigns one field. *)
Definition RegisterUserData (t : reflect_Type T) (a : Addon) : Addon :=
  {| manifest := manifest a; catalogHandlers := catalogHandlers a;
     streamHandlers := streamHandlers a; configHandler := configHandler a;
     configUI := configUI a; opts := opts a; logger := logger a;
     customEndpoints := customEndpoints a;
     manifestCallback := manifestCallback a;
     userDataType := Some t; metaClient := metaClient a |}.

Definition SetManifestCallback (callback : @ManifestCallback T) (a : Addon) : Addon :=
  {| manifest := manifest a; catalogHandlers := catalogHandlers a;
     streamHandlers := streamHandlers a; configHandler := configHandler a;
     configUI := configUI a; opts := opts a; logger := logger a;
     customEndpoints := customEndpoints a;
     manifestCallback := Some callback;
     userDataType := userDataType a; metaClient := metaClient a |}.

Definition SetConfigurationHandler (handler : ConfigurationHandler) (a : Addon) : Addon :=
  {| manifest := manifest a; catalogHandlers := catalogHandlers a;
     streamHandlers := streamHandlers a; configHandler := Some handler;
     configUI := configUI a; opts := opts a; logger := logger a;
     customEndpoints := customEndpoints a;
     manifestCallback := manifestCallback a;
     userDataType := userDataType a; metaClient := metaClient a |}.

Definition SetConfigurationUI (ui : ConfigurationUI) (a : Addon) : Addon :=
  {| manifest := manifest a; catalogHandlers := catalogHandlers a;
     streamHandlers := streamHandlers a; configHandler := configHandler a;
     configUI := Some ui; opts := opts a; logger := logger a;
     customEndpoints := customEndpoints a;
     manifestCallback := manifestCallback a;
     userDataType := userDataType a; metaClient := metaClient a |}.

Definition AddEndpoint (method path : string) (handler : HTTP.Handler) (a : Addon)
    : Addon :=
  {| manifest := manifest a; catalogHandlers := catalogHandlers a;
     streamHandlers := streamHandlers a; configHandler := configHandler a;
     configUI := configUI a; opts := opts a; logger := logger a;
     customEndpoints :=
       app (customEndpoints a)
           [{| endpoint_method := method; endpoint_path := path;
               endpoint_handler := handler |}];
     manifestCallback := manifestCallback a;
     userDataType := userDataType a; metaClient := metaClient a |}.

(** [Addon.DecodeUserData]. *)
Definition DecodeUserData (a : Addon) (param : string) (r : Request)
    : any T * option error :=
  let data := Query_Get r param in
  decodeUserData data (userDataType a) (UserDataIsBase64 (opts a)).

(** [createRootHandler]: the redirect's status and target; the short
    HTML body that [http.Redirect] adds is left out. *)
Definition createRootHandler (redirectURL : string) : HTTP.Handler :=
  fun w r =>
    let w := Header_Set "Location" redirectURL w in
    WriteHeader StatusMovedPermanently w.

(** The handlers of this server share one piece of state across
    requests: the manifest variable held by the manifest handler. *)
Definition ServerHandler : Type := Mux.Handler Manifest.

(** The error of a call that returns a value and an error; [None] is
    nil. *)
Definition errorOf {A : Type} (res : result A) : option error :=
  match res with
  | Ok _ => None
  | Err err => Some err
  end.

(** [createMetaMiddleware]; the context into which the metadata may be
    put is not visible to the handlers of the model.  The function
    declares [err] before the branches on the type and tests it after
    them.  The branch of [movie] assigns to it.  The branch of [series]
    declares an [err] of its own with [seasonNum, err := ...], and the
    error of [GetTVShow] is assigned to that one; the [err] tested after
    the branches is then nil as declared. *)
Definition createMetaMiddleware (metaClient : MetaFetcher)
    (putMetaInContext logMediaName : bool) (next : ServerHandler)
    : ServerHandler :=
  fun st w r =>
    let typeStr := PathValue r "type" in
    let id := PathValue r "id" in
    if String.eqb typeStr "" || String.eqb id "" then
      (st, Error w "Missing type or id parameter" StatusBadRequest)
    else
      let id := Strings.TrimSuffix id ".json" in
      let err : option error := None in
      let afterBranches (err : option error) :=
        match err with
        | Some _ => (st, Error w "Failed to get meta information"
                           StatusInternalServerError)
        | None => next st w r
        end in
      if String.eqb typeStr "movie" then
        let err := errorOf (GetMovie metaClient id) in
        afterBranches err
      else if String.eqb typeStr "series" then
        let season := Query_Get r "season" in
        let episode := Query_Get r "episode" in
        if String.eqb season "" || String.eqb episode "" then
          (st, Error w "Missing season or episode parameter" StatusBadRequest)
        else
          match Strconv.Atoi season with
          | None => (st, Error w "Invalid season parameter" StatusBadRequest)
          | Some seasonNum =>
              match Strconv.Atoi episode with
              | None => (st, Error w "Invalid episode parameter" StatusBadRequest)
              | Some episodeNum =>
                  let err' := errorOf (GetTVShow metaClient id seasonNum episodeNum) in
                  afterBranches err
              end
          end
      else (st, Error w "Unsupported type" StatusBadRequest).

(** The middleware closure inside [addRouteMatcherMiddleware]. *)
Definition routeMatcher (configurationRequired : bool)
    (streamIDregex : option Regexp) (next : ServerHandler) : ServerHandler :=
  fun st w r =>
    if configurationRequired && String.eqb (requestUserData r) "" then
      (st, Error w "Configuration required" StatusBadRequest)
    else
      let idRejected :=
        match streamIDregex with
        | Some re =>
            let id := PathValue r "id" in
            let id := if String.eqb id "" then Query_Get r "id" else id in
            negb (String.eqb id "") && negb (re id)
        | None => false
        end in
      if idRejected then (st, Error w "Invalid stream ID" StatusBadRequest)
      else next st w r.

(** [addRouteMatcherMiddleware].  The Go function returns nothing.  It
    assigns a new mux to its own parameter [mux] and registers the
    wrapped original on that new mux; the result here is the value of
    this local variable when the function ends.  The mux of the caller
    is neither reassigned nor written to. *)
Definition addRouteMatcherMiddleware (mux : Mux.ServeMux Manifest)
    (configurationRequired : bool) (streamIDregex : option Regexp)
    : option (Mux.ServeMux Manifest) :=
  let middleware := routeMatcher configurationRequired streamIDregex in
  let originalMux := mux in
  let mux := Mux.NewServeMux in
  Mux.Handle mux "/" (middleware (Mux.ServeHTTP originalMux)).

(** [time.Duration.Seconds] converted to [int]: the whole seconds.  The
    rounding of the intermediate float64 is not modelled. *)
Definition seconds (d : Z) : Z := Z.quot d 1000000000.

(** What [Run] hands to the HTTP server: the manifest that the manifest
    handler captured, and the mux that is the server's handler. *)
Record Server : Type := {
  capturedManifest : Manifest;
  serverMux : Mux.ServeMux Manifest
}.

Definition handleAll (mux : Mux.ServeMux Manifest)
    (routes : list (string * ServerHandler)) : option (Mux.ServeMux Manifest) :=
  foldl (fun mux route => mux ← mux; Mux.Handle mux (fst route) (snd route))
        (Some mux) routes.

(** [Run], up to the creation of the server: [None] when the process
    stops before that, on a panic of [Handle] or on the exit after a
    stream ID expression that does not compile. *)
Definition Run (a : Addon) : option Server :=
  let required := ConfigurationRequired (manifest_BehaviorHints (manifest a)) in
  let mux := Mux.NewServeMux in
  mux ← Mux.Handle mux "/health" (Mux.stateless createHealthHandler);
  let manifestHandler : ServerHandler :=
    createManifestHandler (manifestCallback a) (userDataType a)
      (UserDataIsBase64 (opts a)) in
  mux ← Mux.Handle mux "/manifest.json" manifestHandler;
  mux ← Mux.Handle mux "/{userData}/manifest.json" manifestHandler;
  mux ← match catalogHandlers a with
        | Some handlers =>
            let catalogHandler : ServerHandler :=
              Mux.stateless
                (createCatalogHandler sha256_Sum256 handlers
                   (seconds (CacheAgeCatalogs (opts a)))
                   (CachePublicCatalogs (opts a)) (HandleEtagCatalogs (opts a))
                   (userDataType a) (UserDataIsBase64 (opts a))) in
            mux ← (if required then Some mux
                   else Mux.Handle mux "/catalog/{type}/{id}.json" catalogHandler);
            Mux.Handle mux "/{userData}/catalog/{type}/{id}.json" catalogHandler
        | None => Some mux
        end;
  mux ← match streamHandlers a with
        | Some handlers =>
            let streamHandler : ServerHandler :=
              Mux.stateless
                (createStreamHandler sha256_Sum256 handlers
                   (seconds (CacheAgeStreams (opts a)))
                   (CachePublicStreams (opts a)) (HandleEtagStreams (opts a))
                   (userDataType a) (UserDataIsBase64 (opts a))) in
            mux ← (if required then Some mux
                   else Mux.Handle mux "/stream/{type}/{id}.json" streamHandler);
            Mux.Handle mux "/{userData}/stream/{type}/{id}.json" streamHandler
        | None => Some mux
        end;
  mux ← (if Configurable (manifest_BehaviorHints (manifest a)) then
           mux ← match configHandler a with
                 | Some handler =>
                     Mux.Handle mux "/configure"
                       (Mux.stateless (fun w r =>
                          match DecodeUserData a "userData" r with
                          | (_, Some err) =>
                              Error w "Invalid user data" StatusBadRequest
                          | (userData, None) =>
                              match handler userData with
                              | Err err => Error w "Failed to get configuration"
                                             StatusInternalServerError
                              | Ok config =>
                                  let w := Header_Set "Content-Type"
                                             "application/json" w in
                                  json_Encode config w
                              end
                          end))
                 | None => Some mux
                 end;
           match configUI a with
           | Some ui =>
               Mux.Handle mux "/configure.json"
                 (Mux.stateless (fun w r =>
                    let w := Header_Set "Content-Type" "application/json" w in
                    json_Encode ui w))
           | None => Some mux
           end
         else Some mux);
  mux ← (if negb (String.eqb (RedirectURL (opts a)) "")
         then Mux.Handle mux "/"
                (Mux.stateless (createRootHandler (RedirectURL (opts a))))
         else Some mux);
  mux ← handleAll mux
          (map (fun e => (endpoint_path e, Mux.stateless (endpoint_handler e)))
               (customEndpoints a));
  streamIDRegex ← (if negb (String.eqb (StreamIDregex (opts a)) "") then
                     match regexp_Compile (StreamIDregex (opts a)) with
                     | Ok re => Some (Some re)
                     | Err err => None
                     end
                   else Some None);
  let _ := addRouteMatcherMiddleware mux required streamIDRegex in
  mux ← match metaClient a with
        | Some client =>
            let metaMw := createMetaMiddleware client
                            (PutMetaInContext (opts a)) (LogMediaName (opts a)) in
            let notFound : ServerHandler := Mux.stateless (fun w r => NotFound w) in
            mux ← (if required then Some mux
                   else Mux.Handle mux "/stream/{type}/{id}.json" (metaMw notFound));
            Mux.Handle mux "/{userData}/stream/{type}/{id}.json" (metaMw notFound)
        | None => Some mux
        end;
  Some {| capturedManifest := manifest a; serverMux := mux |}.

End Addon.

(** ** Notions used by the properties *)

(** The bytes that [decodeUserData] hands to [json.Unmarshal]. *)
Definition decodedBytes (data : string) (userDataIsBase64 : bool) : result string :=
if userDataIsBase64 then Base64.DecodeString (Strings.TrimSuffix data "=")
else URL.PathUnescape data.

(** What the handler registered for the type of a catalog or stream
    request returns on that request; [None] when the request is answered
    before any handler is called: a missing type or id, user data that does
    not decode, or no handler for the type. *)
Definition handlerResult {T Items : Type}
    (handlers : gmap string (string -> any T -> result Items))
    (userDataType : option (reflect_Type T)) (userDataIsBase64 : bool)
    (r : HTTP.Request) : option (result Items) :=
let typeStr := HTTP.PathValue r "type" in
let id := HTTP.PathValue r "id" in
if String.eqb typeStr "" || String.eqb id "" then None
else
  match decodeUserData (requestUserData r) userDataType userDataIsBase64 with
  | (_, Some _) => None
  | (decodedUserData, None) =>
      match handlers !! typeStr with
      | None => None
      | Some handler => Some (handler (Strings.TrimSuffix id ".json") decodedUserData)
      end
  end.

(** A GET request for a path, as it reaches the server. *)
Definition GET (path : string) : HTTP.Request :=
{| HTTP.Method := "GET"; HTTP.URL_Path := path; HTTP.URL_Query := ∅;
   HTTP.Header := ∅; HTTP.PathValues := ∅ |}.

(** A GET request as a handler sees it after the mux has matched its path
    and set the given wildcard values, with the given request headers. *)
Definition routed (path : string) (values headers : list (string * string))
    : HTTP.Request :=
{| HTTP.Method := "GET"; HTTP.URL_Path := path; HTTP.URL_Query := ∅;
   HTTP.Header := list_to_map headers; HTTP.PathValues := list_to_map values |}.

(** ** Scenarios

    The addons of the specification's scenarios and of the repository's
    examples, over any types of items. *)

Section Scenarios.

Context {T MetaPreviewItems StreamItems ConfigMap ConfigurationUI : Type}.
Context {Meta FileSystem : Type}.

(** The manifest of the specification's scenario. *)
Definition scenarioManifest : Manifest :=
{| ID := "org.test"; Name := "t"; Description := "d"; Version := "1.0.0";
   ResourceItems := None; Types := Some ["movie"]; Catalogs := None;
   IDprefixes := None; Background := ""; Logo := ""; ContactEmail := "";
   manifest_BehaviorHints :=
     {| Adult := false; P2P := false; Configurable := false;
        ConfigurationRequired := false |} |}.

(** The same manifest of an addon that must be configured. *)
Definition requiredManifest : Manifest :=
{| ID := "org.test"; Name := "t"; Description := "d"; Version := "1.0.0";
   ResourceItems := None; Types := Some ["movie"]; Catalogs := None;
   IDprefixes := None; Background := ""; Logo := ""; ContactEmail := "";
   manifest_BehaviorHints :=
     {| Adult := false; P2P := false; Configurable := true;
        ConfigurationRequired := true |} |}.

(** The stream handler of the scenario: the given items for the id [tt1],
    the not-found error for every other id. *)
Definition scenarioStreamHandlers (items : StreamItems)
    : gmap string (@StreamHandler T StreamItems) :=
{[ "movie" := fun id _ => if String.eqb id "tt1" then Ok items else Err ErrNotFound ]}.

(** The catalog handler of the catalog example: items for the catalog
    [blender], the not-found error for every other id. *)
Definition blenderCatalogHandlers (items : MetaPreviewItems)
    : gmap string (@CatalogHandler T MetaPreviewItems) :=
{[ "movie" := fun id _ => if String.eqb id "blender" then Ok items else Err ErrNotFound ]}.

(** The cache age of the catalog example, 24 hours, as a duration. *)
Definition day : Z := 24 * 3600 * 1000000000.

(** A manifest callback that alters the manifest it is handed, here by
    marking its name, and lets the request pass. *)
Definition markingCallback : @ManifestCallback T :=
fun m _ =>
  (200,
   {| ID := ID m; Name := Name m +:+ "!"; Description := Description m;
      Version := Version m; ResourceItems := ResourceItems m; Types := Types m;
      Catalogs := Catalogs m; IDprefixes := IDprefixes m;
      Background := Background m; Logo := Logo m; ContactEmail := ContactEmail m;
      manifest_BehaviorHints := manifest_BehaviorHints m |}).

(** [DefaultOptions] with a stream ID expression. *)
Definition optionsWithStreamIDregex (re : string) : @Options Meta FileSystem :=
{| BindAddr := "0.0.0.0"; Port := 8080; opt_Logger := None;
   LoggingLevel := "info"; LogEncoding := "console";
   DisableRequestLogging := false; LogIPs := false; LogUserAgent := false;
   LogMediaName := false; CacheAgeCatalogs := 0; CacheAgeStreams := 0;
   CachePublicCatalogs := false; CachePublicStreams := false;
   HandleEtagCatalogs := false; HandleEtagStreams := false;
   MetaClient := None; CinemetaTimeout := 0; PutMetaInContext := false;
   ConfigureHTMLfs := None; Metrics := false; Profiling := false;
   RedirectURL := ""; UserDataIsBase64 := false; StreamIDregex := re |}.

(** [DefaultOptions] with public caching or ETag handling of streams
    switched on and the given cache age. *)
Definition optionsWithStreamCaching (age : Z) (public etag : bool)
    : @Options Meta FileSystem :=
{| BindAddr := "0.0.0.0"; Port := 8080; opt_Logger := None;
   LoggingLevel := "info"; LogEncoding := "console";
   DisableRequestLogging := false; LogIPs := false; LogUserAgent := false;
   LogMediaName := false; CacheAgeCatalogs := 0; CacheAgeStreams := age;
   CachePublicCatalogs := false; CachePublicStreams := public;
   HandleEtagCatalogs := false; HandleEtagStreams := etag;
   MetaClient := None; CinemetaTimeout := 0; PutMetaInContext := false;
   ConfigureHTMLfs := None; Metrics := false; Profiling := false;
   RedirectURL := ""; UserDataIsBase64 := false; StreamIDregex := "" |}.

(** The stream handler of the complete example: the given items for every
    id. *)
Definition exampleStreamHandlers (items : StreamItems)
    : gmap string (@StreamHandler T StreamItems) :=
{[ "movie" := fun _ _ => Ok items ]}.

(** A compiled expression that stands for [^tt]: ids that begin with
    [tt]. *)
Definition ttRegexp : string -> result (string -> bool) :=
fun _ => Ok (fun id => Strings.HasPrefix id "tt").

End Scenarios.

(** Public caching or ETag handling switched on, for catalogs or for
    streams, while the cache age of the same kind is zero. *)
Definition cachingWithoutAge {Meta FileSystem : Type} (o : @Options Meta FileSystem)
    : bool :=
((CachePublicCatalogs o && (CacheAgeCatalogs o =? 0))
 || (CachePublicStreams o && (CacheAgeStreams o =? 0)))
|| ((HandleEtagCatalogs o && (CacheAgeCatalogs o =? 0))
    || (HandleEtagStreams o && (CacheAgeStreams o =? 0))).

(** Options with public caching of streams and no cache age, and a
    stand-in for the client that [cinemeta.NewClient] makes. *)
Definition publicWithoutAge : @Options unit unit :=
optionsWithStreamCaching 0 true false.

Definition sampleMetaClient : Z -> Logger -> @MetaFetcher unit :=
fun _ _ => {| GetMovie := fun _ => Ok tt; GetTVShow := fun _ _ _ => Ok tt |}.

(** [NewAddon], an optional [SetManifestCallback], and [Run] up to the
    creation of the server; [None] when no server comes to be. *)
Definition startServer
    {T MetaPreviewItems StreamItems ConfigMap ConfigurationUI Meta FileSystem : Type}
    `{JSON Manifest, JSON MetaPreviewItems, JSON StreamItems,
      JSON ConfigMap, JSON ConfigurationUI}
    (sha256_Sum256 : string -> string)
    (cinemeta_NewClient : Z -> Logger -> @MetaFetcher Meta)
    (regexp_Compile : string -> result (string -> bool))
    (m : Manifest)
    (catalogs : option (gmap string (@CatalogHandler T MetaPreviewItems)))
    (streams : option (gmap string (@StreamHandler T StreamItems)))
    (o : @Options Meta FileSystem)
    (callback : option (@ManifestCallback T))
    : option (@Server) :=
match NewAddon (ConfigMap := ConfigMap) (ConfigurationUI := ConfigurationUI)
        cinemeta_NewClient m catalogs streams o with
| Err _ => None
| Ok a =>
    let a := match callback with
             | Some callback => SetManifestCallback callback a
             | None => a
             end in
    Run sha256_Sum256 regexp_Compile a
end.

(** The user data type of the custom streams example, with its JSON
    form. *)
Record customer : Type := {
  UserID : string;
  Token : string;
  PreferredStreamType : string
}.

Definition jsonString (s : string) : string :=
Strings.dquote +:+ s +:+ Strings.dquote.

(** The JSON text of a customer whose fields hold no character that JSON
    escapes. *)
Definition customerJSON (c : customer) : string :=
"{" +:+ jsonString "userId" +:+ ":" +:+ jsonString (UserID c) +:+ ","
+:+ jsonString "token" +:+ ":" +:+ jsonString (Token c) +:+ ","
+:+ jsonString "preferredStreamType" +:+ ":" +:+ jsonString (PreferredStreamType c)
+:+ "}".

(** The customer of the example's comment, and one whose user id is two
    characters longer. *)
Definition customer123 : customer :=
{| UserID := "123"; Token := "abc"; PreferredStreamType := "http" |}.

Definition customer12345 : customer :=
{| UserID := "12345"; Token := "abc"; PreferredStreamType := "http" |}.

(** A stand-in for the [reflect.Type] of [customer] that unmarshals the
    JSON text of these two customers and of the empty object. *)
Definition customerType : reflect_Type customer :=
{| type_Zero := {| UserID := ""; Token := ""; PreferredStreamType := "" |};
   json_Unmarshal := fun data zero =>
     if String.eqb data (customerJSON customer123) then Ok customer123
     else if String.eqb data (customerJSON customer12345) then Ok customer12345
     else if String.eqb data "{}" then Ok zero
     else Err (UnmarshalError "invalid character") |}.

(** Stand-ins for the item types, their JSON form and the digest, used
    where a property is instantiated. *)
#[local] Instance sampleManifestJSON : JSON Manifest := fun m => jsonString (ID m).
#[local] Instance sampleItemsJSON : JSON (list string) :=
  fun l => "[" +:+ String.concat "," (map jsonString l) +:+ "]".
Definition sampleDigest : string -> string := fun s => substring 0 32 (s +:+ s +:+ s +:+ s).


(** ** More of the repository

    The deep copies of [types.go], the subtitle handler, the CORS
    middleware and the status-capturing response writer of
    [logging.go]. *)

(** The copy loop over a slice: a nil slice stays nil, any other slice
    becomes a new slice of the copied elements. *)
Definition cloneSlice {A : Type} (cloneElement : A -> A) (s : slice A) : slice A :=
match s with
| None => None
| Some l => Some (map cloneElement l)
end.

(** [ExtraItem.clone]. *)
Definition ExtraItem_clone (ei : ExtraItem) : ExtraItem :=
{| extra_Name := extra_Name ei;
   extra_IsRequired := extra_IsRequired ei;
   extra_Options := cloneSlice (fun option => option) (extra_Options ei);
   extra_OptionsLimit := extra_OptionsLimit ei |}.

(** [CatalogItem.clone]. *)
Definition CatalogItem_clone (ci : CatalogItem) : CatalogItem :=
{| catalog_Type := catalog_Type ci;
   catalog_ID := catalog_ID ci;
   catalog_Name := catalog_Name ci;
   catalog_Extra := cloneSlice ExtraItem_clone (catalog_Extra ci) |}.

(** [ResourceItem.clone]. *)
Definition ResourceItem_clone (ri : ResourceItem) : ResourceItem :=
{| resource_Name := resource_Name ri;
   resource_Types := cloneSlice (fun t => t) (resource_Types ri);
   resource_IDprefixes := cloneSlice (fun idPrefix => idPrefix) (resource_IDprefixes ri) |}.

(** [Manifest.clone]. *)
Definition Manifest_clone (m : Manifest) : Manifest :=
{| ID := ID m;
   Name := Name m;
   Description := Description m;
   Version := Version m;
   ResourceItems := cloneSlice ResourceItem_clone (ResourceItems m);
   Types := cloneSlice (fun t => t) (Types m);
   Catalogs := cloneSlice CatalogItem_clone (Catalogs m);
   IDprefixes := cloneSlice (fun idPrefix => idPrefix) (IDprefixes m);
   Background := Background m;
   Logo := Logo m;
   ContactEmail := ContactEmail m;
   manifest_BehaviorHints := manifest_BehaviorHints m |}.

Section Subtitles.

Import HTTP.

Context {T Subtitles : Type}.
Context `{JSON Subtitles}.

(** [SubtitleHandler], with values of [[]SubtitleItem] as its result. *)
Definition SubtitleHandler : Type := string -> any T -> result Subtitles.

(** [createSubtitleHandler].  The parameters [cachePublic] and
    [handleEtag] are not used by the function. *)
Definition createSubtitleHandler (handler : SubtitleHandler)
    (cacheAge : Z) (cachePublic handleEtag : bool)
    (userDataType : option (reflect_Type T)) (userDataIsBase64 : bool)
    (w : ResponseWriter) (r : Request) : ResponseWriter :=
  let videoID := Query_Get r "videoId" in
  if String.eqb videoID "" then
    Error w "Missing videoId parameter" StatusBadRequest
  else
    match decodeUserData (Query_Get r "userData") userDataType userDataIsBase64 with
    | (_, Some err) => Error w "Invalid user data" StatusBadRequest
    | (userData, None) =>
        match handler videoID userData with
        | Err err => Error w "Failed to get subtitles" StatusInternalServerError
        | Ok subtitles =>
            let w := if 0 <? cacheAge
                     then Header_Set "Cache-Control"
                            ("public, max-age=" +:+ Strings.Itoa cacheAge) w
                     else w in
            let w := Header_Set "Content-Type" "application/json" w in
            json_Encode subtitles w
        end
    end.

End Subtitles.

(** [Addon.AddSubtitleHandler]: the handler is created at once, from the
    options and the user data type the addon has at that moment, and is
    appended to the custom endpoints under the path [/subtitles]. *)
Definition AddSubtitleHandler
    {T MetaPreviewItems StreamItems ConfigMap ConfigurationUI Meta FileSystem
     Subtitles : Type} `{JSON Subtitles}
    (handler : @SubtitleHandler T Subtitles)
    (a : @Addon T MetaPreviewItems StreamItems ConfigMap ConfigurationUI Meta FileSystem)
    : @Addon T MetaPreviewItems StreamItems ConfigMap ConfigurationUI Meta FileSystem :=
{| manifest := manifest a; catalogHandlers := catalogHandlers a;
   streamHandlers := streamHandlers a; configHandler := configHandler a;
   configUI := configUI a; opts := opts a; logger := logger a;
   customEndpoints :=
     app (customEndpoints a)
         [{| endpoint_method := "GET"; endpoint_path := "/subtitles";
             endpoint_handler :=
               createSubtitleHandler handler
                 (seconds (CacheAgeStreams (opts a)))
                 (CachePublicStreams (opts a)) (HandleEtagStreams (opts a))
                 (userDataType a) (UserDataIsBase64 (opts a)) |}];
   manifestCallback := manifestCallback a;
   userDataType := userDataType a; metaClient := metaClient a |}.

(** [corsMiddleware]. *)
Definition corsMiddleware {S : Type} (next : Mux.Handler S) : Mux.Handler S :=
fun st w r =>
  let w := HTTP.Header_Set "Access-Control-Allow-Origin" "*" w in
  let w := HTTP.Header_Set "Access-Control-Allow-Methods" "GET,HEAD" w in
  let w := HTTP.Header_Set "Access-Control-Allow-Headers"
             "Accept, Accept-Language, Content-Type, Origin, Accept-Encoding, Content-Language, X-Requested-With"
             w in
  if String.eqb (HTTP.Method r) "OPTIONS" then (st, HTTP.WriteHeader HTTP.StatusOK w)
  else next st w r.

(** The [responseWriter] of [logging.go]: the wrapped writer and the
    status code that was captured. *)
Record responseWriter : Type := {
  rw_ResponseWriter : HTTP.ResponseWriter;
  rw_statusCode : Z
}.

(** The wrapper as the middlewares create it, with 200 as the status. *)
Definition wrapResponseWriter (w : HTTP.ResponseWriter) : responseWriter :=
{| rw_ResponseWriter := w; rw_statusCode := HTTP.StatusOK |}.

(** [responseWriter.WriteHeader]. *)
Definition responseWriter_WriteHeader (code : Z) (rw : responseWriter) : responseWriter :=
{| rw_ResponseWriter := HTTP.WriteHeader code (rw_ResponseWriter rw);
   rw_statusCode := code |}.

(** The calls a handler can make on the writer it is given.  On the
    wrapper every call but [WriteHeader] is the method of the embedded
    writer. *)
Inductive writerCall : Type :=
| CallHeaderSet (k v : string)
| CallHeaderDel (k : string)
| CallWriteHeader (code : Z)
| CallWrite (data : string).

Definition callWriter (c : writerCall) (w : HTTP.ResponseWriter) : HTTP.ResponseWriter :=
match c with
| CallHeaderSet k v => HTTP.Header_Set k v w
| CallHeaderDel k => HTTP.Header_Del k w
| CallWriteHeader code => HTTP.WriteHeader code w
| CallWrite data => HTTP.Write data w
end.

Definition callWrapper (c : writerCall) (rw : responseWriter) : responseWriter :=
match c with
| CallWriteHeader code => responseWriter_WriteHeader code rw
| _ => {| rw_ResponseWriter := callWriter c (rw_ResponseWriter rw);
          rw_statusCode := rw_statusCode rw |}
end.

(** A handler's calls, in order, on a writer and on the wrapper. *)
Definition callsOnWriter (cs : list writerCall) (w : HTTP.ResponseWriter)
    : HTTP.ResponseWriter :=
foldl (fun w c => callWriter c w) w cs.

Definition callsOnWrapper (cs : list writerCall) (rw : responseWriter) : responseWriter :=
foldl (fun rw c => callWrapper c rw) rw cs.

(** The codes of the [WriteHeader] calls among the calls, in order. *)
Fixpoint writeHeaderCodes (cs : list writerCall) : list Z :=
match cs with
| [] => []
| CallWriteHeader code :: cs => code :: writeHeaderCodes cs
| _ :: cs => writeHeaderCodes cs
end.

(** A request with one wildcard value set. *)
Definition withPathValue (name value : string) (r : HTTP.Request) : HTTP.Request :=
{| HTTP.Method := HTTP.Method r; HTTP.URL_Path := HTTP.URL_Path r;
   HTTP.URL_Query := HTTP.URL_Query r; HTTP.Header := HTTP.Header r;
   HTTP.PathValues := <[name := value]> (HTTP.PathValues r) |}.

(** The header names that the catalog and stream handlers write or
    delete. *)
Definition handlerHeaders : list string :=
["Content-Length"; "Content-Type"; "X-Content-Type-Options"; "Cache-Control"; "ETag"].

(** The message to a catalog or stream request for which no handler is
    called: the first check that fails decides it.  [known] says whether a
    handler is registered for the type of the request. *)
Definition refusal {T : Type} (t : option (reflect_Type T)) (b : bool) (known : bool)
    (r : HTTP.Request) : string :=
if String.eqb (HTTP.PathValue r "type") "" || String.eqb (HTTP.PathValue r "id") ""
then "Missing type or id parameter"
else if isSome (snd (decodeUserData (requestUserData r) t b))
then "Invalid user data"
else if known then "" else "Unsupported type".


(** The three headers that [corsMiddleware] sets, with their values. *)
Definition corsHeaders : list (string * string) :=
[("Access-Control-Allow-Origin", "*");
 ("Access-Control-Allow-Methods", "GET,HEAD");
 ("Access-Control-Allow-Headers",
  "Accept, Accept-Language, Content-Type, Origin, Accept-Encoding, Content-Language, X-Requested-With")].

(** Whether a response carries every one of the given headers with its
    value. *)
Definition carries (hs : list (string * string)) (w : HTTP.ResponseWriter) : bool :=
forallb (fun h => bool_decide (HTTP.header w !! fst h = Some (snd h))) hs.

(** The codes with which [WriteHeader] sends the status line and ends
    the header: 101 and the codes from 200 to 999. *)
Definition finalCode (code : Z) : bool :=
(code =? 101) || ((200 <=? code) && (code <=? 999)).

(** The codes by which a list of calls can send the status line: the code
    of a [WriteHeader], and 200 for a [Write], which sends that status when
    none was sent before it. *)
Fixpoint sendingCodes (cs : list writerCall) : list Z :=
match cs with
| [] => []
| CallWriteHeader code :: cs => code :: sendingCodes cs
| CallWrite _ :: cs => HTTP.StatusOK :: sendingCodes cs
| _ :: cs => sendingCodes cs
end.

(** A configuration that has nothing in it. *)
#[local] Instance sampleUnitJSON : JSON unit := fun _ => "{}".

(** The addon that [NewAddon] returns for the scenario's manifest, its
    stream handler and the default options. *)
Definition sampleAddon : @Addon customer (list string) (list string) unit unit unit unit :=
{| manifest := scenarioManifest; catalogHandlers := None;
   streamHandlers := Some (scenarioStreamHandlers ["item"]);
   configHandler := None; configUI := None;
   opts := withDefaults sampleMetaClient DefaultOptions;
   logger := NewLogger "info" "console"; customEndpoints := [];
   manifestCallback := None; userDataType := None; metaClient := None |}.

(** * Properties *)

(** ** Response writers *)

Section WriterFacts.

Import HTTP.

Lemma WriteHeader_fresh (code : Z) (w : ResponseWriter) :
  statusCode w = None ->
  WriteHeader code w = {| header := header w; statusCode := Some code; body := body w |}.
Proof. intros Hw. unfold WriteHeader. now rewrite Hw. Qed.

Lemma WriteHeader_body (code : Z) (w : ResponseWriter) :
  body (WriteHeader code w) = body w.
Proof. unfold WriteHeader. destruct (statusCode w); reflexivity. Qed.

Lemma WriteHeader_header (code : Z) (w : ResponseWriter) :
  header (WriteHeader code w) = header w.
Proof. unfold WriteHeader. destruct (statusCode w); reflexivity. Qed.

Lemma WriteHeader_status (code : Z) (w : ResponseWriter) :
  statusCode w = None -> status (WriteHeader code w) = code.
Proof. intros Hw. rewrite WriteHeader_fresh by exact Hw. reflexivity. Qed.

Lemma Write_status_fresh (data : string) (w : ResponseWriter) :
  statusCode w = None -> status (Write data w) = StatusOK.
Proof.
  intros Hw. unfold Write, status. rewrite WriteHeader_fresh by exact Hw.
  reflexivity.
Qed.

Lemma Write_status_sent (data : string) (w : ResponseWriter) (code : Z) :
  statusCode w = Some code -> status (Write data w) = code.
Proof. intros Hw. unfold Write, status, WriteHeader. now rewrite Hw; cbn; rewrite Hw. Qed.

Lemma Write_body (data : string) (w : ResponseWriter) :
  body (Write data w) = body w +:+ data.
Proof. unfold Write. cbn [body]. now rewrite WriteHeader_body. Qed.

Lemma Write_header (data : string) (w : ResponseWriter) :
  header (Write data w) = header w.
Proof. unfold Write. cbn [header]. now rewrite WriteHeader_header. Qed.

Lemma Error_status (w : ResponseWriter) (msg : string) (code : Z) :
  statusCode w = None -> status (Error w msg code) = code.
Proof.
  intros Hw. unfold Error. apply Write_status_sent.
  rewrite WriteHeader_fresh by exact Hw. reflexivity.
Qed.

Lemma Error_body (w : ResponseWriter) (msg : string) (code : Z) :
  body (Error w msg code) = body w +:+ msg +:+ newline.
Proof. unfold Error. rewrite Write_body, WriteHeader_body. reflexivity. Qed.

Lemma json_Encode_status {A : Type} `{JSON A} (v : A) (w : ResponseWriter) :
  statusCode w = None -> status (json_Encode v w) = StatusOK.
Proof. apply Write_status_fresh. Qed.

Lemma json_Encode_body {A : Type} `{JSON A} (v : A) (w : ResponseWriter) :
  body (json_Encode v w) = body w +:+ json_Marshal v +:+ newline.
Proof. apply Write_body. Qed.

End WriterFacts.

(** ** User data decoding *)

Section DecodeFacts.

Context {T : Type}.

Lemma decodeUserData_empty (t : option (reflect_Type T)) (b : bool) :
  decodeUserData "" t b = (anyString "", None).
Proof. reflexivity. Qed.

Lemma decodeUserData_untyped (data : string) (b : bool) :
  decodeUserData data (None : option (reflect_Type T)) b = (anyString "", None).
Proof. unfold decodeUserData. destruct (String.eqb data ""); reflexivity. Qed.

Lemma decodeUserData_typed (data : string) (t : reflect_Type T) (b : bool) :
  data <> "" ->
  decodeUserData data (Some t) b =
    match decodedBytes data b with
    | Err err => (anyNil, Some err)
    | Ok bytes =>
        match json_Unmarshal t bytes (type_Zero t) with
        | Err err => (anyNil, Some err)
        | Ok p => (anyPtr p, None)
        end
    end.
Proof.
  intros Hne. unfold decodeUserData, decodedBytes.
  destruct (String.eqb_spec data ""); [contradiction | reflexivity].
Qed.

End DecodeFacts.

(** C10. [decodeUserData] returns the nil value exactly when it returns an
    error.  For an empty input, and for any input when no user data type is
    registered, it returns the empty string and no error, so that user
    data supplied without a registered type is dropped.  In every other
    case without an error the value is a pointer, which is not nil, to a
    value of the registered type: the value that [json.Unmarshal] left in
    the zero value that [reflect.New] allocated for this call. *)
Theorem decodeUserData_value_and_error {T : Type} (data : string)
    (t : option (reflect_Type T)) (userDataIsBase64 : bool) :
  (fst (decodeUserData data t userDataIsBase64) = anyNil
   <-> snd (decodeUserData data t userDataIsBase64) <> None)
  /\ ((data = "" \/ t = None) ->
      decodeUserData data t userDataIsBase64 = (anyString "", None))
  /\ (snd (decodeUserData data t userDataIsBase64) = None ->
      (decodeUserData data t userDataIsBase64 = (anyString "", None)
       /\ (data = "" \/ t = None))
      \/ (exists (ty : reflect_Type T) (bytes : string) (p : T),
           data <> "" /\ t = Some ty
           /\ decodedBytes data userDataIsBase64 = Ok bytes
           /\ json_Unmarshal ty bytes (type_Zero ty) = Ok p
           /\ decodeUserData data t userDataIsBase64 = (anyPtr p, None))).
Proof.
  destruct (String.eqb_spec data "") as [-> | Hne].
  { rewrite decodeUserData_empty. cbn. repeat split; try congruence.
    - intros _. left. auto. }
  destruct t as [ty |].
  2:{ rewrite decodeUserData_untyped. cbn. repeat split; try congruence.
      - intros _. left. auto. }
  rewrite decodeUserData_typed by exact Hne.
  destruct (decodedBytes data userDataIsBase64) as [bytes | e] eqn:Hdec.
  - destruct (json_Unmarshal ty bytes (type_Zero ty)) as [p | e] eqn:Hjson; cbn.
    + repeat split; try congruence.
      * intros [? | ?]; congruence.
      * intros _. right. exists ty, bytes, p. auto.
    + repeat split; try congruence.
      intros [? | ?]; congruence.
  - cbn. repeat split; try congruence.
    intros [? | ?]; congruence.
Qed.

(** ** Strings *)

Section StringFacts.

Lemma append_cons (c : ascii) (a b : string) :
  String c a +:+ b = String c (a +:+ b).
Proof. reflexivity. Qed.

Lemma append_empty_l (b : string) : "" +:+ b = b.
Proof. reflexivity. Qed.

Lemma length_app (a b : string) :
  String.length (a +:+ b) = (String.length a + String.length b)%nat.
Proof.
  induction a as [| c a IH]; [reflexivity |].
  rewrite append_cons. cbn [String.length Nat.add]. now rewrite IH.
Qed.

Lemma substring_all (s : string) : substring 0 (String.length s) s = s.
Proof.
  induction s as [| c s IH]; [reflexivity |].
  cbn [String.length substring]. now rewrite IH.
Qed.

Lemma substring_app_r (s suffix : string) :
  substring (String.length s) (String.length suffix) (s +:+ suffix) = suffix.
Proof.
  induction s as [| c s IH]; [apply substring_all |].
  rewrite append_cons. cbn [String.length substring]. exact IH.
Qed.

Lemma substring_app_l (s suffix : string) :
  substring 0 (String.length s) (s +:+ suffix) = s.
Proof.
  induction s as [| c s IH].
  - now destruct suffix.
  - rewrite append_cons. cbn [String.length substring]. now rewrite IH.
Qed.

(** A string is its first [m] bytes followed by the rest. *)
Lemma substring_split (s : string) (m : nat) :
  (m <= String.length s)%nat ->
  s = substring 0 m s +:+ substring m (String.length s - m) s.
Proof.
  revert m. induction s as [| c s IH]; intros m Hm.
  - cbn in Hm. now replace m with 0%nat by lia.
  - destruct m as [| m].
    + rewrite Nat.sub_0_r, substring_all. reflexivity.
    + cbn [String.length] in *. cbn [substring Nat.sub].
      rewrite append_cons. f_equal. apply IH. lia.
Qed.

Lemma HasSuffix_app (s suffix : string) : Strings.HasSuffix (s +:+ suffix) suffix = true.
Proof.
  unfold Strings.HasSuffix. rewrite length_app.
  replace (String.length s + String.length suffix - String.length suffix)%nat
    with (String.length s) by lia.
  rewrite substring_app_r, String.eqb_refl, andb_true_r.
  apply Nat.leb_le. lia.
Qed.

Lemma TrimSuffix_app (s suffix : string) : Strings.TrimSuffix (s +:+ suffix) suffix = s.
Proof.
  unfold Strings.TrimSuffix. rewrite HasSuffix_app, length_app.
  replace (String.length s + String.length suffix - String.length suffix)%nat
    with (String.length s) by lia.
  apply substring_app_l.
Qed.

Lemma HasSuffix_true (s suffix : string) :
  Strings.HasSuffix s suffix = true -> exists s', s = s' +:+ suffix.
Proof.
  unfold Strings.HasSuffix. intros H. apply andb_true_iff in H as [Hle Heq].
  apply Nat.leb_le in Hle. apply String.eqb_eq in Heq.
  exists (substring 0 (String.length s - String.length suffix) s).
  pose proof (substring_split s (String.length s - String.length suffix)) as Hs.
  replace (String.length s - (String.length s - String.length suffix))%nat
    with (String.length suffix) in Hs by lia.
  rewrite Heq in Hs. apply Hs. lia.
Qed.

Lemma TrimSuffix_none (s suffix : string) :
  Strings.HasSuffix s suffix = false -> Strings.TrimSuffix s suffix = s.
Proof. unfold Strings.TrimSuffix. now intros ->. Qed.

End StringFacts.

Section URLFacts.

Import Base64 URL.

Lemma escaped_byte (c : ascii) :
  ishex (upperhex (Z.shiftr (byte_of c) 4)) = true
  /\ ishex (upperhex (Z.land (byte_of c) 15)) = true
  /\ to_byte (Z.lor (Z.shiftl (unhex (upperhex (Z.shiftr (byte_of c) 4))) 4)
                    (unhex (upperhex (Z.land (byte_of c) 15)))) = c.
Proof.
  destruct c as [[] [] [] [] [] [] [] []]; vm_compute; auto.
Qed.

Lemma kept_byte_is_not_percent (c : ascii) :
  shouldEscape c = false -> Ascii.eqb c percent = false.
Proof.
  destruct c as [[] [] [] [] [] [] [] []]; vm_compute; congruence.
Qed.

Lemma PathUnescape_PathEscape (s : string) : PathUnescape (PathEscape s) = Ok s.
Proof.
  induction s as [| c s IH]; [reflexivity |].
  cbn [PathEscape]. destruct (shouldEscape c) eqn:Hesc.
  - destruct (escaped_byte c) as [Hhi [Hlo Hc]].
    cbn [PathUnescape]. rewrite Ascii.eqb_refl, Hhi, Hlo, IH. cbn [andb].
    now rewrite Hc.
  - cbn [PathUnescape]. rewrite (kept_byte_is_not_percent c Hesc), IH. reflexivity.
Qed.

Lemma PathEscape_nonempty (s : string) : s <> "" -> PathEscape s <> "".
Proof.
  destruct s as [| c s]; [congruence |]. intros _. cbn [PathEscape].
  destruct (shouldEscape c); discriminate.
Qed.

End URLFacts.

(** ** Base64 *)

Section Base64Facts.

Import Base64.

Lemma byte_of_range (c : ascii) : 0 <= byte_of c < 256.
Proof.
  unfold byte_of. pose proof (N_ascii_bounded c). lia.
Qed.

Lemma to_byte_of (c : ascii) : to_byte (byte_of c) = c.
Proof.
  unfold to_byte. change 255 with (Z.ones 8).
  rewrite Z.land_ones by lia.
  rewrite Z.mod_small by apply byte_of_range.
  unfold byte_of. rewrite N2Z.id. apply ascii_N_embedding.
Qed.

Lemma to_byte_mod (n : Z) : to_byte n = to_byte (n mod 256).
Proof.
  unfold to_byte. change 255 with (Z.ones 8).
  rewrite !Z.land_ones by lia. now rewrite Z.mod_mod by lia.
Qed.

Lemma land_shiftl_small (a b k : Z) :
  0 <= k -> 0 <= b < 2 ^ k -> Z.land (Z.shiftl a k) b = 0.
Proof.
  intros Hk Hb. apply Z.bits_inj'. intros n Hn.
  rewrite Z.land_spec, Z.bits_0.
  destruct (Z.lt_ge_cases n k).
  - rewrite Z.shiftl_spec_low by assumption. reflexivity.
  - rewrite <- (Z.mod_small b (2 ^ k)) by lia.
    rewrite Z.mod_pow2_bits_high by lia. apply andb_false_r.
Qed.

Lemma lor_shiftl_add (a b k : Z) :
  0 <= k -> 0 <= b < 2 ^ k -> Z.lor (Z.shiftl a k) b = a * 2 ^ k + b.
Proof.
  intros Hk Hb. rewrite <- Z.lxor_lor by now apply land_shiftl_small.
  rewrite <- Z.add_nocarry_lxor by now apply land_shiftl_small.
  now rewrite Z.shiftl_mul_pow2.
Qed.

(** The value of three bytes side by side. *)
Lemma bytes_value (x y z : Z) :
  0 <= x < 256 -> 0 <= y < 256 -> 0 <= z < 256 ->
  Z.lor (Z.lor (Z.shiftl x 16) (Z.shiftl y 8)) z = x * 65536 + y * 256 + z.
Proof.
  intros Hx Hy Hz.
  replace (Z.shiftl x 16) with (Z.shiftl (Z.shiftl x 8) 8)
    by (rewrite Z.shiftl_shiftl by lia; reflexivity).
  rewrite <- Z.shiftl_lor.
  rewrite (lor_shiftl_add x y 8) by lia.
  rewrite lor_shiftl_add by lia. lia.
Qed.

(** The value of four six-bit values side by side. *)
Lemma sextets_value (a b c d : Z) :
  0 <= a < 64 -> 0 <= b < 64 -> 0 <= c < 64 -> 0 <= d < 64 ->
  Z.lor (Z.lor (Z.lor (Z.shiftl a 18) (Z.shiftl b 12)) (Z.shiftl c 6)) d
  = a * 262144 + b * 4096 + c * 64 + d.
Proof.
  intros Ha Hb Hc Hd.
  replace (Z.shiftl a 18) with (Z.shiftl (Z.shiftl (Z.shiftl a 6) 6) 6)
    by (rewrite !Z.shiftl_shiftl by lia; reflexivity).
  replace (Z.shiftl b 12) with (Z.shiftl (Z.shiftl b 6) 6)
    by (rewrite !Z.shiftl_shiftl by lia; reflexivity).
  rewrite <- !Z.shiftl_lor.
  rewrite (lor_shiftl_add a b 6) by lia.
  rewrite (lor_shiftl_add _ c 6) by lia.
  rewrite lor_shiftl_add by lia. lia.
Qed.

Lemma land63 (v : Z) : Z.land v 63 = v mod 64.
Proof. change 63 with (Z.ones 6). now rewrite Z.land_ones by lia. Qed.


Lemma pair_value (a b : Z) :
  0 <= a < 64 -> 0 <= b < 64 ->
  Z.lor (Z.shiftl a 18) (Z.shiftl b 12) = a * 262144 + b * 4096.
Proof.
  intros Ha Hb.
  pose proof (sextets_value a b 0 0 Ha Hb) as Hv.
  rewrite Z.shiftl_0_l, !Z.lor_0_r in Hv. rewrite Hv; lia.
Qed.

Lemma triple_value (a b c : Z) :
  0 <= a < 64 -> 0 <= b < 64 -> 0 <= c < 64 ->
  Z.lor (Z.lor (Z.shiftl a 18) (Z.shiftl b 12)) (Z.shiftl c 6)
  = a * 262144 + b * 4096 + c * 64.
Proof.
  intros Ha Hb Hc.
  pose proof (sextets_value a b c 0 Ha Hb Hc) as Hv.
  rewrite Z.lor_0_r in Hv. rewrite Hv; lia.
Qed.

Ltac to_arith :=
  rewrite ?land63, ?Z.shiftr_div_pow2 by lia;
  change (2 ^ 18) with 262144; change (2 ^ 16) with 65536;
  change (2 ^ 12) with 4096; change (2 ^ 8) with 256; change (2 ^ 6) with 64.

Ltac byte_eq :=
  rewrite to_byte_mod; to_arith;
  match goal with
  | |- to_byte ?e = ?c =>
      replace e with (byte_of c);
      [apply to_byte_of | Z.div_mod_to_equations; lia]
  end.

Lemma decodeQuanta_one (x : ascii) :
  decodeQuanta (encodeValues [x]) = Ok [x].
Proof.
  pose proof (byte_of_range x) as Hx.
  cbn [encodeValues decodeQuanta].
  rewrite (Z.shiftl_mul_pow2 (byte_of x) 16) by lia. to_arith.
  rewrite pair_value by (apply Z.mod_pos_bound; lia).
  f_equal. f_equal. byte_eq.
Qed.

Lemma decodeQuanta_two (x y : ascii) :
  decodeQuanta (encodeValues [x; y]) = Ok [x; y].
Proof.
  pose proof (byte_of_range x) as Hx. pose proof (byte_of_range y) as Hy.
  cbn [encodeValues decodeQuanta].
  pose proof (bytes_value (byte_of x) (byte_of y) 0 Hx Hy) as Hv.
  rewrite Z.lor_0_r in Hv by lia. rewrite Hv by lia. to_arith.
  rewrite triple_value by (apply Z.mod_pos_bound; lia).
  f_equal. f_equal; [| f_equal]; byte_eq.
Qed.

Lemma decodeQuanta_three (x y z : ascii) (rest : list ascii) :
  decodeQuanta (encodeValues rest) = Ok rest ->
  decodeQuanta (encodeValues (x :: y :: z :: rest)) = Ok (x :: y :: z :: rest).
Proof.
  intros IH.
  pose proof (byte_of_range x) as Hx. pose proof (byte_of_range y) as Hy.
  pose proof (byte_of_range z) as Hz.
  cbn [encodeValues decodeQuanta]. rewrite IH.
  rewrite bytes_value by lia. to_arith.
  rewrite sextets_value by (apply Z.mod_pos_bound; lia).
  f_equal. f_equal; [| f_equal; [| f_equal]]; byte_eq.
Qed.

(** Induction over a list of bytes three at a time. *)
Lemma list_ind_by_three {A : Type} (P : list A -> Prop) :
  P [] -> (forall x, P [x]) -> (forall x y, P [x; y]) ->
  (forall x y z rest, P rest -> P (x :: y :: z :: rest)) ->
  forall l, P l.
Proof.
  intros H0 H1 H2 H3.
  assert (Hall : forall l, P l /\ (forall x, P (x :: l)) /\ (forall x y, P (x :: y :: l))).
  { induction l as [| a l [IH0 [IH1 IH2]]].
    - auto.
    - split; [apply IH1 | split; [intros x; apply IH2 |]]. intros x y. now apply H3. }
  intros l. apply Hall.
Qed.

Lemma decodeQuanta_encodeValues (bs : list ascii) :
  decodeQuanta (encodeValues bs) = Ok bs.
Proof.
  induction bs as [| x | x y | x y z rest IH] using list_ind_by_three.
  - reflexivity.
  - apply decodeQuanta_one.
  - apply decodeQuanta_two.
  - now apply decodeQuanta_three.
Qed.


Lemma land63_sextet (v : Z) : sextet (Z.land v 63).
Proof. rewrite land63. apply Z.mod_pos_bound. lia. Qed.

Lemma encodeValues_sextets (bs : list ascii) : Forall sextet (encodeValues bs).
Proof.
  induction bs as [| x | x y | x y z rest IH] using list_ind_by_three;
    cbn [encodeValues]; repeat (constructor; [apply land63_sextet |]);
    first [exact IH | constructor].
Qed.

Lemma decodeMap_encodeMap (v : Z) : sextet v -> decodeMap (encodeMap v) = Some v.
Proof.
  intros Hv.
  assert (Hall : forallb (fun n => match decodeMap (encodeMap (Z.of_nat n)) with
                                   | Some u => u =? Z.of_nat n
                                   | None => false
                                   end) (seq 0 64) = true) by (vm_compute; reflexivity).
  rewrite forallb_forall in Hall.
  specialize (Hall (Z.to_nat v)). rewrite Z2Nat.id in Hall by (unfold sextet in Hv; lia).
  assert (Hin : In (Z.to_nat v) (seq 0 64)) by (apply in_seq; unfold sextet in Hv; lia).
  specialize (Hall Hin).
  destruct (decodeMap (encodeMap v)) as [u |]; [| discriminate].
  f_equal. lia.
Qed.

Lemma sextets_encoded (vs : list Z) :
  Forall sextet vs -> sextets (string_of_list_ascii (map encodeMap vs)) = Ok vs.
Proof.
  induction 1 as [| v vs Hv _ IH]; [reflexivity |].
  cbn [map string_of_list_ascii sextets].
  now rewrite decodeMap_encodeMap, IH.
Qed.

Lemma DecodeString_EncodeToString (s : string) :
  DecodeString (EncodeToString s) = Ok s.
Proof.
  unfold DecodeString, EncodeToString.
  rewrite sextets_encoded by apply encodeValues_sextets.
  rewrite decodeQuanta_encodeValues. now rewrite string_of_list_ascii_of_string.
Qed.

End Base64Facts.

(** ** Encoded user data *)

Section RoundTrip.

Import Base64.

(** A text that holds [=] is corrupt input for the decoder without
    padding. *)
Lemma sextets_pad_end (s rest : string) :
  sextets (s +:+ String "=" rest) = Err CorruptInputError.
Proof.
  induction s as [| c s IH]; [reflexivity |].
  rewrite append_cons. cbn [sextets]. rewrite IH.
  destruct (decodeMap c); [reflexivity |]. now destruct (isNewline c).
Qed.

Lemma append_empty_r (s : string) : s +:+ "" = s.
Proof.
  induction s as [| c s IH]; [reflexivity |]. rewrite append_cons. now rewrite IH.
Qed.

Lemma append_assoc (a b c : string) : (a +:+ b) +:+ c = a +:+ (b +:+ c).
Proof.
  induction a as [| x a IH]; [reflexivity |]. rewrite !append_cons. now rewrite IH.
Qed.

Lemma EncodeToString_no_pad (s : string) :
  Strings.HasSuffix (EncodeToString s) "=" = false.
Proof.
  destruct (Strings.HasSuffix (EncodeToString s) "=") eqn:Hs; [| reflexivity].
  apply HasSuffix_true in Hs as [s' Hs'].
  pose proof (DecodeString_EncodeToString s) as Hd.
  unfold DecodeString in Hd. rewrite Hs', sextets_pad_end in Hd. discriminate.
Qed.

Lemma EncodeToString_nonempty (s : string) : s <> "" -> EncodeToString s <> "".
Proof.
  unfold EncodeToString. destruct s as [| x [| y [| z s]]]; [congruence | | |];
    intros _; discriminate.
Qed.

Lemma append_nonempty (a b : string) : a <> "" -> a +:+ b <> "".
Proof. destruct a; [congruence | discriminate]. Qed.

(** What [decodeUserData] decodes from the padded text, by the length of
    the text that was encoded. *)
Lemma decodedBytes_padded (s : string) :
  decodedBytes (EncodeToStringPadded s) true =
    if (String.length s mod 3 =? 1)%nat then Err CorruptInputError else Ok s.
Proof.
  unfold decodedBytes, EncodeToStringPadded, padding.
  pose proof (Nat.mod_upper_bound (String.length s) 3) as Hb.
  destruct (String.length s mod 3)%nat as [| [| [| n]]]; cbn [Nat.eqb]; [| | | lia].
  - rewrite append_empty_r, TrimSuffix_none by apply EncodeToString_no_pad.
    apply DecodeString_EncodeToString.
  - change "==" with ("=" +:+ "="). rewrite <- append_assoc, TrimSuffix_app.
    unfold DecodeString. now rewrite sextets_pad_end.
  - rewrite TrimSuffix_app. apply DecodeString_EncodeToString.
Qed.

Lemma decodedBytes_encoded (enc : Encoding) (s : string) :
  decodedBytes (encodeUserData enc s) (isBase64 enc) =
    match enc with
    | Base64URLPadded =>
        if (String.length s mod 3 =? 1)%nat then Err CorruptInputError else Ok s
    | _ => Ok s
    end.
Proof.
  destruct enc; cbn [encodeUserData isBase64].
  - apply decodedBytes_padded.
  - unfold decodedBytes. rewrite TrimSuffix_none by apply EncodeToString_no_pad.
    apply DecodeString_EncodeToString.
  - apply PathUnescape_PathEscape.
Qed.

Lemma encodeUserData_nonempty (enc : Encoding) (s : string) :
  s <> "" -> encodeUserData enc s <> "".
Proof.
  intros Hs. destruct enc; cbn [encodeUserData].
  - unfold EncodeToStringPadded. now apply append_nonempty, EncodeToString_nonempty.
  - now apply EncodeToString_nonempty.
  - now apply PathEscape_nonempty.
Qed.

End RoundTrip.

(** C4.  What [decodeUserData] returns on the encoded JSON text of a value
    of the registered type.  The value comes back from the base64url text
    without padding and from the percent-encoded text.  From the padded
    base64url text it comes back unless the JSON text has a length of one
    more than a multiple of three: then the padding is two [=], only one
    of which is stripped, and decoding fails with corrupt input. *)
Theorem decodeUserData_of_encoded {T : Type} (t : reflect_Type T) (enc : Encoding)
    (json : string) (v : T) :
  json <> "" ->
  json_Unmarshal t json (type_Zero t) = Ok v ->
  decodeUserData (encodeUserData enc json) (Some t) (isBase64 enc) =
    match enc with
    | Base64URLPadded =>
        if (String.length json mod 3 =? 1)%nat then (anyNil, Some CorruptInputError)
        else (anyPtr v, None)
    | _ => (anyPtr v, None)
    end.
Proof.
  intros Hne Hjson.
  rewrite decodeUserData_typed by now apply encodeUserData_nonempty.
  rewrite decodedBytes_encoded.
  destruct enc; [destruct (_ =? 1)%nat; [reflexivity |] | |]; now rewrite Hjson.
Qed.

(** The customer with the user id [12345]: the JSON text is 61 bytes
    long and unmarshals to the customer, its padded base64url text ends in
    two [=], and decoding that text returns the nil value and an error. *)
Lemma decodeUserData_of_encoded_witness :
  String.length (customerJSON customer12345) = 61%nat
  /\ json_Unmarshal customerType (customerJSON customer12345) (type_Zero customerType)
     = Ok customer12345
  /\ encodeUserData Base64URLPadded (customerJSON customer12345)
     = "eyJ1c2VySWQiOiIxMjM0NSIsInRva2VuIjoiYWJjIiwicHJlZmVycmVkU3RyZWFtVHlwZSI6Imh0dHAifQ=="
  /\ decodeUserData (encodeUserData Base64URLPadded (customerJSON customer12345))
       (Some customerType) true
     = (anyNil, Some CorruptInputError).
Proof.
  split; [reflexivity | split; [reflexivity | split; [reflexivity |]]].
  refine (decodeUserData_of_encoded customerType Base64URLPadded
            (customerJSON customer12345) customer12345 _ eq_refl).
  discriminate.
Defined.


(** ** Catalog and stream handlers *)

Lemma Hex_EncodeToString_length (s : string) :
  String.length (Hex.EncodeToString s) = (2 * String.length s)%nat.
Proof.
  induction s as [| c s IH]; [reflexivity |].
  cbn [Hex.EncodeToString String.length]. rewrite IH. lia.
Qed.

Section HandlerFacts.

Import HTTP.

Context {T MetaPreviewItems StreamItems : Type}.
Context `{JSON MetaPreviewItems, JSON StreamItems}.
Variable sha256_Sum256 : string -> string.

Lemma createStreamHandler_result
    (handlers : gmap string (@StreamHandler T StreamItems))
    (cacheAge : Z) (cachePublic handleEtag : bool)
    (t : option (reflect_Type T)) (b : bool) (w : ResponseWriter) (r : Request)
    (res : result StreamItems) :
  handlerResult handlers t b r = Some res ->
  createStreamHandler sha256_Sum256 handlers cacheAge cachePublic handleEtag t b w r =
    match res with
    | Err err =>
        if errors_Is err ErrNotFound then Error w "Not found" StatusNotFound
        else Error w "Failed to get streams" StatusInternalServerError
    | Ok items => respondWithItems sha256_Sum256 "streams" items cacheAge cachePublic
                    handleEtag w r
    end.
Proof.
  unfold handlerResult, createStreamHandler, StreamHandler.
  destruct (String.eqb (PathValue r "type") "" || String.eqb (PathValue r "id") "");
    [discriminate |].
  destruct (decodeUserData (requestUserData r) t b) as [ud [e |]]; [discriminate |].
  destruct (_ !! PathValue r "type") as [h |]; [| discriminate].
  intros [= <-]. reflexivity.
Qed.

Lemma createCatalogHandler_result
    (handlers : gmap string (@CatalogHandler T MetaPreviewItems))
    (cacheAge : Z) (cachePublic handleEtag : bool)
    (t : option (reflect_Type T)) (b : bool) (w : ResponseWriter) (r : Request)
    (res : result MetaPreviewItems) :
  handlerResult handlers t b r = Some res ->
  createCatalogHandler sha256_Sum256 handlers cacheAge cachePublic handleEtag t b w r =
    match res with
    | Err err => Error w "Failed to get catalog" StatusInternalServerError
    | Ok items => respondWithItems sha256_Sum256 "metas" items cacheAge cachePublic
                    handleEtag w r
    end.
Proof.
  unfold handlerResult, createCatalogHandler, CatalogHandler.
  destruct (String.eqb (PathValue r "type") "" || String.eqb (PathValue r "id") "");
    [discriminate |].
  destruct (decodeUserData (requestUserData r) t b) as [ud [e |]]; [discriminate |].
  destruct (_ !! PathValue r "type") as [h |]; [| discriminate].
  intros [= <-]. reflexivity.
Qed.

(** The writer after the cache headers, before the ETag is looked at. *)
Lemma respondWithItems_etag {A : Type} `{JSON A} (key : string) (items : A)
    (cacheAge : Z) (cachePublic : bool) (w : ResponseWriter) (r : Request) :
  header (respondWithItems sha256_Sum256 key items cacheAge cachePublic true w r)
    !! "ETag" = Some (generateETag sha256_Sum256 items).
Proof.
  unfold respondWithItems.
  destruct (String.eqb _ (generateETag sha256_Sum256 items)).
  - rewrite WriteHeader_header. cbn [header Header_Set]. apply lookup_insert_eq.
  - unfold json_Encode_envelope. rewrite Write_header. cbn [header Header_Set].
    rewrite lookup_insert_ne by discriminate. apply lookup_insert_eq.
Qed.

Lemma respondWithItems_not_modified {A : Type} `{JSON A} (key : string) (items : A)
    (cacheAge : Z) (cachePublic : bool) (w : ResponseWriter) (r : Request) :
  statusCode w = None ->
  Header_Get (Header r) "If-None-Match" = generateETag sha256_Sum256 items ->
  status (respondWithItems sha256_Sum256 key items cacheAge cachePublic true w r)
    = StatusNotModified
  /\ body (respondWithItems sha256_Sum256 key items cacheAge cachePublic true w r)
    = body w.
Proof.
  intros Hw Hm. unfold respondWithItems. rewrite Hm, String.eqb_refl. split.
  - apply WriteHeader_status. cbn [statusCode Header_Set].
    destruct (0 <? cacheAge), cachePublic; exact Hw.
  - rewrite WriteHeader_body. cbn [body Header_Set].
    destruct (0 <? cacheAge), cachePublic; reflexivity.
Qed.

Lemma respondWithItems_cache_control {A : Type} `{JSON A} (key : string) (items : A)
    (cacheAge : Z) (cachePublic handleEtag : bool) (w : ResponseWriter) (r : Request) :
  header (respondWithItems sha256_Sum256 key items cacheAge cachePublic handleEtag w r)
    !! "Cache-Control"
  = if cachePublic then Some "public"
    else if 0 <? cacheAge then Some ("public, max-age=" +:+ Strings.Itoa cacheAge)
    else header w !! "Cache-Control".
Proof.
  unfold respondWithItems, json_Encode_envelope.
  destruct handleEtag; [destruct (String.eqb _ _) |];
    rewrite ?WriteHeader_header, ?Write_header; cbn [header Header_Set];
    rewrite ?(lookup_insert_ne (M := gmap string)) by discriminate;
    destruct cachePublic, (0 <? cacheAge); cbn [header Header_Set];
    rewrite ?lookup_insert_eq; reflexivity.
Qed.

End HandlerFacts.

(** C6. If the handler registered for the type of a stream request returns
    an error that is the not-found sentinel, the stream handler answers 404,
    whatever the cache age and the public-caching and ETag flags are.  If it
    returns any other error the answer is 500 and the body is the fixed
    line [Failed to get streams], which holds nothing of the error. *)
Theorem stream_handler_error_status {T StreamItems : Type} `{JSON StreamItems}
    (sha256_Sum256 : string -> string)
    (handlers : gmap string (@StreamHandler T StreamItems))
    (cacheAge : Z) (cachePublic handleEtag : bool)
    (t : option (reflect_Type T)) (userDataIsBase64 : bool)
    (r : HTTP.Request) (err : error) :
  handlerResult handlers t userDataIsBase64 r = Some (Err err) ->
  let w := createStreamHandler sha256_Sum256 handlers cacheAge cachePublic handleEtag
             t userDataIsBase64 HTTP.newResponseWriter r in
  (errors_Is err ErrNotFound = true ->
     HTTP.status w = 404 /\ HTTP.body w = "Not found" +:+ HTTP.newline)
  /\ (errors_Is err ErrNotFound = false ->
     HTTP.status w = 500 /\ HTTP.body w = "Failed to get streams" +:+ HTTP.newline).
Proof.
  intros Hres w. subst w.
  rewrite (createStreamHandler_result _ _ _ _ _ _ _ _ _ _ Hres).
  split; intros ->; split;
    first [ now apply Error_status | now rewrite Error_body ].
Qed.

(** A stream request for an id the scenario's handler does not know, under
    a day of public caching with ETag handling: the hypothesis of the
    theorem holds and the answer is 404. *)
Lemma stream_handler_error_status_witness :
  handlerResult (scenarioStreamHandlers (T := customer) ["item"]) None false
    (routed "/stream/movie/ttX.json" [("type", "movie"); ("id", "ttX")] [])
    = Some (Err ErrNotFound)
  /\ HTTP.status
       (createStreamHandler sampleDigest (scenarioStreamHandlers (T := customer) ["item"])
          86400 true true None false HTTP.newResponseWriter
          (routed "/stream/movie/ttX.json" [("type", "movie"); ("id", "ttX")] []))
     = 404.
Proof.
  assert (Hres : handlerResult (scenarioStreamHandlers (T := customer) ["item"]) None false
            (routed "/stream/movie/ttX.json" [("type", "movie"); ("id", "ttX")] [])
          = Some (Err ErrNotFound)) by reflexivity.
  split; [exact Hres |].
  exact (proj1 (proj1 (stream_handler_error_status sampleDigest _ 86400 true true
                         None false _ _ Hres) eq_refl)).
Defined.

(** [SHA256.Sum256] on the messages of FIPS 180: the empty message and
    [abc]. *)
Lemma Sum256_known_answers :
  Hex.EncodeToString (SHA256.Sum256 "")
  = "e3b0c44298fc1c149afbf4c8996fb92427ae41e4649b934ca495991b7852b855"
  /\ Hex.EncodeToString (SHA256.Sum256 "abc")
     = "ba7816bf8f01cfea414140de5dae2223b00361a396177a9cb410ff61f20015ad".
Proof. split; vm_compute; reflexivity. Qed.

(** C5, as stated, fails: the ETag is not the digest of the payload that
    is sent.  A stream handler that returns an empty list of streams, with
    ETag handling on: the body is the envelope [{"streams":[]}] and a line
    feed, and the ETag is the SHA-256 digest of [[]], the JSON form of the
    list alone, which is neither the digest of the envelope nor that of
    the body. *)
Lemma etag_is_not_digest_of_payload :
  let envelope := "{" +:+ Strings.dquote +:+ "streams" +:+ Strings.dquote +:+ ":[]}" in
  let w := createStreamHandler SHA256.Sum256
             (exampleStreamHandlers (T := customer) ([] : list string))
             3600 false true None false HTTP.newResponseWriter
             (routed "/stream/movie/tt1.json" [("type", "movie"); ("id", "tt1.json")] []) in
  HTTP.status w = 200
  /\ HTTP.body w = envelope +:+ HTTP.newline
  /\ HTTP.header w !! "ETag"
     = Some "4f53cda18c2baa0c0354bb5f9a3ecbe5ed12ab4d8e11ba873c2f11161202b945"
  /\ Hex.EncodeToString (SHA256.Sum256 envelope)
     = "b48108c5ebff13b6ff249409b4d2356397417e29a15268d5bf9296aa19edf599"
  /\ Hex.EncodeToString (SHA256.Sum256 (HTTP.body w))
     = "f0e1b526328d9ce9dfa01206b53be2cb40c35c30e6f6d6d743bcad9ecb5c97b7"
  /\ option_map (String.eqb (Hex.EncodeToString (SHA256.Sum256 envelope)))
       (HTTP.header w !! "ETag") = Some false
  /\ option_map (String.eqb (Hex.EncodeToString (SHA256.Sum256 (HTTP.body w))))
       (HTTP.header w !! "ETag") = Some false.
Proof.
  intros envelope w. subst w envelope.
  split; [reflexivity | split; [reflexivity |]].
  repeat (split; [vm_compute; reflexivity |]). vm_compute; reflexivity.
Qed.

(** C5, amended.  With ETag handling switched on, a catalog or stream
    response for which the registered handler returned items carries the
    ETag header whose value is the hexadecimal text of the SHA-256 digest
    of the JSON form of those items, the value under the key of the
    envelope and not the envelope that is sent; and when the request's
    If-None-Match header equals that value, the answer is 304 and nothing
    is written to the body.  The value has two hexadecimal digits for each
    byte of the digest, 64 for the 32 bytes of SHA-256. *)
Theorem etag_is_digest_and_304 {T MetaPreviewItems StreamItems : Type}
    `{JSON MetaPreviewItems, JSON StreamItems}
    (sha256_Sum256 : string -> string)
    (catalogs : gmap string (@CatalogHandler T MetaPreviewItems))
    (streams : gmap string (@StreamHandler T StreamItems))
    (cacheAge : Z) (cachePublic : bool)
    (t : option (reflect_Type T)) (userDataIsBase64 : bool) (r : HTTP.Request) :
  (forall metas : MetaPreviewItems,
     handlerResult catalogs t userDataIsBase64 r = Some (Ok metas) ->
     let etag := Hex.EncodeToString (sha256_Sum256 (json_Marshal metas)) in
     let w := createCatalogHandler sha256_Sum256 catalogs cacheAge cachePublic true
                t userDataIsBase64 HTTP.newResponseWriter r in
     HTTP.header w !! "ETag" = Some etag
     /\ String.length etag
        = (2 * String.length (sha256_Sum256 (json_Marshal metas)))%nat
     /\ (HTTP.Header_Get (HTTP.Header r) "If-None-Match" = etag ->
         HTTP.status w = 304 /\ HTTP.body w = ""))
  /\ (forall items : StreamItems,
     handlerResult streams t userDataIsBase64 r = Some (Ok items) ->
     let etag := Hex.EncodeToString (sha256_Sum256 (json_Marshal items)) in
     let w := createStreamHandler sha256_Sum256 streams cacheAge cachePublic true
                t userDataIsBase64 HTTP.newResponseWriter r in
     HTTP.header w !! "ETag" = Some etag
     /\ String.length etag
        = (2 * String.length (sha256_Sum256 (json_Marshal items)))%nat
     /\ (HTTP.Header_Get (HTTP.Header r) "If-None-Match" = etag ->
         HTTP.status w = 304 /\ HTTP.body w = "")).
Proof.
  split; intros items Hres etag w; subst w etag.
  - rewrite (createCatalogHandler_result _ _ _ _ _ _ _ _ _ _ Hres).
    split; [| split].
    + apply respondWithItems_etag.
    + apply Hex_EncodeToString_length.
    + intros Hm. now apply respondWithItems_not_modified.
  - rewrite (createStreamHandler_result _ _ _ _ _ _ _ _ _ _ Hres).
    split; [| split].
    + apply respondWithItems_etag.
    + apply Hex_EncodeToString_length.
    + intros Hm. now apply respondWithItems_not_modified.
Qed.

(** The scenario's stream request for [tt1], sent again with the ETag of
    the first answer: the handler returns its item, the ETag is the digest
    text, and the second answer is 304 with an empty body. *)
Lemma etag_is_digest_and_304_witness :
  let etag := Hex.EncodeToString (sampleDigest (json_Marshal ["item"])) in
  let r := routed "/stream/movie/tt1.json" [("type", "movie"); ("id", "tt1.json")]
             [("If-None-Match", etag)] in
  let w := createStreamHandler sampleDigest
             (scenarioStreamHandlers (T := customer) ["item"])
             86400 false true None false HTTP.newResponseWriter r in
  handlerResult (scenarioStreamHandlers (T := customer) ["item"]) None false r
    = Some (Ok ["item"])
  /\ HTTP.Header_Get (HTTP.Header r) "If-None-Match" = etag
  /\ HTTP.header w !! "ETag" = Some etag
  /\ HTTP.status w = 304 /\ HTTP.body w = "".
Proof.
  intros etag r w.
  assert (Hres : handlerResult (scenarioStreamHandlers (T := customer) ["item"])
                   None false r = Some (Ok ["item"])) by reflexivity.
  assert (Hm : HTTP.Header_Get (HTTP.Header r) "If-None-Match" = etag) by reflexivity.
  pose proof (proj2 (etag_is_digest_and_304 (MetaPreviewItems := list string)
                       sampleDigest ∅ _ 86400 false None false r) _ Hres)
    as [He [_ Hs]].
  split; [exact Hres | split; [exact Hm | split; [exact He | exact (Hs Hm)]]].
Defined.

(** ** Construction *)

Lemma respondWithItems_plain_status {A : Type} `{JSON A}
    (sha256_Sum256 : string -> string) (key : string) (items : A)
    (cacheAge : Z) (cachePublic : bool) (w : HTTP.ResponseWriter) (r : HTTP.Request) :
  HTTP.statusCode w = None ->
  HTTP.status (respondWithItems sha256_Sum256 key items cacheAge cachePublic false w r)
    = HTTP.StatusOK.
Proof.
  intros Hw. unfold respondWithItems, json_Encode_envelope.
  apply Write_status_fresh. cbn [HTTP.statusCode HTTP.Header_Set].
  destruct (0 <? cacheAge), cachePublic; exact Hw.
Qed.

(** C9. When public caching or ETag handling is switched on for catalogs
    or for streams while the cache age of the same kind is zero, [NewAddon]
    returns an error and no addon; for a manifest with its four required
    fields and with a handler map given, the error is the one about public
    caching or the one about ETag handling.  The handlers themselves hold
    no such check: a stream request whose handler returns items is
    answered 200 under public caching with a cache age of zero. *)
Theorem NewAddon_rejects_caching_without_age
    {T MetaPreviewItems StreamItems ConfigMap ConfigurationUI Meta FileSystem : Type}
    `{JSON StreamItems}
    (cinemeta_NewClient : Z -> Logger -> @MetaFetcher Meta)
    (m : Manifest)
    (catalogs : option (gmap string (@CatalogHandler T MetaPreviewItems)))
    (streams : option (gmap string (@StreamHandler T StreamItems)))
    (o : @Options Meta FileSystem) :
  cachingWithoutAge o = true ->
  (exists msg : string,
     NewAddon (ConfigMap := ConfigMap) (ConfigurationUI := ConfigurationUI)
       cinemeta_NewClient m catalogs streams o = Err (errorString msg))
  /\ (String.eqb (ID m) "" || String.eqb (Name m) ""
      || String.eqb (Description m) "" || String.eqb (Version m) "" = false ->
      isNone catalogs && isNone streams = false ->
      NewAddon (ConfigMap := ConfigMap) (ConfigurationUI := ConfigurationUI)
        cinemeta_NewClient m catalogs streams o
      = Err (errorString
          "Enabling public caching only makes sense when also setting a cache age")
      \/ NewAddon (ConfigMap := ConfigMap) (ConfigurationUI := ConfigurationUI)
           cinemeta_NewClient m catalogs streams o
         = Err (errorString
             "ETag handling only makes sense when also setting a cache age"))
  /\ (forall (sha256_Sum256 : string -> string)
        (handlers : gmap string (@StreamHandler T StreamItems))
        (t : option (reflect_Type T)) (b : bool) (r : HTTP.Request)
        (items : StreamItems),
        handlerResult handlers t b r = Some (Ok items) ->
        HTTP.status (createStreamHandler sha256_Sum256 handlers 0 true false t b
                       HTTP.newResponseWriter r) = 200).
Proof.
  unfold cachingWithoutAge. intros Hcfg. split; [| split].
  - unfold NewAddon.
    destruct (_ || _ || _ || _); [eauto |].
    destruct (isNone catalogs && isNone streams); [eauto |].
    destruct ((CachePublicCatalogs o && (CacheAgeCatalogs o =? 0))
              || (CachePublicStreams o && (CacheAgeStreams o =? 0))); [eauto |].
    destruct ((HandleEtagCatalogs o && (CacheAgeCatalogs o =? 0))
              || (HandleEtagStreams o && (CacheAgeStreams o =? 0))); [eauto |].
    discriminate Hcfg.
  - intros Hm Hh. unfold NewAddon. rewrite Hm, Hh.
    destruct ((CachePublicCatalogs o && (CacheAgeCatalogs o =? 0))
              || (CachePublicStreams o && (CacheAgeStreams o =? 0))); [now left |].
    destruct ((HandleEtagCatalogs o && (CacheAgeCatalogs o =? 0))
              || (HandleEtagStreams o && (CacheAgeStreams o =? 0))); [now right |].
    discriminate Hcfg.
  - intros sha handlers t b r items Hres.
    rewrite (createStreamHandler_result _ _ _ _ _ _ _ _ _ _ Hres).
    now apply respondWithItems_plain_status.
Qed.

(** The scenario's addon with public caching of streams and no cache age:
    the hypothesis holds and [NewAddon] returns an error. *)
Lemma NewAddon_rejects_caching_without_age_witness :
  cachingWithoutAge publicWithoutAge = true
  /\ exists msg : string,
       NewAddon (T := customer) (MetaPreviewItems := list string)
         (ConfigMap := unit) (ConfigurationUI := unit)
         sampleMetaClient scenarioManifest None
         (Some (scenarioStreamHandlers ["item"])) publicWithoutAge
       = Err (errorString msg).
Proof.
  split; [reflexivity |].
  exact (proj1 (NewAddon_rejects_caching_without_age
                  (T := customer) (MetaPreviewItems := list string)
                  (ConfigMap := unit) (ConfigurationUI := unit)
                  sampleMetaClient scenarioManifest None
                  (Some (scenarioStreamHandlers ["item"])) publicWithoutAge eq_refl)).
Defined.

(** ** The manifest handler *)

(** C7, as stated, fails on a request whose user data does not decode: an
    addon with a registered user data type and no manifest callback answers
    400, not 200 with the manifest, when the user data segment is a lone
    percent sign. *)
Lemma manifest_request_with_bad_user_data_is_400 :
  HTTP.status
    (snd (createManifestHandler (T := customer) None (Some customerType) false
            scenarioManifest HTTP.newResponseWriter
            (routed "/%25/manifest.json" [("userData", "%")] [])))
  = 400.
Proof. reflexivity. Qed.

(** C7, amended.  A manifest request whose user data does not decode is
    answered 400 before any callback runs.  For every other manifest
    request: without a callback the answer is 200 with the JSON form of
    the manifest the handler was created with, which it keeps; with a
    callback that returns a status
    below 400 the answer is 200 with the JSON form of the manifest as the
    callback left it; with a callback that returns a status from 400 to
    999, the status codes that a response can carry, the answer has that
    status and its body is a fixed line of text, not the manifest. *)
Theorem manifest_handler_responses {T : Type} `{JSON Manifest}
    (callback : option (@ManifestCallback T))
    (t : option (reflect_Type T)) (userDataIsBase64 : bool)
    (m : Manifest) (r : HTTP.Request) :
  let w := snd (createManifestHandler callback t userDataIsBase64 m
                  HTTP.newResponseWriter r) in
  match decodeUserData (requestUserData r) t userDataIsBase64 with
  | (_, Some _) =>
      HTTP.status w = 400 /\ HTTP.body w = "Invalid user data" +:+ HTTP.newline
  | (userData, None) =>
      match callback with
      | None =>
          HTTP.status w = 200
          /\ HTTP.body w = json_Marshal m +:+ HTTP.newline
          /\ HTTP.header w !! "Content-Type" = Some "application/json"
          /\ fst (createManifestHandler None t userDataIsBase64 m
                    HTTP.newResponseWriter r) = m
      | Some callback =>
          (fst (callback m userData) < 400 ->
             HTTP.status w = 200
             /\ HTTP.body w = json_Marshal (snd (callback m userData)) +:+ HTTP.newline
             /\ HTTP.header w !! "Content-Type" = Some "application/json")
          /\ (400 <= fst (callback m userData) <= 999 ->
             HTTP.status w = fst (callback m userData)
             /\ HTTP.body w = "Manifest callback returned error" +:+ HTTP.newline)
      end
  end.
Proof.
  intros w. subst w. unfold createManifestHandler.
  destruct (decodeUserData (requestUserData r) t userDataIsBase64) as [ud [e |]].
  - cbn [snd]. split; [now apply Error_status | now rewrite Error_body].
  - destruct callback as [cb |].
    + destruct (cb m ud) as [st m'] eqn:Hcb. cbn [fst snd]. split.
      * intros Hlt. destruct (Z.leb_spec 400 st); [lia |]. cbn [snd].
        split; [now apply json_Encode_status | split].
        -- now rewrite json_Encode_body.
        -- unfold json_Encode. rewrite Write_header. apply lookup_insert_eq.
      * intros [Hge _]. destruct (Z.leb_spec 400 st); [| lia]. cbn [snd].
        split; [now apply Error_status | now rewrite Error_body].
    + cbn [snd]. split; [now apply json_Encode_status | split; [| split]].
      * now rewrite json_Encode_body.
      * unfold json_Encode. rewrite Write_header. apply lookup_insert_eq.
      * unfold createManifestHandler.
        now destruct (decodeUserData (requestUserData r) t userDataIsBase64)
          as [ud' [e |]].
Qed.

(** ** Where the handlers depart from the specification *)

(** C1.  The Cache-Control header of a catalog or stream response for
    which the registered handler returned items.  With public caching the
    header is [public] alone, whatever the cache age: the handler sets the
    header with the max-age and then sets it again.  Without public caching
    and with a cache age above zero it is [public, max-age=] and the age.
    Otherwise there is none. *)
Theorem cache_control_of_responses {T MetaPreviewItems StreamItems : Type}
    `{JSON MetaPreviewItems, JSON StreamItems}
    (sha256_Sum256 : string -> string)
    (catalogs : gmap string (@CatalogHandler T MetaPreviewItems))
    (streams : gmap string (@StreamHandler T StreamItems))
    (cacheAge : Z) (cachePublic handleEtag : bool)
    (t : option (reflect_Type T)) (userDataIsBase64 : bool) (r : HTTP.Request) :
  let sent : option string :=
    if cachePublic then Some "public"
    else if 0 <? cacheAge then Some ("public, max-age=" +:+ Strings.Itoa cacheAge)
    else None in
  (forall metas : MetaPreviewItems,
     handlerResult catalogs t userDataIsBase64 r = Some (Ok metas) ->
     HTTP.header (createCatalogHandler sha256_Sum256 catalogs cacheAge cachePublic
                    handleEtag t userDataIsBase64 HTTP.newResponseWriter r)
       !! "Cache-Control" = sent)
  /\ (forall items : StreamItems,
     handlerResult streams t userDataIsBase64 r = Some (Ok items) ->
     HTTP.header (createStreamHandler sha256_Sum256 streams cacheAge cachePublic
                    handleEtag t userDataIsBase64 HTTP.newResponseWriter r)
       !! "Cache-Control" = sent).
Proof.
  intros sent. subst sent. split; intros items Hres.
  - rewrite (createCatalogHandler_result _ _ _ _ _ _ _ _ _ _ Hres).
    rewrite respondWithItems_cache_control.
    now destruct cachePublic, (0 <? cacheAge).
  - rewrite (createStreamHandler_result _ _ _ _ _ _ _ _ _ _ Hres).
    rewrite respondWithItems_cache_control.
    now destruct cachePublic, (0 <? cacheAge).
Qed.

(** The catalog example, a cache age of 24 hours with public caching and
    ETag handling: the handler returns its items for the catalog
    [blender], and the response carries [Cache-Control: public] without a
    max-age. *)
Lemma cache_control_of_responses_witness :
  seconds day = 86400
  /\ handlerResult (blenderCatalogHandlers (T := customer) ["item"]) None false
       (routed "/catalog/movie/blender.json" [("type", "movie"); ("id", "blender")] [])
     = Some (Ok ["item"])
  /\ HTTP.header
       (createCatalogHandler sampleDigest
          (blenderCatalogHandlers (T := customer) ["item"])
          (seconds day) true true None false HTTP.newResponseWriter
          (routed "/catalog/movie/blender.json"
             [("type", "movie"); ("id", "blender")] []))
       !! "Cache-Control" = Some "public".
Proof.
  split; [reflexivity | split; [reflexivity |]].
  exact (proj1 (cache_control_of_responses (StreamItems := list string) sampleDigest
                  (blenderCatalogHandlers (T := customer) ["item"]) ∅
                  (seconds day) true true None false
                  (routed "/catalog/movie/blender.json"
                     [("type", "movie"); ("id", "blender")] [])) ["item"] eq_refl).
Defined.

(** C2.  When the handler registered for the type of a catalog request
    returns an error, the catalog handler answers 500 with the line
    [Failed to get catalog], whether or not the error is the not-found
    sentinel: unlike the stream handler it does not look at the error. *)
Theorem catalog_handler_error_is_500 {T MetaPreviewItems : Type}
    `{JSON MetaPreviewItems}
    (sha256_Sum256 : string -> string)
    (handlers : gmap string (@CatalogHandler T MetaPreviewItems))
    (cacheAge : Z) (cachePublic handleEtag : bool)
    (t : option (reflect_Type T)) (userDataIsBase64 : bool)
    (r : HTTP.Request) (err : error) :
  handlerResult handlers t userDataIsBase64 r = Some (Err err) ->
  let w := createCatalogHandler sha256_Sum256 handlers cacheAge cachePublic handleEtag
             t userDataIsBase64 HTTP.newResponseWriter r in
  HTTP.status w = 500 /\ HTTP.body w = "Failed to get catalog" +:+ HTTP.newline.
Proof.
  intros Hres w. subst w.
  rewrite (createCatalogHandler_result _ _ _ _ _ _ _ _ _ _ Hres).
  split; [now apply Error_status | now rewrite Error_body].
Qed.

(** The catalog example asked for a catalog other than [blender]: its
    handler returns the not-found sentinel and the answer is 500. *)
Lemma catalog_handler_error_is_500_witness :
  handlerResult (blenderCatalogHandlers (T := customer) ["item"]) None false
    (routed "/catalog/movie/other.json" [("type", "movie"); ("id", "other")] [])
    = Some (Err ErrNotFound)
  /\ errors_Is ErrNotFound ErrNotFound = true
  /\ HTTP.status
       (createCatalogHandler sampleDigest
          (blenderCatalogHandlers (T := customer) ["item"])
          0 false false None false HTTP.newResponseWriter
          (routed "/catalog/movie/other.json" [("type", "movie"); ("id", "other")] []))
     = 500.
Proof.
  split; [reflexivity | split; [reflexivity |]].
  exact (proj1 (catalog_handler_error_is_500 sampleDigest
                  (blenderCatalogHandlers (T := customer) ["item"])
                  0 false false None false
                  (routed "/catalog/movie/other.json"
                     [("type", "movie"); ("id", "other")] [])
                  ErrNotFound eq_refl)).
Defined.

(** What the route matcher does where it runs: a request without user
    data to an addon that must be configured is answered 400, and so is a
    request whose id the stream ID expression does not match. *)
Lemma routeMatcher_requires_user_data
    (streamIDregex : option (string -> bool)) (next : ServerHandler)
    (st : Manifest) (w : HTTP.ResponseWriter) (r : HTTP.Request) :
  HTTP.statusCode w = None ->
  requestUserData r = "" ->
  HTTP.status (snd (routeMatcher true streamIDregex next st w r)) = 400.
Proof.
  intros Hw Hu. unfold routeMatcher. rewrite Hu. cbn [andb String.eqb snd].
  now apply Error_status.
Qed.

Lemma routeMatcher_rejects_id
    (re : string -> bool) (next : ServerHandler)
    (st : Manifest) (w : HTTP.ResponseWriter) (r : HTTP.Request) :
  HTTP.statusCode w = None ->
  HTTP.PathValue r "id" <> "" ->
  re (HTTP.PathValue r "id") = false ->
  HTTP.status (snd (routeMatcher false (Some re) next st w r)) = 400.
Proof.
  intros Hw Hid Hre. apply String.eqb_neq in Hid.
  unfold routeMatcher. cbn [andb]. rewrite !Hid, Hre. cbn [negb andb snd].
  now apply Error_status.
Qed.

(** C3.  An addon that must be configured, with a stream handler and a
    stream ID expression for ids that begin with [tt].  [Run] creates no
    server for it: the registration of the stream pattern panics, so no
    request is answered 400, or answered at all.  The gate of the claim
    is in the code: [addRouteMatcherMiddleware] puts the route matcher in
    front of the mux it is given, under the pattern [/] of a new mux, and
    the route matcher answers 400 to a request without user data and to
    one whose id the expression does not match.  The new mux is the value
    of a variable of the function when it ends; the function returns
    nothing and [Run] goes on with the mux it had. *)
Theorem route_matcher_is_not_installed
    {T MetaPreviewItems StreamItems ConfigMap ConfigurationUI Meta FileSystem : Type}
    `{JSON Manifest, JSON MetaPreviewItems, JSON StreamItems,
      JSON ConfigMap, JSON ConfigurationUI}
    (sha256_Sum256 : string -> string)
    (cinemeta_NewClient : Z -> Logger -> @MetaFetcher Meta)
    (items : StreamItems) :
  let server :=
    startServer (T := T) (MetaPreviewItems := MetaPreviewItems)
      (ConfigMap := ConfigMap) (ConfigurationUI := ConfigurationUI)
      (FileSystem := FileSystem)
      sha256_Sum256 cinemeta_NewClient ttRegexp requiredManifest None
      (Some (exampleStreamHandlers items)) (optionsWithStreamIDregex "^tt") None in
  server = None
  /\ (forall (mux : Mux.ServeMux Manifest) (required : bool)
        (streamIDregex : option (string -> bool)),
        addRouteMatcherMiddleware mux required streamIDregex
        = Some [("/", routeMatcher required streamIDregex (Mux.ServeHTTP mux))])
  /\ (forall (streamIDregex : option (string -> bool)) (next : ServerHandler)
        (st : Manifest) (r : HTTP.Request),
        requestUserData r = "" ->
        HTTP.status (snd (routeMatcher true streamIDregex next st
                            HTTP.newResponseWriter r)) = 400)
  /\ (forall (re : string -> bool) (next : ServerHandler)
        (st : Manifest) (r : HTTP.Request),
        HTTP.PathValue r "id" <> "" -> re (HTTP.PathValue r "id") = false ->
        HTTP.status (snd (routeMatcher false (Some re) next st
                            HTTP.newResponseWriter r)) = 400).
Proof.
  intros server. subst server.
  split; [reflexivity | split; [reflexivity | split]].
  - intros streamIDregex next st r Hu.
    now apply routeMatcher_requires_user_data.
  - intros re next st r Hid Hre. now apply routeMatcher_rejects_id.
Qed.

(** C8.  A manifest callback that alters the manifest alters the variable
    that the handler keeps for all requests: of two manifest requests in a
    row, the second starts from the manifest as the first one left it, and
    not from the manifest the handler was created with, and the two are
    answered with the JSON form of two different manifests.  This holds of
    the closure that [createManifestHandler] returns, wherever it is
    mounted, and for every callback: the manifest a request starts from is
    the one the callback left at the request before. *)
Theorem manifest_callback_mutation_persists {T : Type} `{JSON Manifest} :
  let requests := [GET "/manifest.json"; GET "/manifest.json"] in
  let renamed (name : string) : Manifest :=
    {| ID := "org.test"; Name := name; Description := "d"; Version := "1.0.0";
       ResourceItems := None; Types := Some ["movie"]; Catalogs := None;
       IDprefixes := None; Background := ""; Logo := ""; ContactEmail := "";
       manifest_BehaviorHints := manifest_BehaviorHints scenarioManifest |} in
  manifestsServed (T := T) (Some markingCallback) None false scenarioManifest requests
    = [scenarioManifest; renamed "t!"]
  /\ map HTTP.body
       (manifestAnswers (T := T) (Some markingCallback) None false scenarioManifest
          requests)
     = [json_Marshal (renamed "t!") +:+ HTTP.newline;
        json_Marshal (renamed "t!!") +:+ HTTP.newline]
  /\ forall (callback : @ManifestCallback T) (t : option (reflect_Type T))
       (userDataIsBase64 : bool) (m : Manifest) (r1 r2 : HTTP.Request),
       snd (decodeUserData (requestUserData r1) t userDataIsBase64) = None ->
       manifestsServed (Some callback) t userDataIsBase64 m [r1; r2]
       = [m; snd (callback m (fst (decodeUserData (requestUserData r1) t
                                     userDataIsBase64)))].
Proof.
  intros requests renamed. subst renamed requests.
  split; [reflexivity | split; [reflexivity |]].
  intros callback t b m r1 r2 Hd. cbn [manifestsServed]. do 2 f_equal.
  unfold createManifestHandler.
  destruct (decodeUserData (requestUserData r1) t b) as [ud [e |]];
    [discriminate Hd |].
  cbn [fst snd]. destruct (callback m ud) as [st m']. cbn [snd].
  now destruct (400 <=? st).
Qed.


(** * More properties of the code *)

(** ** Requests the catalog and stream handlers turn down *)

Section EndpointFacts.

Import HTTP.

Context {T MetaPreviewItems StreamItems : Type}.
Context `{JSON MetaPreviewItems, JSON StreamItems}.
Variable sha256_Sum256 : string -> string.

Lemma createStreamHandler_refusal
    (handlers : gmap string (@StreamHandler T StreamItems))
    (cacheAge : Z) (cachePublic handleEtag : bool)
    (t : option (reflect_Type T)) (b : bool) (w : ResponseWriter) (r : Request) :
  handlerResult handlers t b r = None ->
  createStreamHandler sha256_Sum256 handlers cacheAge cachePublic handleEtag t b w r
  = Error w (refusal t b (isSome (handlers !! PathValue r "type")) r) StatusBadRequest.
Proof.
  unfold handlerResult, createStreamHandler, refusal, StreamHandler.
  destruct (String.eqb (PathValue r "type") "" || String.eqb (PathValue r "id") "");
    [reflexivity |].
  destruct (decodeUserData (requestUserData r) t b) as [ud [e |]]; [reflexivity |].
  destruct (_ !! PathValue r "type") as [h |]; [discriminate | reflexivity].
Qed.

Lemma createCatalogHandler_refusal
    (handlers : gmap string (@CatalogHandler T MetaPreviewItems))
    (cacheAge : Z) (cachePublic handleEtag : bool)
    (t : option (reflect_Type T)) (b : bool) (w : ResponseWriter) (r : Request) :
  handlerResult handlers t b r = None ->
  createCatalogHandler sha256_Sum256 handlers cacheAge cachePublic handleEtag t b w r
  = Error w (refusal t b (isSome (handlers !! PathValue r "type")) r) StatusBadRequest.
Proof.
  unfold handlerResult, createCatalogHandler, refusal, CatalogHandler.
  destruct (String.eqb (PathValue r "type") "" || String.eqb (PathValue r "id") "");
    [reflexivity |].
  destruct (decodeUserData (requestUserData r) t b) as [ud [e |]]; [reflexivity |].
  destruct (_ !! PathValue r "type") as [h |]; [discriminate | reflexivity].
Qed.

Lemma respondWithItems_status {A : Type} `{JSON A} (key : string) (items : A)
    (cacheAge : Z) (cachePublic handleEtag : bool) (w : ResponseWriter) (r : Request) :
  statusCode w = None ->
  status (respondWithItems sha256_Sum256 key items cacheAge cachePublic handleEtag w r)
  = if handleEtag
       && String.eqb (Header_Get (Header r) "If-None-Match")
            (generateETag sha256_Sum256 items)
    then StatusNotModified else StatusOK.
Proof.
  intros Hw. unfold respondWithItems, json_Encode_envelope.
  destruct handleEtag; cbn [andb]; [destruct (String.eqb _ _) |];
    first [apply WriteHeader_status | apply Write_status_fresh];
    cbn [statusCode Header_Set]; destruct (0 <? cacheAge), cachePublic; exact Hw.
Qed.

Lemma respondWithItems_body {A : Type} `{JSON A} (key : string) (items : A)
    (cacheAge : Z) (cachePublic handleEtag : bool) (w : ResponseWriter) (r : Request) :
  handleEtag
  && String.eqb (Header_Get (Header r) "If-None-Match")
       (generateETag sha256_Sum256 items) = false ->
  body (respondWithItems sha256_Sum256 key items cacheAge cachePublic handleEtag w r)
  = body w +:+ ("{" +:+ Strings.dquote +:+ key +:+ Strings.dquote +:+ ":"
                +:+ json_Marshal items +:+ "}" +:+ newline)
  /\ header (respondWithItems sha256_Sum256 key items cacheAge cachePublic handleEtag w r)
       !! "Content-Type" = Some "application/json".
Proof.
  intros Hno. unfold respondWithItems, json_Encode_envelope.
  destruct handleEtag; cbn [andb] in Hno; [rewrite Hno |];
    rewrite Write_body, Write_header; cbn [body header Header_Set];
    (split; [destruct (0 <? cacheAge), cachePublic; reflexivity
            | apply lookup_insert_eq]).
Qed.

End EndpointFacts.

(** X1.  The status of every answer of the stream handler.  A request for
    which no handler is called is answered 400 with the message of the
    first check that fails: a missing type or id, then user data that does
    not decode, then a type without a handler.  When the handler returns
    an error the answer is 404 for the not-found sentinel and 500
    otherwise; when it returns items the answer is 304 if ETag handling is
    on and the request's If-None-Match is the ETag, and 200 otherwise. *)
Theorem stream_handler_status_table {T StreamItems : Type} `{JSON StreamItems}
    (sha256_Sum256 : string -> string)
    (handlers : gmap string (@StreamHandler T StreamItems))
    (cacheAge : Z) (cachePublic handleEtag : bool)
    (t : option (reflect_Type T)) (userDataIsBase64 : bool) (r : HTTP.Request) :
  let w := createStreamHandler sha256_Sum256 handlers cacheAge cachePublic handleEtag
             t userDataIsBase64 HTTP.newResponseWriter r in
  match handlerResult handlers t userDataIsBase64 r with
  | None =>
      HTTP.status w = 400
      /\ HTTP.body w
         = refusal t userDataIsBase64 (isSome (handlers !! HTTP.PathValue r "type")) r
           +:+ HTTP.newline
  | Some (Err err) => HTTP.status w = if errors_Is err ErrNotFound then 404 else 500
  | Some (Ok items) =>
      HTTP.status w
      = if handleEtag
           && String.eqb (HTTP.Header_Get (HTTP.Header r) "If-None-Match")
                (generateETag sha256_Sum256 items)
        then 304 else 200
  end.
Proof.
  intros w. subst w.
  destruct (handlerResult handlers t userDataIsBase64 r) as [[items | err] |] eqn:Hres.
  - rewrite (createStreamHandler_result _ _ _ _ _ _ _ _ _ _ Hres).
    now apply respondWithItems_status.
  - rewrite (createStreamHandler_result _ _ _ _ _ _ _ _ _ _ Hres).
    destruct (errors_Is err ErrNotFound); now apply Error_status.
  - rewrite (createStreamHandler_refusal _ _ _ _ _ _ _ _ _ Hres).
    split; [now apply Error_status | now rewrite Error_body].
Qed.

(** X2.  The status of every answer of the catalog handler.  Requests for
    which no handler is called are answered as by the stream handler, 400
    with the message of the first failing check; every error of the
    handler gives 500; items give 304 on a matching If-None-Match under
    ETag handling and 200 otherwise.  The catalog handler never answers
    404. *)
Theorem catalog_handler_status_table {T MetaPreviewItems : Type}
    `{JSON MetaPreviewItems}
    (sha256_Sum256 : string -> string)
    (handlers : gmap string (@CatalogHandler T MetaPreviewItems))
    (cacheAge : Z) (cachePublic handleEtag : bool)
    (t : option (reflect_Type T)) (userDataIsBase64 : bool) (r : HTTP.Request) :
  let w := createCatalogHandler sha256_Sum256 handlers cacheAge cachePublic handleEtag
             t userDataIsBase64 HTTP.newResponseWriter r in
  match handlerResult handlers t userDataIsBase64 r with
  | None =>
      HTTP.status w = 400
      /\ HTTP.body w
         = refusal t userDataIsBase64 (isSome (handlers !! HTTP.PathValue r "type")) r
           +:+ HTTP.newline
  | Some (Err err) => HTTP.status w = 500
  | Some (Ok items) =>
      HTTP.status w
      = if handleEtag
           && String.eqb (HTTP.Header_Get (HTTP.Header r) "If-None-Match")
                (generateETag sha256_Sum256 items)
        then 304 else 200
  end.
Proof.
  intros w. subst w.
  destruct (handlerResult handlers t userDataIsBase64 r) as [[items | err] |] eqn:Hres.
  - rewrite (createCatalogHandler_result _ _ _ _ _ _ _ _ _ _ Hres).
    now apply respondWithItems_status.
  - rewrite (createCatalogHandler_result _ _ _ _ _ _ _ _ _ _ Hres).
    now apply Error_status.
  - rewrite (createCatalogHandler_refusal _ _ _ _ _ _ _ _ _ Hres).
    split; [now apply Error_status | now rewrite Error_body].
Qed.

(** X3.  The body of a catalog or stream response that is not cut short
    by a matching ETag: the JSON object with the one key [metas] or
    [streams] whose value is the JSON form of the items the handler
    returned, then a line feed, with the content type of JSON and the
    status 200. *)
Theorem items_envelope {T MetaPreviewItems StreamItems : Type}
    `{JSON MetaPreviewItems, JSON StreamItems}
    (sha256_Sum256 : string -> string)
    (catalogs : gmap string (@CatalogHandler T MetaPreviewItems))
    (streams : gmap string (@StreamHandler T StreamItems))
    (cacheAge : Z) (cachePublic handleEtag : bool)
    (t : option (reflect_Type T)) (userDataIsBase64 : bool) (r : HTTP.Request) :
  (forall metas : MetaPreviewItems,
     handlerResult catalogs t userDataIsBase64 r = Some (Ok metas) ->
     handleEtag
     && String.eqb (HTTP.Header_Get (HTTP.Header r) "If-None-Match")
          (generateETag sha256_Sum256 metas) = false ->
     let w := createCatalogHandler sha256_Sum256 catalogs cacheAge cachePublic
                handleEtag t userDataIsBase64 HTTP.newResponseWriter r in
     HTTP.status w = 200
     /\ HTTP.body w = "{" +:+ Strings.dquote +:+ "metas" +:+ Strings.dquote +:+ ":"
                      +:+ json_Marshal metas +:+ "}" +:+ HTTP.newline
     /\ HTTP.header w !! "Content-Type" = Some "application/json")
  /\ (forall items : StreamItems,
     handlerResult streams t userDataIsBase64 r = Some (Ok items) ->
     handleEtag
     && String.eqb (HTTP.Header_Get (HTTP.Header r) "If-None-Match")
          (generateETag sha256_Sum256 items) = false ->
     let w := createStreamHandler sha256_Sum256 streams cacheAge cachePublic
                handleEtag t userDataIsBase64 HTTP.newResponseWriter r in
     HTTP.status w = 200
     /\ HTTP.body w = "{" +:+ Strings.dquote +:+ "streams" +:+ Strings.dquote +:+ ":"
                      +:+ json_Marshal items +:+ "}" +:+ HTTP.newline
     /\ HTTP.header w !! "Content-Type" = Some "application/json").
Proof.
  split; intros items Hres Hno w; subst w.
  - rewrite (createCatalogHandler_result _ _ _ _ _ _ _ _ _ _ Hres).
    split.
    + rewrite respondWithItems_status by reflexivity. now rewrite Hno.
    + exact (respondWithItems_body sha256_Sum256 "metas" items cacheAge cachePublic
               handleEtag HTTP.newResponseWriter r Hno).
  - rewrite (createStreamHandler_result _ _ _ _ _ _ _ _ _ _ Hres).
    split.
    + rewrite respondWithItems_status by reflexivity. now rewrite Hno.
    + exact (respondWithItems_body sha256_Sum256 "streams" items cacheAge cachePublic
               handleEtag HTTP.newResponseWriter r Hno).
Qed.

(** The scenario's stream request for [tt1] without ETag handling: the
    body is the object with the key [streams]. *)
Lemma items_envelope_witness :
  let r := routed "/stream/movie/tt1.json" [("type", "movie"); ("id", "tt1.json")] [] in
  let w := createStreamHandler sampleDigest
             (scenarioStreamHandlers (T := customer) ["item"])
             0 false false None false HTTP.newResponseWriter r in
  handlerResult (scenarioStreamHandlers (T := customer) ["item"]) None false r
    = Some (Ok ["item"])
  /\ HTTP.status w = 200
  /\ HTTP.body w = "{" +:+ Strings.dquote +:+ "streams" +:+ Strings.dquote +:+ ":"
                   +:+ json_Marshal ["item"] +:+ "}" +:+ HTTP.newline.
Proof.
  intros r w.
  assert (Hres : handlerResult (scenarioStreamHandlers (T := customer) ["item"])
                   None false r = Some (Ok ["item"])) by reflexivity.
  pose proof (proj2 (items_envelope (MetaPreviewItems := list string)
                       sampleDigest ∅ _ 0 false false None false r) _ Hres eq_refl)
    as [Hs [Hb _]].
  split; [exact Hres | split; [exact Hs | exact Hb]].
Defined.

(** ** The id of a request and the headers of a response *)

Section IdAndHeaderFacts.

Import HTTP.

Context {T MetaPreviewItems StreamItems : Type}.
Context `{JSON MetaPreviewItems, JSON StreamItems}.
Variable sha256_Sum256 : string -> string.

Lemma PathValue_withPathValue (name value : string) (r : Request) :
  PathValue (withPathValue name value r) name = value.
Proof. unfold PathValue, withPathValue. cbn [PathValues]. now rewrite lookup_insert_eq. Qed.

Lemma PathValue_withPathValue_other (name other value : string) (r : Request) :
  name <> other -> PathValue (withPathValue name value r) other = PathValue r other.
Proof.
  intros Hne. unfold PathValue, withPathValue. cbn [PathValues].
  now rewrite lookup_insert_ne.
Qed.

Lemma requestUserData_withId (value : string) (r : Request) :
  requestUserData (withPathValue "id" value r) = requestUserData r.
Proof.
  unfold requestUserData. now rewrite PathValue_withPathValue_other by discriminate.
Qed.

(** What the handlers make of the id: the id itself and the id followed by
    [.json] lead to the same call of the same handler. *)
Lemma handlerResult_json_suffix {Items : Type}
    (handlers : gmap string (string -> any T -> result Items))
    (t : option (reflect_Type T)) (b : bool) (r : Request) (id : string) :
  id <> "" -> Strings.HasSuffix id ".json" = false ->
  handlerResult handlers t b (withPathValue "id" (id +:+ ".json") r)
  = handlerResult handlers t b (withPathValue "id" id r).
Proof.
  intros Hid Hsuf. unfold handlerResult.
  rewrite !PathValue_withPathValue, !requestUserData_withId.
  rewrite !PathValue_withPathValue_other by discriminate.
  rewrite TrimSuffix_app, (TrimSuffix_none id) by exact Hsuf.
  destruct (String.eqb_spec id ""); [contradiction |].
  destruct (String.eqb_spec (id +:+ ".json") "") as [He |]; [| reflexivity].
  destruct id; discriminate.
Qed.

Lemma respondWithItems_request {A : Type} `{JSON A} (key : string) (items : A)
    (cacheAge : Z) (cachePublic handleEtag : bool) (w : ResponseWriter)
    (r r' : Request) :
  Header r = Header r' ->
  respondWithItems sha256_Sum256 key items cacheAge cachePublic handleEtag w r
  = respondWithItems sha256_Sum256 key items cacheAge cachePublic handleEtag w r'.
Proof. intros Hh. unfold respondWithItems. now rewrite Hh. Qed.

Lemma createStreamHandler_by_result
    (handlers : gmap string (@StreamHandler T StreamItems))
    (cacheAge : Z) (cachePublic handleEtag : bool)
    (t : option (reflect_Type T)) (b : bool) (w : ResponseWriter) (r r' : Request) :
  Header r = Header r' ->
  PathValue r "type" = PathValue r' "type" ->
  (String.eqb (PathValue r "id") "") = (String.eqb (PathValue r' "id") "") ->
  requestUserData r = requestUserData r' ->
  handlerResult handlers t b r = handlerResult handlers t b r' ->
  createStreamHandler sha256_Sum256 handlers cacheAge cachePublic handleEtag t b w r
  = createStreamHandler sha256_Sum256 handlers cacheAge cachePublic handleEtag t b w r'.
Proof.
  intros Hh Ht Hi Hu Hres.
  destruct (handlerResult handlers t b r') as [res |] eqn:Hr'.
  - erewrite createStreamHandler_result by exact Hres.
    erewrite createStreamHandler_result by exact Hr'.
    destruct res; [now apply respondWithItems_request | reflexivity].
  - erewrite createStreamHandler_refusal by exact Hres.
    erewrite createStreamHandler_refusal by exact Hr'.
    unfold refusal. now rewrite Ht, Hi, Hu.
Qed.

Lemma createCatalogHandler_by_result
    (handlers : gmap string (@CatalogHandler T MetaPreviewItems))
    (cacheAge : Z) (cachePublic handleEtag : bool)
    (t : option (reflect_Type T)) (b : bool) (w : ResponseWriter) (r r' : Request) :
  Header r = Header r' ->
  PathValue r "type" = PathValue r' "type" ->
  (String.eqb (PathValue r "id") "") = (String.eqb (PathValue r' "id") "") ->
  requestUserData r = requestUserData r' ->
  handlerResult handlers t b r = handlerResult handlers t b r' ->
  createCatalogHandler sha256_Sum256 handlers cacheAge cachePublic handleEtag t b w r
  = createCatalogHandler sha256_Sum256 handlers cacheAge cachePublic handleEtag t b w r'.
Proof.
  intros Hh Ht Hi Hu Hres.
  destruct (handlerResult handlers t b r') as [res |] eqn:Hr'.
  - erewrite createCatalogHandler_result by exact Hres.
    erewrite createCatalogHandler_result by exact Hr'.
    destruct res; [now apply respondWithItems_request | reflexivity].
  - erewrite createCatalogHandler_refusal by exact Hres.
    erewrite createCatalogHandler_refusal by exact Hr'.
    unfold refusal. now rewrite Ht, Hi, Hu.
Qed.

Lemma header_Error_other (w : ResponseWriter) (msg : string) (code : Z) (k : string) :
  ~ In k handlerHeaders -> header (Error w msg code) !! k = header w !! k.
Proof.
  intros Hk.
  assert (Hcl : "Content-Length" <> k) by (intros <-; apply Hk; cbn; auto).
  assert (Hct : "Content-Type" <> k) by (intros <-; apply Hk; cbn; auto).
  assert (Hxc : "X-Content-Type-Options" <> k) by (intros <-; apply Hk; cbn; auto).
  unfold Error. rewrite Write_header, WriteHeader_header.
  cbn [header Header_Set Header_Del].
  rewrite !lookup_insert_ne by assumption. now rewrite lookup_delete_ne.
Qed.

Lemma header_respondWithItems_other {A : Type} `{JSON A} (key : string) (items : A)
    (cacheAge : Z) (cachePublic handleEtag : bool) (w : ResponseWriter) (r : Request)
    (k : string) :
  ~ In k handlerHeaders ->
  header (respondWithItems sha256_Sum256 key items cacheAge cachePublic handleEtag w r)
    !! k = header w !! k.
Proof.
  intros Hk.
  assert (Hcc : "Cache-Control" <> k) by (intros <-; apply Hk; cbn; auto 10).
  assert (Het : "ETag" <> k) by (intros <-; apply Hk; cbn; auto 10).
  assert (Hct : "Content-Type" <> k) by (intros <-; apply Hk; cbn; auto 10).
  unfold respondWithItems, json_Encode_envelope, json_Encode.
  destruct handleEtag; [destruct (String.eqb _ _) |];
    rewrite ?WriteHeader_header, ?Write_header; cbn [header Header_Set];
    rewrite ?lookup_insert_ne by assumption;
    destruct cachePublic, (0 <? cacheAge); cbn [header Header_Set];
    rewrite ?lookup_insert_ne by assumption; reflexivity.
Qed.

Lemma handlers_keep_headers_aux
    (catalogs : gmap string (@CatalogHandler T MetaPreviewItems))
    (streams : gmap string (@StreamHandler T StreamItems))
    (cacheAge : Z) (cachePublic handleEtag : bool)
    (t : option (reflect_Type T)) (b : bool)
    (w : ResponseWriter) (r : Request) (k : string) :
  ~ In k handlerHeaders ->
  header (createCatalogHandler sha256_Sum256 catalogs cacheAge cachePublic
            handleEtag t b w r) !! k = header w !! k
  /\ header (createStreamHandler sha256_Sum256 streams cacheAge cachePublic
               handleEtag t b w r) !! k = header w !! k.
Proof.
  intros Hk. split.
  - destruct (handlerResult catalogs t b r) as [[items | err] |] eqn:Hres.
    + erewrite createCatalogHandler_result by exact Hres.
      now apply header_respondWithItems_other.
    + erewrite createCatalogHandler_result by exact Hres.
      now apply header_Error_other.
    + erewrite createCatalogHandler_refusal by exact Hres.
      now apply header_Error_other.
  - destruct (handlerResult streams t b r) as [[items | err] |] eqn:Hres.
    + erewrite createStreamHandler_result by exact Hres.
      now apply header_respondWithItems_other.
    + erewrite createStreamHandler_result by exact Hres.
      cbv beta iota.
      destruct (errors_Is err ErrNotFound); now apply header_Error_other.
    + erewrite createStreamHandler_refusal by exact Hres.
      now apply header_Error_other.
Qed.

End IdAndHeaderFacts.

(** X4.  The catalog and stream handlers answer a request whose id is
    [id.json] exactly as they answer the request with the id [id]: the
    extension is cut off before the handler of the type is called.  The id
    is not empty and does not itself end in [.json]. *)
Theorem json_extension_of_id_is_ignored {T MetaPreviewItems StreamItems : Type}
    `{JSON MetaPreviewItems, JSON StreamItems}
    (sha256_Sum256 : string -> string)
    (catalogs : gmap string (@CatalogHandler T MetaPreviewItems))
    (streams : gmap string (@StreamHandler T StreamItems))
    (cacheAge : Z) (cachePublic handleEtag : bool)
    (t : option (reflect_Type T)) (userDataIsBase64 : bool)
    (w : HTTP.ResponseWriter) (r : HTTP.Request) (id : string) :
  id <> "" -> Strings.HasSuffix id ".json" = false ->
  createCatalogHandler sha256_Sum256 catalogs cacheAge cachePublic handleEtag t
    userDataIsBase64 w (withPathValue "id" (id +:+ ".json") r)
  = createCatalogHandler sha256_Sum256 catalogs cacheAge cachePublic handleEtag t
      userDataIsBase64 w (withPathValue "id" id r)
  /\ createStreamHandler sha256_Sum256 streams cacheAge cachePublic handleEtag t
       userDataIsBase64 w (withPathValue "id" (id +:+ ".json") r)
     = createStreamHandler sha256_Sum256 streams cacheAge cachePublic handleEtag t
         userDataIsBase64 w (withPathValue "id" id r).
Proof.
  intros Hid Hsuf.
  assert (Hne : String.eqb (id +:+ ".json") "" = String.eqb id "").
  { destruct id; [contradiction | reflexivity]. }
  split.
  - apply createCatalogHandler_by_result.
    + reflexivity.
    + now rewrite !PathValue_withPathValue_other by discriminate.
    + now rewrite !PathValue_withPathValue.
    + now rewrite !requestUserData_withId.
    + now apply handlerResult_json_suffix.
  - apply createStreamHandler_by_result.
    + reflexivity.
    + now rewrite !PathValue_withPathValue_other by discriminate.
    + now rewrite !PathValue_withPathValue.
    + now rewrite !requestUserData_withId.
    + now apply handlerResult_json_suffix.
Qed.

(** The scenario's stream request: the ids [tt1.json] and [tt1] get the
    same answer. *)
Lemma json_extension_of_id_is_ignored_witness :
  let r := routed "/stream/movie/tt1" [("type", "movie")] [] in
  createStreamHandler sampleDigest (scenarioStreamHandlers (T := customer) ["item"])
    3600 false true None false HTTP.newResponseWriter
    (withPathValue "id" ("tt1" +:+ ".json") r)
  = createStreamHandler sampleDigest (scenarioStreamHandlers (T := customer) ["item"])
      3600 false true None false HTTP.newResponseWriter (withPathValue "id" "tt1" r).
Proof.
  intros r.
  exact (proj2 (json_extension_of_id_is_ignored (MetaPreviewItems := list string)
                  sampleDigest ∅ (scenarioStreamHandlers (T := customer) ["item"])
                  3600 false true None false HTTP.newResponseWriter r "tt1"
                  ltac:(discriminate) eq_refl)).
Defined.

(** X5.  The catalog and stream handlers touch five headers only:
    Content-Length, Content-Type, X-Content-Type-Options, Cache-Control
    and ETag.  Every header whose name is none of these, in whatever case
    it is spelled, such as one set by a middleware before the handler
    runs, is after the handler what it was before.  Header names are
    compared by their canonical form, under which Go stores them. *)
Theorem handlers_keep_other_headers {T MetaPreviewItems StreamItems : Type}
    `{JSON MetaPreviewItems, JSON StreamItems}
    (sha256_Sum256 : string -> string)
    (catalogs : gmap string (@CatalogHandler T MetaPreviewItems))
    (streams : gmap string (@StreamHandler T StreamItems))
    (cacheAge : Z) (cachePublic handleEtag : bool)
    (t : option (reflect_Type T)) (userDataIsBase64 : bool)
    (w : HTTP.ResponseWriter) (r : HTTP.Request) (k : string) :
  ~ In (Textproto.CanonicalMIMEHeaderKey k)
       (map Textproto.CanonicalMIMEHeaderKey handlerHeaders) ->
  HTTP.header (createCatalogHandler sha256_Sum256 catalogs cacheAge cachePublic
                 handleEtag t userDataIsBase64 w r) !! k = HTTP.header w !! k
  /\ HTTP.header (createStreamHandler sha256_Sum256 streams cacheAge cachePublic
                    handleEtag t userDataIsBase64 w r) !! k = HTTP.header w !! k.
Proof.
  intros Hk. apply handlers_keep_headers_aux.
  intros Hin. apply Hk. now apply in_map.
Qed.

(** A CORS header set before the scenario's stream handler runs is still
    there afterwards. *)
Lemma handlers_keep_other_headers_witness :
  let r := routed "/stream/movie/tt1.json" [("type", "movie"); ("id", "tt1.json")] [] in
  let w := HTTP.Header_Set "Access-Control-Allow-Origin" "*" HTTP.newResponseWriter in
  HTTP.header (createStreamHandler sampleDigest
                 (scenarioStreamHandlers (T := customer) ["item"])
                 3600 true true None false w r) !! "Access-Control-Allow-Origin"
  = HTTP.header w !! "Access-Control-Allow-Origin".
Proof.
  intros r w.
  refine (proj2 (handlers_keep_other_headers (MetaPreviewItems := list string)
                   sampleDigest ∅ (scenarioStreamHandlers (T := customer) ["item"])
                   3600 true true None false w r "Access-Control-Allow-Origin" _)).
  vm_compute. intros [Hf | [Hf | [Hf | [Hf | [Hf | []]]]]]; discriminate Hf.
Defined.

(** ** The subtitle handler *)

(** X6.  The answers of the subtitle handler.  Without a [videoId] query
    parameter the answer is 400; with user data that does not decode it is
    400; every error of the handler, the not-found sentinel too, gives
    500; otherwise the answer is 200 with the JSON form of the subtitles
    and a line feed as its body.  A successful answer carries
    Cache-Control, public with the max-age, exactly when the cache age is
    positive, and never gets an ETag; the public and ETag settings passed
    to the handler change nothing. *)
Theorem subtitle_handler_responses {T Subtitles : Type} `{JSON Subtitles}
    (handler : @SubtitleHandler T Subtitles)
    (cacheAge : Z) (cachePublic handleEtag : bool)
    (t : option (reflect_Type T)) (userDataIsBase64 : bool) (r : HTTP.Request) :
  let w := createSubtitleHandler handler cacheAge cachePublic handleEtag t
             userDataIsBase64 HTTP.newResponseWriter r in
  w = createSubtitleHandler handler cacheAge false false t userDataIsBase64
        HTTP.newResponseWriter r
  /\ HTTP.header w !! "ETag" = None
  /\ if String.eqb (HTTP.Query_Get r "videoId") ""
     then HTTP.status w = 400
          /\ HTTP.body w = "Missing videoId parameter" +:+ HTTP.newline
     else
       match decodeUserData (HTTP.Query_Get r "userData") t userDataIsBase64 with
       | (_, Some _) =>
           HTTP.status w = 400 /\ HTTP.body w = "Invalid user data" +:+ HTTP.newline
       | (userData, None) =>
           match handler (HTTP.Query_Get r "videoId") userData with
           | Err _ =>
               HTTP.status w = 500
               /\ HTTP.body w = "Failed to get subtitles" +:+ HTTP.newline
           | Ok subtitles =>
               HTTP.status w = 200
               /\ HTTP.body w = json_Marshal subtitles +:+ HTTP.newline
               /\ HTTP.header w !! "Content-Type" = Some "application/json"
               /\ HTTP.header w !! "Cache-Control"
                  = if 0 <? cacheAge
                    then Some ("public, max-age=" +:+ Strings.Itoa cacheAge)
                    else None
           end
       end.
Proof.
  intros w. subst w. split; [reflexivity |].
  unfold createSubtitleHandler.
  destruct (String.eqb (HTTP.Query_Get r "videoId") "").
  { split; [reflexivity | split; [now apply Error_status | now rewrite Error_body]]. }
  destruct (decodeUserData (HTTP.Query_Get r "userData") t userDataIsBase64)
    as [userData [err |]].
  { split; [reflexivity | split; [now apply Error_status | now rewrite Error_body]]. }
  destruct (handler (HTTP.Query_Get r "videoId") userData) as [subtitles | err].
  - destruct (0 <? cacheAge); repeat (split; try reflexivity).
  - split; [reflexivity | split; [now apply Error_status | now rewrite Error_body]].
Qed.

(** ** The CORS middleware and the status-capturing writer *)

Section MiddlewareFacts.

Import HTTP.

Lemma header_subtitles_other {T Subtitles : Type} `{JSON Subtitles}
    (handler : @SubtitleHandler T Subtitles)
    (cacheAge : Z) (cachePublic handleEtag : bool)
    (t : option (reflect_Type T)) (b : bool) (w : ResponseWriter) (r : Request)
    (k : string) :
  ~ In k handlerHeaders ->
  header (createSubtitleHandler handler cacheAge cachePublic handleEtag t b w r) !! k
  = header w !! k.
Proof.
  intros Hk.
  assert (Hcc : "Cache-Control" <> k) by (intros <-; apply Hk; cbn; auto 10).
  assert (Hct : "Content-Type" <> k) by (intros <-; apply Hk; cbn; auto 10).
  unfold createSubtitleHandler.
  destruct (String.eqb _ _); [now apply header_Error_other |].
  destruct (decodeUserData _ _ _) as [userData [err |]];
    [now apply header_Error_other |].
  destruct (handler _ _) as [subtitles | err]; [| now apply header_Error_other].
  unfold json_Encode. rewrite Write_header.
  destruct (0 <? cacheAge); cbn [header Header_Set];
    rewrite ?lookup_insert_ne by assumption; reflexivity.
Qed.

(** A response that gets the CORS headers and then goes through a handler
    that leaves them alone still carries them. *)
Lemma carries_corsHeaders {S : Type} (h : HTTP.Handler) (st : S)
    (w : ResponseWriter) (r : Request) :
  (forall (w : ResponseWriter) (k : string),
     ~ In k handlerHeaders -> header (h w r) !! k = header w !! k) ->
  carries corsHeaders (snd (corsMiddleware (Mux.stateless h) st w r)) = true.
Proof.
  intros Hh. unfold corsMiddleware, Mux.stateless, carries, corsHeaders.
  cbn [forallb fst snd].
  destruct (String.eqb (Method r) "OPTIONS"); cbn [snd].
  - rewrite !WriteHeader_header. cbn [header Header_Set].
    rewrite !bool_decide_eq_true_2; [reflexivity | | |].
    + now rewrite lookup_insert_eq.
    + rewrite lookup_insert_ne by discriminate. now rewrite lookup_insert_eq.
    + rewrite !lookup_insert_ne by discriminate. now rewrite lookup_insert_eq.
  - rewrite !Hh by (cbn; intros [Hf | [Hf | [Hf | [Hf | [Hf | []]]]]]; discriminate Hf).
    cbn [header Header_Set].
    rewrite !bool_decide_eq_true_2; [reflexivity | | |].
    + now rewrite lookup_insert_eq.
    + rewrite lookup_insert_ne by discriminate. now rewrite lookup_insert_eq.
    + rewrite !lookup_insert_ne by discriminate. now rewrite lookup_insert_eq.
Qed.

Lemma callsOnWrapper_writer (cs : list writerCall) (rw : responseWriter) :
  rw_ResponseWriter (callsOnWrapper cs rw) = callsOnWriter cs (rw_ResponseWriter rw).
Proof.
  revert rw. induction cs as [| c cs IH]; intros rw; [reflexivity |].
  cbn [callsOnWrapper callsOnWriter foldl].
  change (rw_ResponseWriter (callsOnWrapper cs (callWrapper c rw))
          = callsOnWriter cs (callWriter c (rw_ResponseWriter rw))).
  rewrite IH. now destruct c.
Qed.

Lemma callsOnWrapper_status (cs : list writerCall) (rw : responseWriter) :
  rw_statusCode (callsOnWrapper cs rw) = List.last (writeHeaderCodes cs) (rw_statusCode rw).
Proof.
  revert rw. induction cs as [| c cs IH]; intros rw; [reflexivity |].
  cbn [callsOnWrapper foldl].
  change (rw_statusCode (callsOnWrapper cs (callWrapper c rw))
          = List.last (writeHeaderCodes (c :: cs)) (rw_statusCode rw)).
  rewrite IH.
  destruct c; cbn [writeHeaderCodes callWrapper rw_statusCode]; try reflexivity.
  cbn [responseWriter_WriteHeader rw_statusCode].
  destruct (writeHeaderCodes cs) as [| c' l] eqn:Hl; [reflexivity |].
  cbn [List.last]. clear. revert c'. induction l as [| x l IHl]; intros c'; [reflexivity |].
  cbn [List.last]. apply IHl.
Qed.

Lemma callsOnWriter_sent (cs : list writerCall) (w : ResponseWriter) (code : Z) :
  statusCode w = Some code -> statusCode (callsOnWriter cs w) = Some code.
Proof.
  revert w. induction cs as [| c cs IH]; intros w Hw; [exact Hw |].
  cbn [callsOnWriter foldl].
  change (statusCode (callsOnWriter cs (callWriter c w)) = Some code).
  apply IH. destruct c; cbn [callWriter]; try exact Hw.
  - unfold WriteHeader. now rewrite Hw.
  - unfold Write, WriteHeader. rewrite Hw. cbn [statusCode]. exact Hw.
Qed.

Lemma callsOnWriter_status (cs : list writerCall) (w : ResponseWriter) :
  statusCode w = None ->
  statusCode (callsOnWriter cs w) = head (sendingCodes cs).
Proof.
  revert w. induction cs as [| c cs IH]; intros w Hw; [exact Hw |].
  cbn [callsOnWriter foldl].
  change (statusCode (callsOnWriter cs (callWriter c w)) = head (sendingCodes (c :: cs))).
  destruct c; cbn [sendingCodes callWriter head].
  - now apply IH.
  - now apply IH.
  - apply callsOnWriter_sent. unfold WriteHeader. now rewrite Hw.
  - apply callsOnWriter_sent. unfold Write, WriteHeader. now rewrite Hw.
Qed.

End MiddlewareFacts.

(** X7.  Behind [corsMiddleware], every answer of the catalog, stream and
    subtitle handlers carries the three CORS headers with the values the
    middleware set: no branch of these handlers, error or success,
    removes or replaces them.  An OPTIONS request is answered by the
    middleware itself, with 200, no body, these three headers and no
    other; the handler behind it is not called and the state is left as it
    was. *)
Theorem cors_headers_on_every_answer {T MetaPreviewItems StreamItems Subtitles S : Type}
    `{JSON MetaPreviewItems, JSON StreamItems, JSON Subtitles}
    (sha256_Sum256 : string -> string)
    (catalogs : gmap string (@CatalogHandler T MetaPreviewItems))
    (streams : gmap string (@StreamHandler T StreamItems))
    (subtitles : @SubtitleHandler T Subtitles)
    (cacheAge : Z) (cachePublic handleEtag : bool)
    (t : option (reflect_Type T)) (userDataIsBase64 : bool)
    (st : S) (w : HTTP.ResponseWriter) (r : HTTP.Request) :
  let behindCors (h : HTTP.Handler) := snd (corsMiddleware (Mux.stateless h) st w r) in
  carries corsHeaders
    (behindCors (createCatalogHandler sha256_Sum256 catalogs cacheAge cachePublic
                   handleEtag t userDataIsBase64)) = true
  /\ carries corsHeaders
       (behindCors (createStreamHandler sha256_Sum256 streams cacheAge cachePublic
                      handleEtag t userDataIsBase64)) = true
  /\ carries corsHeaders
       (behindCors (createSubtitleHandler subtitles cacheAge cachePublic handleEtag t
                      userDataIsBase64)) = true
  /\ forall next : Mux.Handler S,
       let answer := corsMiddleware next st HTTP.newResponseWriter r in
       if String.eqb (HTTP.Method r) "OPTIONS"
       then fst answer = st
            /\ HTTP.status (snd answer) = 200
            /\ HTTP.body (snd answer) = ""
            /\ HTTP.header (snd answer) = list_to_map corsHeaders
       else answer
            = next st
                (HTTP.Header_Set "Access-Control-Allow-Headers"
                   "Accept, Accept-Language, Content-Type, Origin, Accept-Encoding, Content-Language, X-Requested-With"
                   (HTTP.Header_Set "Access-Control-Allow-Methods" "GET,HEAD"
                      (HTTP.Header_Set "Access-Control-Allow-Origin" "*"
                         HTTP.newResponseWriter))) r.
Proof.
  intros behindCors. subst behindCors.
  split; [| split; [| split]].
  - apply carries_corsHeaders. intros w' k Hk.
    exact (proj1 (handlers_keep_headers_aux sha256_Sum256 catalogs streams cacheAge
                    cachePublic handleEtag t userDataIsBase64 w' r k Hk)).
  - apply carries_corsHeaders. intros w' k Hk.
    exact (proj2 (handlers_keep_headers_aux sha256_Sum256 catalogs streams cacheAge
                    cachePublic handleEtag t userDataIsBase64 w' r k Hk)).
  - apply carries_corsHeaders. intros w' k Hk. now apply header_subtitles_other.
  - intros next answer. subst answer. unfold corsMiddleware.
    destruct (String.eqb (HTTP.Method r) "OPTIONS"); [| reflexivity].
    cbn [fst snd]. split; [reflexivity | split; [reflexivity | split; [reflexivity |]]].
    rewrite WriteHeader_header. cbn [HTTP.header HTTP.Header_Set].
    apply map_eq. intros k. unfold corsHeaders. cbn [list_to_map foldr].
    reflexivity.
Qed.

(** X8.  The [responseWriter] of the logging middleware, for any calls a
    handler makes on it whose [WriteHeader] calls carry final status
    codes, 101 or a code from 200 to 999.  The writer it wraps ends as if
    the handler had been given that writer itself.  The status it records
    is the code of the last [WriteHeader] call, and 200 when there was
    none; the status that is sent is decided by the first call that is a
    [WriteHeader] or a [Write], the latter sending 200.  The two differ
    when a handler writes before it calls [WriteHeader], or calls it twice
    with different codes. *)
Theorem responseWriter_records_last_code (cs : list writerCall) :
  forallb finalCode (writeHeaderCodes cs) = true ->
  let rw := callsOnWrapper cs (wrapResponseWriter HTTP.newResponseWriter) in
  rw_ResponseWriter rw = callsOnWriter cs HTTP.newResponseWriter
  /\ rw_statusCode rw = List.last (writeHeaderCodes cs) 200
  /\ HTTP.status (rw_ResponseWriter rw) = List.hd 200 (sendingCodes cs).
Proof.
  intros _ rw. subst rw. split; [| split].
  - apply callsOnWrapper_writer.
  - apply callsOnWrapper_status.
  - rewrite callsOnWrapper_writer. unfold HTTP.status.
    cbn [wrapResponseWriter rw_ResponseWriter].
    rewrite callsOnWriter_status by reflexivity.
    now destruct (sendingCodes cs).
Qed.

(** A handler that writes its body and then reports an error: 200 is
    sent and 500 is recorded. *)
Lemma responseWriter_records_last_code_witness :
  let rw := callsOnWrapper [CallWrite "partial"; CallWriteHeader 500]
              (wrapResponseWriter HTTP.newResponseWriter) in
  rw_statusCode rw = 500 /\ HTTP.status (rw_ResponseWriter rw) = 200.
Proof.
  intros rw.
  destruct (responseWriter_records_last_code
              [CallWrite "partial"; CallWriteHeader 500] eq_refl) as [_ [Hr Hs]].
  split; [exact Hr | exact Hs].
Defined.

(** ** Copies of the manifest *)

Section CloneFacts.

Lemma cloneSlice_same {A : Type} (cloneElement : A -> A) (s : slice A) :
  (forall x, cloneElement x = x) -> cloneSlice cloneElement s = s.
Proof.
  intros Hc. destruct s as [l |]; [| reflexivity]. cbn [cloneSlice]. f_equal.
  induction l as [| x l IH]; [reflexivity |]. cbn [map]. now rewrite Hc, IH.
Qed.

Lemma ExtraItem_clone_same (ei : ExtraItem) : ExtraItem_clone ei = ei.
Proof.
  destruct ei. unfold ExtraItem_clone. cbn.
  now rewrite cloneSlice_same by reflexivity.
Qed.

Lemma CatalogItem_clone_same (ci : CatalogItem) : CatalogItem_clone ci = ci.
Proof.
  destruct ci. unfold CatalogItem_clone. cbn.
  now rewrite (cloneSlice_same _ _ ExtraItem_clone_same).
Qed.

Lemma ResourceItem_clone_same (ri : ResourceItem) : ResourceItem_clone ri = ri.
Proof.
  destruct ri. unfold ResourceItem_clone. cbn.
  now rewrite !cloneSlice_same by reflexivity.
Qed.

End CloneFacts.

(** X9.  [Manifest.clone] returns a manifest equal to the one it is
    called on, field by field and down through the resource items, the
    catalogs and their extras: every slice has the same elements in the
    same order, a nil slice stays nil and an empty slice stays empty, so
    the copy has the same JSON form as the original. *)
Theorem Manifest_clone_same `{JSON Manifest} (m : Manifest) :
  Manifest_clone m = m /\ json_Marshal (Manifest_clone m) = json_Marshal m.
Proof.
  assert (Hm : Manifest_clone m = m).
  { destruct m. unfold Manifest_clone. cbn.
    rewrite (cloneSlice_same _ _ ResourceItem_clone_same).
    rewrite (cloneSlice_same _ _ CatalogItem_clone_same).
    now rewrite !cloneSlice_same by reflexivity. }
  split; [exact Hm | now rewrite Hm].
Qed.

(** ** The metadata middleware *)


(** ** What [Run] registers *)

Section RunFacts.

Lemma Handle_unparsed {S : Type} (mux : Mux.ServeMux S) (p : string) (h : Mux.Handler S) :
  Mux.parsePattern p = None -> Mux.Handle mux p h = None.
Proof. intros Hp. unfold Mux.Handle. now rewrite Hp. Qed.

Lemma bind_always_None {A B : Type} (x : option A) (f : A -> option B) :
  (forall y, f y = None) -> x ≫= f = None.
Proof. intros Hf. destruct x as [y |]; [apply Hf | reflexivity]. Qed.

Lemma optional_then_unparsed {S : Type} (b : bool) (mux : Mux.ServeMux S)
    (p1 p2 : string) (h1 h2 : Mux.Handler S) :
  Mux.parsePattern p2 = None ->
  (mux1 ← (if b then Some mux else Mux.Handle mux p1 h1); Mux.Handle mux1 p2 h2) = None.
Proof. intros Hp. apply bind_always_None. intros y. now apply Handle_unparsed. Qed.

End RunFacts.

(** X11.  [Run] creates no server for an addon that has a catalog or a
    stream handler map.  For such a map it registers the pattern with the
    user data in front, [/{userData}/catalog/{type}/{id}.json] or
    [/{userData}/stream/{type}/{id}.json], whose last segment is a
    wildcard followed by [.json]; the mux accepts a wildcard only as a
    whole segment and panics on the pattern.  Every addon that [NewAddon]
    returns has such a map, so [Run] stops at these registrations for each
    of them. *)
Theorem Run_creates_no_server
    {T MetaPreviewItems StreamItems ConfigMap ConfigurationUI Meta FileSystem : Type}
    `{JSON Manifest, JSON MetaPreviewItems, JSON StreamItems,
      JSON ConfigMap, JSON ConfigurationUI}
    (sha256_Sum256 : string -> string)
    (regexp_Compile : string -> result (string -> bool)) :
  Mux.parsePattern "/{userData}/catalog/{type}/{id}.json" = None
  /\ Mux.parsePattern "/{userData}/stream/{type}/{id}.json" = None
  /\ (forall a : @Addon T MetaPreviewItems StreamItems ConfigMap ConfigurationUI
                   Meta FileSystem,
        isSome (catalogHandlers a) || isSome (streamHandlers a) = true ->
        Run sha256_Sum256 regexp_Compile a = None)
  /\ (forall (cinemeta_NewClient : Z -> Logger -> @MetaFetcher Meta) (m : Manifest)
        (catalogs : option (gmap string (@CatalogHandler T MetaPreviewItems)))
        (streams : option (gmap string (@StreamHandler T StreamItems)))
        (o : @Options Meta FileSystem)
        (a : @Addon T MetaPreviewItems StreamItems ConfigMap ConfigurationUI
               Meta FileSystem),
        NewAddon cinemeta_NewClient m catalogs streams o = Ok a ->
        Run sha256_Sum256 regexp_Compile a = None).
Proof.
  assert (Hrun : forall a : @Addon T MetaPreviewItems StreamItems ConfigMap
                               ConfigurationUI Meta FileSystem,
             isSome (catalogHandlers a) || isSome (streamHandlers a) = true ->
             Run sha256_Sum256 regexp_Compile a = None).
  { intros a Ha. unfold Run. cbv zeta.
    do 3 (apply bind_always_None; intros ?).
    destruct (catalogHandlers a) as [catalogs |].
    - rewrite optional_then_unparsed by reflexivity. reflexivity.
    - destruct (streamHandlers a) as [streams |]; [| discriminate Ha].
      cbn [mbind option_bind]. rewrite optional_then_unparsed by reflexivity.
      reflexivity. }
  split; [reflexivity | split; [reflexivity | split; [exact Hrun |]]].
  intros cinemeta_NewClient m catalogs streams o a Hnew. apply Hrun.
  revert Hnew. unfold NewAddon. cbv zeta.
  destruct (_ || _); [discriminate |].
  destruct (isNone catalogs && isNone streams) eqn:Hnone; [discriminate |].
  repeat match goal with
         | |- (if ?c then _ else _) = Ok _ -> _ => destruct c; [discriminate |]
         end.
  intros [= <-]. cbn [catalogHandlers streamHandlers].
  now destruct catalogs, streams.
Qed.

(** The scenario's addon, which [NewAddon] returns for the scenario's
    manifest and stream handler with the default options. *)
Lemma Run_creates_no_server_witness :
  Run sampleDigest ttRegexp sampleAddon = None.
Proof.
  exact (proj2 (proj2 (proj2 (Run_creates_no_server sampleDigest ttRegexp)))
           sampleMetaClient scenarioManifest None
           (Some (scenarioStreamHandlers ["item"])) DefaultOptions sampleAddon eq_refl).
Defined.

(** ** The mux that the route matcher wraps *)

Section WrapperFacts.

Import HTTP.




End WrapperFacts.



(** ** The addon that [NewAddon] returns *)

(** X18.  What holds of every addon that [NewAddon] returns.  It holds
    the manifest and the handler maps it was given, and nothing else yet:
    no custom endpoint, callback, user data type, configuration handler or
    configuration page.  The manifest has an id, a name, a description and
    a version, and there is a catalog or a stream handler map.  Its
    options are the given ones with the address, the port, the logging
    level and the log encoding filled in, so none of these is empty or
    zero; public caching or ETag handling is never on with a cache age of
    zero; an addon that requires configuration is configurable.  It has a
    metadata client exactly when the media name is to be logged or the
    metadata is to be put in the context. *)
Theorem NewAddon_result
    {T MetaPreviewItems StreamItems ConfigMap ConfigurationUI Meta FileSystem : Type}
    (cinemeta_NewClient : Z -> Logger -> @MetaFetcher Meta)
    (m : Manifest)
    (catalogs : option (gmap string (@CatalogHandler T MetaPreviewItems)))
    (streams : option (gmap string (@StreamHandler T StreamItems)))
    (o : @Options Meta FileSystem)
    (a : @Addon T MetaPreviewItems StreamItems ConfigMap ConfigurationUI Meta FileSystem) :
  NewAddon cinemeta_NewClient m catalogs streams o = Ok a ->
  (manifest a = m /\ catalogHandlers a = catalogs /\ streamHandlers a = streams
   /\ customEndpoints a = [] /\ isNone (manifestCallback a) = true
   /\ isNone (userDataType a) = true /\ isNone (configHandler a) = true
   /\ isNone (configUI a) = true)
  /\ (ID m <> "" /\ Name m <> "" /\ Description m <> "" /\ Version m <> ""
      /\ isSome catalogs || isSome streams = true)
  /\ (opts a = withDefaults cinemeta_NewClient o
      /\ BindAddr (opts a) <> "" /\ Port (opts a) <> 0
      /\ LoggingLevel (opts a) <> "" /\ LogEncoding (opts a) <> ""
      /\ opt_Logger (opts a) = Some (logger a)
      /\ cachingWithoutAge (opts a) = false)
  /\ implb (ConfigurationRequired (manifest_BehaviorHints m))
           (Configurable (manifest_BehaviorHints m)) = true
  /\ metaClient a = MetaClient (opts a)
  /\ isSome (metaClient a) = LogMediaName o || PutMetaInContext o.
Proof.
  unfold NewAddon. cbv zeta. intros Hnew.
  repeat match type of Hnew with
         | (if ?c then _ else _) = Ok _ =>
             let E := fresh "E" in destruct c eqn:E; [discriminate Hnew |]
         end.
  injection Hnew as <-.
  cbn [manifest catalogHandlers streamHandlers customEndpoints manifestCallback
       userDataType configHandler configUI opts logger metaClient].
  repeat match goal with
         | E : _ || _ = false |- _ => apply orb_false_iff in E as [? ?]
         end.
  split; [repeat (split; [reflexivity |]); reflexivity |].
  split.
  { repeat match goal with
           | E : String.eqb _ "" = false |- _ => apply String.eqb_neq in E
           end.
    repeat (split; [assumption |]).
    destruct catalogs, streams; try reflexivity. discriminate. }
  split.
  { split; [reflexivity |].
    unfold withDefaults. cbn [BindAddr Port LoggingLevel LogEncoding opt_Logger
      CachePublicCatalogs CacheAgeCatalogs CachePublicStreams CacheAgeStreams
      HandleEtagCatalogs HandleEtagStreams DefaultOptions].
    split; [destruct (String.eqb_spec (BindAddr o) ""); [discriminate | assumption] |].
    split; [destruct (Z.eqb_spec (Port o) 0); [discriminate | assumption] |].
    split; [destruct (String.eqb_spec (LoggingLevel o) ""); [discriminate | assumption] |].
    split; [destruct (String.eqb_spec (LogEncoding o) ""); [discriminate | assumption] |].
    split; [now destruct (opt_Logger o) |].
    unfold cachingWithoutAge. cbn [CachePublicCatalogs CacheAgeCatalogs
      CachePublicStreams CacheAgeStreams HandleEtagCatalogs HandleEtagStreams].
    repeat match goal with E : _ = false |- _ => rewrite E; clear E end.
    reflexivity. }
  split.
  { destruct (ConfigurationRequired _), (Configurable _); try reflexivity.
    discriminate. }
  split; [reflexivity |].
  unfold withDefaults. cbn [MetaClient].
  destruct (MetaClient o) as [client |]; cbn [isSome isNone negb andb] in *.
  - destruct (LogMediaName o), (PutMetaInContext o); try reflexivity. discriminate.
  - now destruct (LogMediaName o || PutMetaInContext o).
Qed.

(** The scenario's addon is what [NewAddon] returns for the scenario's
    manifest and stream handler with the default options. *)
Lemma NewAddon_result_witness :
  NewAddon (ConfigMap := unit) (ConfigurationUI := unit) sampleMetaClient
    scenarioManifest None (Some (scenarioStreamHandlers ["item"])) DefaultOptions
  = Ok sampleAddon
  /\ isSome (metaClient sampleAddon) = false.
Proof.
  split; [reflexivity |].
  exact (proj2 (proj2 (proj2 (proj2 (proj2
           (NewAddon_result sampleMetaClient scenarioManifest None
              (Some (scenarioStreamHandlers ["item"])) DefaultOptions sampleAddon
              eq_refl)))))).
Defined.

(** ** User data that reaches the handlers *)

Section UserDataFacts.

Lemma sextets_outside_alphabet (s : string) (c : ascii) :
  In c (list_ascii_of_string s) ->
  Base64.decodeMap c = None -> Base64.isNewline c = false ->
  Base64.sextets s = Err CorruptInputError.
Proof.
  intros Hin Hmap Hnl. induction s as [| c' r IH]; [destruct Hin |].
  cbn [list_ascii_of_string] in Hin. cbn [Base64.sextets].
  destruct Hin as [-> | Hin].
  - now rewrite Hmap, Hnl.
  - rewrite (IH Hin). destruct (Base64.decodeMap c'); [reflexivity |].
    now destruct (Base64.isNewline c').
Qed.

End UserDataFacts.

(** X19.  The subtitle endpoint decodes user data with the user data type
    that was registered when [AddSubtitleHandler] was called.  Added to an
    addon without a registered type, the endpoint keeps decoding without
    one after a later [RegisterUserData]: it hands the empty string to the
    subtitle handler as user data for every request, whatever the request
    carries.  Added after [RegisterUserData], it decodes into the
    registered type. *)
Theorem subtitle_endpoint_keeps_user_data_type
    {T MetaPreviewItems StreamItems ConfigMap ConfigurationUI Meta FileSystem
     Subtitles : Type} `{JSON Subtitles}
    (a : @Addon T MetaPreviewItems StreamItems ConfigMap ConfigurationUI Meta FileSystem)
    (subtitles : @SubtitleHandler T Subtitles) (t : reflect_Type T) :
  userDataType a = None ->
  let endpoint (userDataType : option (reflect_Type T)) :=
    createSubtitleHandler subtitles (seconds (CacheAgeStreams (opts a)))
      (CachePublicStreams (opts a)) (HandleEtagStreams (opts a)) userDataType
      (UserDataIsBase64 (opts a)) in
  map endpoint_handler (customEndpoints (RegisterUserData t (AddSubtitleHandler subtitles a)))
  = app (map endpoint_handler (customEndpoints a)) [endpoint None]
  /\ map endpoint_handler
       (customEndpoints (AddSubtitleHandler subtitles (RegisterUserData t a)))
     = app (map endpoint_handler (customEndpoints a)) [endpoint (Some t)]
  /\ forall (w : HTTP.ResponseWriter) (r : HTTP.Request),
       endpoint None w r
       = createSubtitleHandler (T := T)
           (fun videoID _ => subtitles videoID (anyString ""))
           (seconds (CacheAgeStreams (opts a))) (CachePublicStreams (opts a))
           (HandleEtagStreams (opts a)) None (UserDataIsBase64 (opts a)) w r.
Proof.
  intros Ht endpoint. subst endpoint.
  unfold RegisterUserData, AddSubtitleHandler. cbn [customEndpoints opts userDataType].
  rewrite !map_app, Ht. cbn [map endpoint_handler].
  split; [reflexivity | split; [reflexivity |]].
  intros w r. unfold createSubtitleHandler.
  rewrite decodeUserData_untyped. reflexivity.
Qed.

(** The scenario's addon: the subtitle endpoint added before the
    registration of the customer type answers a request with the user data
    of a customer from the empty string. *)
Lemma subtitle_endpoint_keeps_user_data_type_witness :
  let subtitles : @SubtitleHandler customer (list string) :=
    fun _ userData => match userData with
                      | anyPtr c => Ok [UserID c]
                      | _ => Ok []
                      end in
  map (fun h => HTTP.body (h HTTP.newResponseWriter
                             {| HTTP.Method := "GET"; HTTP.URL_Path := "/subtitles";
                                HTTP.URL_Query :=
                                  {[ "videoId" := "tt1"; "userData" := "%7B%7D" ]};
                                HTTP.Header := ∅; HTTP.PathValues := ∅ |}))
      (map endpoint_handler
         (customEndpoints (RegisterUserData customerType
                             (AddSubtitleHandler subtitles sampleAddon))))
  = ["[]" +:+ HTTP.newline].
Proof.
  intros subtitles.
  rewrite (proj1 (subtitle_endpoint_keeps_user_data_type sampleAddon subtitles
                    customerType eq_refl)).
  reflexivity.
Defined.

(** X20.  Base64 user data with a character outside the URL-safe
    alphabet, such as the [+] and [/] of the standard alphabet or a second
    [=] of padding, is refused when a user data type is registered:
    [decodeUserData] returns nil with the error of corrupt input, and the
    manifest handler answers 400 without calling the callback or changing
    the manifest. *)
Theorem user_data_outside_alphabet_is_refused {T : Type} `{JSON Manifest}
    (data : string) (c : ascii) (t : reflect_Type T)
    (callback : option (@ManifestCallback T)) (m : Manifest) (r : HTTP.Request) :
  In c (list_ascii_of_string (Strings.TrimSuffix data "=")) ->
  Base64.decodeMap c = None -> Base64.isNewline c = false ->
  decodeUserData data (Some t) true = (anyNil, Some CorruptInputError)
  /\ (requestUserData r = data ->
      let answer := createManifestHandler callback (Some t) true m
                      HTTP.newResponseWriter r in
      fst answer = m
      /\ HTTP.status (snd answer) = 400
      /\ HTTP.body (snd answer) = "Invalid user data" +:+ HTTP.newline).
Proof.
  intros Hin Hmap Hnl.
  assert (Hne : data <> "") by (intros ->; destruct Hin).
  assert (Hd : decodeUserData data (Some t) true = (anyNil, Some CorruptInputError)).
  { rewrite decodeUserData_typed by exact Hne. unfold decodedBytes, Base64.DecodeString.
    now rewrite (sextets_outside_alphabet _ c Hin Hmap Hnl). }
  split; [exact Hd |].
  intros Hr answer. subst answer. unfold createManifestHandler. rewrite Hr, Hd.
  cbn [fst snd]. split; [reflexivity | split; [reflexivity | now rewrite Error_body]].
Qed.

(** User data in the standard alphabet: the text [P34/] is the standard
    form of what the URL-safe alphabet writes [P34_]. *)
Lemma user_data_outside_alphabet_is_refused_witness :
  decodeUserData "P34/" (Some customerType) true = (anyNil, Some CorruptInputError).
Proof.
  refine (proj1 (user_data_outside_alphabet_is_refused "P34/" "/"%char customerType
                   None scenarioManifest (GET "/manifest.json") _ eq_refl eq_refl)).
  cbn. auto.
Defined.

(** ** Answers that report an error *)

Section ErrorFacts.

Import HTTP.

Lemma Error_fresh_headers (msg : string) (code : Z) :
  header (Error newResponseWriter msg code)
  = {[ "Content-Type" := "text/plain; charset=utf-8";
       "X-Content-Type-Options" := "nosniff" ]}.
Proof.
  unfold Error. rewrite Write_header, WriteHeader_header.
  apply map_eq. intros k. reflexivity.
Qed.

End ErrorFacts.

(** X21.  An answer of the catalog, stream or subtitle handler with a
    status of 400 or more is never made cacheable: whatever the cache
    age, the public caching and the ETag handling are set to, it carries no
    Cache-Control and no ETag header, and its headers are exactly the
    content type of plain text and X-Content-Type-Options [nosniff]. *)
Theorem error_answers_are_not_cacheable {T MetaPreviewItems StreamItems Subtitles : Type}
    `{JSON MetaPreviewItems, JSON StreamItems, JSON Subtitles}
    (sha256_Sum256 : string -> string)
    (catalogs : gmap string (@CatalogHandler T MetaPreviewItems))
    (streams : gmap string (@StreamHandler T StreamItems))
    (subtitles : @SubtitleHandler T Subtitles)
    (cacheAge : Z) (cachePublic handleEtag : bool)
    (t : option (reflect_Type T)) (userDataIsBase64 : bool) (r : HTTP.Request)
    (w : HTTP.ResponseWriter) :
  In w [createCatalogHandler sha256_Sum256 catalogs cacheAge cachePublic handleEtag t
          userDataIsBase64 HTTP.newResponseWriter r;
        createStreamHandler sha256_Sum256 streams cacheAge cachePublic handleEtag t
          userDataIsBase64 HTTP.newResponseWriter r;
        createSubtitleHandler subtitles cacheAge cachePublic handleEtag t
          userDataIsBase64 HTTP.newResponseWriter r] ->
  400 <= HTTP.status w ->
  HTTP.header w !! "Cache-Control" = None
  /\ HTTP.header w !! "ETag" = None
  /\ HTTP.header w = {[ "Content-Type" := "text/plain; charset=utf-8";
                        "X-Content-Type-Options" := "nosniff" ]}.
Proof.
  intros Hw Hs.
  assert (He : exists msg code, w = HTTP.Error HTTP.newResponseWriter msg code).
  { destruct Hw as [<- | [<- | [<- | []]]].
    - destruct (handlerResult catalogs t userDataIsBase64 r) as [[items | err] |] eqn:Hres.
      + erewrite createCatalogHandler_result in Hs by exact Hres.
        cbv beta iota in Hs. rewrite respondWithItems_status in Hs by reflexivity.
        exfalso. destruct (_ && _); apply Hs; reflexivity.
      + erewrite createCatalogHandler_result by exact Hres. now eexists _, _.
      + erewrite createCatalogHandler_refusal by exact Hres. now eexists _, _.
    - destruct (handlerResult streams t userDataIsBase64 r) as [[items | err] |] eqn:Hres.
      + erewrite createStreamHandler_result in Hs by exact Hres.
        cbv beta iota in Hs. rewrite respondWithItems_status in Hs by reflexivity.
        exfalso. destruct (_ && _); apply Hs; reflexivity.
      + erewrite createStreamHandler_result by exact Hres. cbv beta iota.
        destruct (errors_Is err ErrNotFound); now eexists _, _.
      + erewrite createStreamHandler_refusal by exact Hres. now eexists _, _.
    - revert Hs. unfold createSubtitleHandler.
      destruct (String.eqb _ _); [intros _; now eexists _, _ |].
      destruct (decodeUserData _ _ _) as [userData [err |]];
        [intros _; now eexists _, _ |].
      destruct (subtitles _ _) as [items | err]; [| intros _; now eexists _, _].
      intros Hs. exfalso. unfold json_Encode in Hs.
      rewrite Write_status_fresh in Hs
        by (destruct (0 <? cacheAge); reflexivity).
      apply Hs. reflexivity. }
  destruct He as [msg [code ->]]. rewrite Error_fresh_headers.
  split; [reflexivity | split; reflexivity].
Qed.

(** The catalog example with its caching of 24 hours and its ETag
    handling: the answer to a catalog it does not have. *)
Lemma error_answers_are_not_cacheable_witness :
  let w := createCatalogHandler sampleDigest
             (blenderCatalogHandlers (T := customer) ["item"]) 86400 true true None false
             HTTP.newResponseWriter
             (routed "/catalog/movie/other.json" [("type", "movie"); ("id", "other")] []) in
  HTTP.status w = 500 /\ HTTP.header w !! "Cache-Control" = None.
Proof.
  intros w. split; [reflexivity |].
  refine (proj1 (error_answers_are_not_cacheable (StreamItems := list string)
                   (Subtitles := list string) sampleDigest
                   (blenderCatalogHandlers (T := customer) ["item"]) ∅
                   (fun _ _ => Ok []) 86400 true true None false
                   (routed "/catalog/movie/other.json"
                      [("type", "movie"); ("id", "other")] []) w _ _)).
  - now left.
  - vm_compute. discriminate.
Defined.
